(** * The typography module of basil.js (src/includes/typography.js)

    A shallow embedding of the typography entry points ([text], [textAlign],
    [textFont], [textKerning], [textLeading], [textSize], [textTracking],
    [typo], [applyCharacterStyle], [applyParagraphStyle], [characterStyle],
    [paragraphStyle]) over an explicit model of the scripting host.

    - JavaScript numbers are IEEE 754 binary64 values: the kernel's [float].
    - The process-wide [curr*] variables are the fields of [context].
    - The host's object graph is a store of objects addressed by reference;
      a script value that denotes a host object is a reference into it, so
      two handles on one paragraph see each other's writes.
    - A function of the script is a state transformer that either returns,
      throws, or runs out of fuel ([typo] calls itself on the text frames of
      a document, page or layer). *)

From Stdlib Require Import Floats.
From stdpp Require Import gmap strings list.

Set Warnings "-register-all".

(** ** Script values *)

(** A reference to a host object: its index in the store. *)
Abbreviation ref := nat.

Inductive FontStatus :=
  INSTALLED | NOT_AVAILABLE | FAUXED | SUBSTITUTED | UNKNOWN.

(** A font of the host application: [name] is the key of [app.fonts]
    (family, a tab, style). *)
Record Font := MkFont {
  name : string;
  fontFamily : string;
  fontStyleName : string;
  status : FontStatus
}.

Inductive value : Type :=
  | VUndefined
  | VNull
  | VBool (b : bool)
  | VNum (n : float)
  | VStr (s : string)
  | VEnum (e : string)                  (* a host enumerator, e.g. Justification.LEFT_ALIGN *)
  | VFont (f : Font)
  | VRef (r : ref)                      (* a host object *)
  | VEvery (rs : list ref)              (* collection.everyItem() *)
  | VObj (kvs : list (string * value))  (* an object literal, keys in insertion order *)
  | VArr (vs : list value).

(** [property] of [typo]: a property name or an object of name/value pairs
    (JSDoc: String|Object). *)
Inductive property :=
  | PStr (prop : string)
  | PObj (kvs : list (string * value)).

(** The classes of host objects the module tests with [instanceof]. *)
Inductive hclass :=
  | Document | Spread | Page | Layer
  | Story | TextFrame | TextPath
  | Text | Paragraph | Line | Word | Character
  | Rectangle | Oval | Polygon | GraphicLine | Group
  | CharacterStyle | ParagraphStyle.

#[global] Instance hclass_eq_dec : EqDecision hclass.
Proof. solve_decision. Defined.

#[global] Instance FontStatus_eq_dec : EqDecision FontStatus.
Proof. solve_decision. Defined.

(** Modelled from the spec: the four mutually exclusive rectangle
    interpretation modes [pub.CORNER], [pub.CORNERS], [pub.CENTER] and
    [pub.RADIUS]; the constants are declared outside typography.js. *)
Inductive rectmode := CORNER | CORNERS | CENTER | RADIUS.

#[global] Instance rectmode_eq_dec : EqDecision rectmode.
Proof. solve_decision. Defined.

(** ** The host's object store *)

(** A host object: its class, whether the reference is still live, its
    scalar properties ([textItem[prop]]), its child collections
    ([item.textFrames], [item.paragraphs], ...) and the transformations
    requested on it, oldest first. *)
Record hobj := HObj {
  cls : hclass;
  valid : bool;
  props : gmap string value;
  colls : gmap string (list ref);
  transforms : list (value * value * value)
}.

(** The Current Typography Context. *)
Record context := Context {
  currFont : Font;
  currFontSize : float;
  currFillColor : value;
  currAlign : value;
  currYAlign : value;
  currLeading : value;
  currKerning : value;
  currTracking : value;
  currRectMode : rectmode;
  currMatrix : value
}.

Record state := State {
  ctx : context;
  heap : list hobj;
  app_fonts : list Font;       (* app.fonts *)
  accepts_properties : hclass -> value -> bool;
                               (* whether the host takes [obj.properties = v]
                                  for an object of the class *)
  currDoc : ref;               (* currentDoc() *)
  currPage : ref;              (* currentPage() *)
  currLayer : ref;             (* currentLayer() *)
  warnings : list string       (* the warnings emitted so far, oldest first *)
}.

Definition with_ctx (c : context) (st : state) : state :=
  State c (heap st) (app_fonts st) (accepts_properties st) (currDoc st)
        (currPage st) (currLayer st) (warnings st).

Definition with_heap (h : list hobj) (st : state) : state :=
  State (ctx st) h (app_fonts st) (accepts_properties st) (currDoc st)
        (currPage st) (currLayer st) (warnings st).

Definition with_warnings (w : list string) (st : state) : state :=
  State (ctx st) (heap st) (app_fonts st) (accepts_properties st) (currDoc st)
        (currPage st) (currLayer st) w.

Definition with_currFont (f : Font) (c : context) : context :=
  Context f (currFontSize c) (currFillColor c) (currAlign c) (currYAlign c)
          (currLeading c) (currKerning c) (currTracking c) (currRectMode c)
          (currMatrix c).

Definition with_currFontSize (n : float) (c : context) : context :=
  Context (currFont c) n (currFillColor c) (currAlign c) (currYAlign c)
          (currLeading c) (currKerning c) (currTracking c) (currRectMode c)
          (currMatrix c).

Definition with_currAlign (v : value) (c : context) : context :=
  Context (currFont c) (currFontSize c) (currFillColor c) v (currYAlign c)
          (currLeading c) (currKerning c) (currTracking c) (currRectMode c)
          (currMatrix c).

Definition with_currYAlign (v : value) (c : context) : context :=
  Context (currFont c) (currFontSize c) (currFillColor c) (currAlign c) v
          (currLeading c) (currKerning c) (currTracking c) (currRectMode c)
          (currMatrix c).

Definition with_currLeading (v : value) (c : context) : context :=
  Context (currFont c) (currFontSize c) (currFillColor c) (currAlign c)
          (currYAlign c) v (currKerning c) (currTracking c) (currRectMode c)
          (currMatrix c).

Definition with_currKerning (v : value) (c : context) : context :=
  Context (currFont c) (currFontSize c) (currFillColor c) (currAlign c)
          (currYAlign c) (currLeading c) v (currTracking c) (currRectMode c)
          (currMatrix c).

Definition with_currTracking (v : value) (c : context) : context :=
  Context (currFont c) (currFontSize c) (currFillColor c) (currAlign c)
          (currYAlign c) (currLeading c) (currKerning c) v (currRectMode c)
          (currMatrix c).

(** ** Script computations *)

(** How a call ends: it returns a value, an error propagates out of it, or
    the embedding's recursion bound is exhausted. *)
Inductive outcome (A : Type) :=
  | Return (a : A)
  | Throw (msg : string)
  | OutOfFuel.
Arguments Return {A} a.
Arguments Throw {A} msg.
Arguments OutOfFuel {A}.

Definition M (A : Type) : Type := state -> outcome A * state.

Definition ret {A} (a : A) : M A := fun st => (Return a, st).

Definition bind {A B} (m : M A) (k : A -> M B) : M B := fun st =>
  match m st with
  | (Return a, st') => k a st'
  | (Throw msg, st') => (Throw msg, st')
  | (OutOfFuel, st') => (OutOfFuel, st')
  end.

Notation "x <- m ;; k" := (bind m (fun x => k))
  (at level 100, m at next level, right associativity).
Notation "m ;;; k" := (bind m (fun _ => k))
  (at level 100, right associativity).

Definition gets {A} (f : state -> A) : M A := fun st => (Return (f st), st).
Definition modify (f : state -> state) : M unit := fun st => (Return tt, f st).
Definition out_of_fuel {A} : M A := fun st => (OutOfFuel, st).

(** Modelled from the spec: [error] and [warning] are defined outside
    typography.js. A hard error terminates the script invocation (it
    propagates as an exception); a warning is emitted and the call goes on. *)
Definition error {A} (msg : string) : M A := fun st => (Throw msg, st).
Definition warning (msg : string) : M unit :=
  modify (fun st => with_warnings (warnings st ++ [msg]) st).

(** [try { m } catch (e) { h }]. *)
Definition try_catch {A} (m : M A) (h : M A) : M A := fun st =>
  match m st with
  | (Throw _, st') => h st'
  | r => r
  end.

(** ** JavaScript helpers *)

Definition tab : string := String (Ascii.ascii_of_nat 9) EmptyString.
Definition cr : Ascii.ascii := Ascii.ascii_of_nat 13.
Definition dq : string := String (Ascii.ascii_of_nat 34) EmptyString.

(** [s.replace(c, d)] for one-character strings: the first occurrence only. *)
Fixpoint replace_first (c d : Ascii.ascii) (s : string) : string :=
  match s with
  | EmptyString => EmptyString
  | String a s' =>
      if Ascii.eqb a c then String d s' else String a (replace_first c d s')
  end.

(** [arguments[i]], [undefined] beyond [arguments.length]. *)
Definition arg (i : nat) (args : list value) : value := nth i args VUndefined.

(** [v === undefined || v === null]. *)
Definition is_nullish (v : value) : bool :=
  match v with
  | VUndefined | VNull => true
  | _ => false
  end.

(** ToBoolean. *)
Definition truthy (v : value) : bool :=
  match v with
  | VUndefined | VNull => false
  | VBool b => b
  | VNum n => negb (PrimFloat.eqb n 0 || PrimFloat.is_nan n)
  | VStr s => negb (String.eqb s EmptyString)
  | _ => true
  end.

(** Modelled from the spec: [isString] and [isNumber] are defined outside
    typography.js; they recognise string and number values. *)
Definition isString (v : value) : bool :=
  match v with VStr _ => true | _ => false end.
Definition isNumber (v : value) : bool :=
  match v with VNum _ => true | _ => false end.

(** ** Host operations

    The host is the external collaborator of the module. Its operations are
    modelled by what the script can observe of them: property reads and
    writes on live objects, child collections, object creation. Touching an
    object that is gone is the host's invalid-object error.

    The model does not follow the layout. A plain assignment
    [obj[prop] = v] to a live object is taken and changes that property of
    that object; the reflow of the text that may follow in the host, which
    the comment at lines 306 to 308 guards against and which can take
    paragraphs out of reach, is not modelled. Where the module itself
    provides for the host's refusal (the [try] around
    [style.properties = props]) or asks the host for an answer ([app.fonts],
    [x.getElements()]), the answer is data of the state. *)

Definition invalid_object : string := "Object is invalid".

Definition new_obj (c : hclass) : hobj := HObj c true ∅ ∅ [].

Definition set_prop (prop : string) (v : value) (o : hobj) : hobj :=
  HObj (cls o) (valid o) (<[prop := v]> (props o)) (colls o) (transforms o).

Definition set_coll (nm : string) (rs : list ref) (o : hobj) : hobj :=
  HObj (cls o) (valid o) (props o) (<[nm := rs]> (colls o)) (transforms o).

Definition coll_of (o : hobj) (nm : string) : list ref :=
  default [] (colls o !! nm).

Definition push_coll (nm : string) (r : ref) (o : hobj) : hobj :=
  set_coll nm (coll_of o nm ++ [r]) o.

Definition push_transform (t : value * value * value) (o : hobj) : hobj :=
  HObj (cls o) (valid o) (props o) (colls o) (transforms o ++ [t]).

Definition live (st : state) (r : ref) : bool :=
  match heap st !! r with
  | Some o => valid o
  | None => false
  end.

(** [item.nm] for a child collection of a host object. *)
Definition coll (st : state) (r : ref) (nm : string) : list ref :=
  match heap st !! r with
  | Some o => coll_of o nm
  | None => []
  end.

Definition update_obj (r : ref) (f : hobj -> hobj) : M unit :=
  modify (fun st => with_heap (alter f r (heap st)) st).

(** [obj[prop]] on a host object. *)
Definition host_get (r : ref) (prop : string) : M value := fun st =>
  match heap st !! r with
  | Some o =>
      if valid o then (Return (default VUndefined (props o !! prop)), st)
      else (Throw invalid_object, st)
  | None => (Throw invalid_object, st)
  end.

(** [obj[prop] = v] on a host object: refused on a reference that is gone,
    taken otherwise, whatever the property and the value. *)
Definition host_set (r : ref) (prop : string) (v : value) : M unit := fun st =>
  if live st r then update_obj r (set_prop prop v) st
  else (Throw invalid_object, st).

Fixpoint host_set_all (rs : list ref) (prop : string) (v : value) : M unit :=
  match rs with
  | [] => ret tt
  | r :: rs' => host_set r prop v ;;; host_set_all rs' prop v
  end.

(** A new object of the store; its reference is the next free one. *)
Definition alloc (o : hobj) : M ref := fun st =>
  (Return (length (heap st)), with_heap (heap st ++ [o]) st).

Fixpoint alloc_all (os : list hobj) : M (list ref) :=
  match os with
  | [] => ret []
  | o :: os' => r <- alloc o ;; rs <- alloc_all os' ;; ret (r :: rs)
  end.

(** The paragraphs of a text: each ends with its carriage return, the last
    one may lack it; the empty text has none. *)
Fixpoint paragraphs_of (cur : string) (s : string) : list string :=
  match s with
  | EmptyString =>
      match cur with EmptyString => [] | _ => [cur] end
  | String a s' =>
      if Ascii.eqb a cr
      then (cur +:+ String a EmptyString) :: paragraphs_of EmptyString s'
      else paragraphs_of (cur +:+ String a EmptyString) s'
  end.

Definition paragraph_obj (s : string) : hobj :=
  set_prop "contents" (VStr s) (new_obj Paragraph).

(** [holder.texts[0]]; the host refuses an index out of range. *)
Definition first_text (r : ref) : M ref := fun st =>
  match coll st r "texts" with
  | t :: _ => (Return t, st)
  | [] => (Throw invalid_object, st)
  end.

(** [container.contents = s]: the host lays the text out anew, as the
    paragraphs of the frame or story, or of the first text of a text path. *)
Definition host_set_contents (r : ref) (s : string) : M unit :=
  o <- gets (fun st => heap st !! r) ;;
  match o with
  | Some o =>
      if valid o then
        holder <- (if bool_decide (cls o = TextPath) then first_text r else ret r) ;;
        ps <- alloc_all (paragraph_obj <$> paragraphs_of EmptyString s) ;;
        update_obj r (set_prop "contents" (VStr s)) ;;;
        update_obj holder (set_coll "paragraphs" ps)
      else error invalid_object
  | None => error invalid_object
  end.

(** [currentPage().textFrames.add(currentLayer())]: an empty text frame,
    a child of the current page, layer and document. *)
Definition host_add_textFrame : M ref :=
  page <- gets currPage ;;
  layer <- gets currLayer ;;
  doc <- gets currDoc ;;
  ok <- gets (fun st => live st page && live st layer) ;;
  if ok : bool then
    r <- alloc (set_prop "itemLayer" (VRef layer) (new_obj TextFrame)) ;;
    update_obj page (push_coll "textFrames" r) ;;;
    update_obj layer (push_coll "textFrames" r) ;;;
    update_obj doc (push_coll "textFrames" r) ;;;
    ret r
  else error invalid_object.

(** [line.textPaths.add()]: a text path with one, empty, text. *)
Definition host_add_textPath (line : ref) : M ref :=
  ok <- gets (fun st => live st line) ;;
  if ok : bool then
    t <- alloc (new_obj Text) ;;
    r <- alloc (set_coll "texts" [t] (new_obj TextPath)) ;;
    update_obj line (push_coll "textPaths" r) ;;;
    ret r
  else error invalid_object.

(** Modelled from the spec: [x.getElements()] is a call of the host, which
    resolves the object to the list of its content elements; the placement
    takes the first of them as the text container. What the elements of an
    object are is the host's answer: the store keeps them as the child
    collection [getElements] of the object. *)
Definition host_getElements (r : ref) : M (list ref) :=
  ok <- gets (fun st => live st r) ;;
  if ok : bool then gets (fun st => coll st r "getElements")
  else error invalid_object.

(** [obj.transform(space, anchor, matrix)]: the request is recorded. *)
Definition host_transform (r : ref) (space anchor matrix : value) : M unit :=
  ok <- gets (fun st => live st r) ;;
  if ok : bool then update_obj r (push_transform (space, anchor, matrix))
  else error invalid_object.

(** [app.fonts.itemByName(nm)]: the host answers for every name; a font it
    does not know is not available. *)
Definition itemByName (fonts : list Font) (nm : string) : Font :=
  match find (fun f => String.eqb (name f) nm) fonts with
  | Some f => f
  | None => MkFont nm nm EmptyString NOT_AVAILABLE
  end.

(** [x instanceof C]. *)
Definition class_of (st : state) (v : value) : option hclass :=
  match v with
  | VRef r => cls <$> heap st !! r
  | _ => None
  end.

Definition instanceof (st : state) (v : value) (c : hclass) : bool :=
  bool_decide (class_of st v = Some c).

(** Modelled from the spec: [isValid] is defined outside typography.js. It
    is the validity check of a held reference: true exactly when the value
    denotes a currently live host object. *)
Definition isValid (st : state) (v : value) : bool :=
  match v with
  | VRef r => live st r
  | _ => false
  end.

(** Modelled from the spec: [isText] is defined outside typography.js. It
    recognises the text ranges: character, word, line and paragraph level
    ranges and the plain text range. *)
Definition isText (st : state) (v : value) : bool :=
  instanceof st v Character || instanceof st v Word || instanceof st v Line
  || instanceof st v Paragraph || instanceof st v Text.

(** [v[prop]]. *)
Definition get_member (v : value) (prop : string) : M value :=
  match v with
  | VRef r => host_get r prop
  | VUndefined | VNull => error "TypeError"
  | VObj kvs =>
      ret (default VUndefined
             (snd <$> find (fun kv => String.eqb (fst kv) prop) kvs))
  | _ => ret VUndefined
  end.

(** [v[prop] = val]; on [everyItem()] the host assigns to every element. *)
Definition set_member (v : value) (prop : string) (val : value) : M unit :=
  match v with
  | VRef r => host_set r prop val
  | VEvery rs => host_set_all rs prop val
  | VUndefined | VNull => error "TypeError"
  | _ => ret tt
  end.

(** [typeof v]. *)
Definition js_typeof (v : value) : string :=
  match v with
  | VUndefined => "undefined"
  | VBool _ => "boolean"
  | VNum _ => "number"
  | VStr _ => "string"
  | _ => "object"
  end.

(** Modelled from the spec: [forEach] is defined outside typography.js; it
    visits the children of a collection in child traversal order. What the
    callback returns is dropped. *)
Fixpoint forEach {A} (collection : list ref) (cb : value -> M A) : M unit :=
  match collection with
  | [] => ret tt
  | x :: xs => cb (VRef x) ;;; forEach xs cb
  end.

(** Modelled from the spec: [findInStylesByName] is defined outside
    typography.js; it searches a style collection by exact name match and
    answers the first style of that name, or nothing. *)
Definition has_name (st : state) (nm : string) (r : ref) : bool :=
  match heap st !! r with
  | Some o =>
      match props o !! "name" with
      | Some (VStr s) => String.eqb s nm
      | _ => false
      end
  | None => false
  end.

Definition findInStylesByName (st : state) (allStyles : list ref) (nm : string)
  : value :=
  match find (has_name st nm) allStyles with
  | Some r => VRef r
  | None => VNull
  end.

(** [item.nm] when [item] is a host object. *)
Definition item_coll (st : state) (item : value) (nm : string) : list ref :=
  match item with
  | VRef r => coll st r nm
  | _ => []
  end.

(** [currentDoc().characterStyles.add({name: nm})] and its paragraph
    sibling: a new style of that name, listed in the document. *)
Definition host_add_style (c : hclass) (own all : string) (nm : string) : M value :=
  doc <- gets currDoc ;;
  ok <- gets (fun st => live st doc) ;;
  if ok : bool then
    r <- alloc (set_prop "name" (VStr nm) (new_obj c)) ;;
    update_obj doc (push_coll own r) ;;;
    update_obj doc (push_coll all r) ;;;
    ret (VRef r)
  else error invalid_object.

(** ** Typography/Attributes *)

Definition set_ctx (f : context -> context) : M unit :=
  modify (fun st => with_ctx (f (ctx st)) st).

(** [pub.textAlign = function(align, yAlign)]. *)
Definition textAlign (args : list value) : M value :=
  let align := arg 0 args in
  let yAlign := arg 1 args in
  set_ctx (with_currAlign align) ;;;
  (if (length args =? 2) then set_ctx (with_currYAlign yAlign)
   else ret tt) ;;;
  ret VUndefined.

(** [pub.textFont = function(fontName, fontStyle)]; the arguments are
    strings (JSDoc: String). *)
Definition textFont (args : list string) : M Font :=
  let fontName := nth 0 args EmptyString in
  let fontStyle := nth 1 args EmptyString in
  let lookup (fontName : string) : M Font :=
    fonts <- gets app_fonts ;;
    currFont0 <- gets (fun st => currFont (ctx st)) ;;
    (if negb (bool_decide (status (itemByName fonts fontName) = INSTALLED))
     then
       warning ("textFont(), font " +:+ dq
                +:+ replace_first (Ascii.ascii_of_nat 9) (Ascii.ascii_of_nat 32) fontName
                +:+ dq +:+ " not installed. "
                +:+ "Using current font " +:+ dq +:+ fontFamily currFont0
                +:+ " " +:+ fontStyleName currFont0 +:+ dq +:+ " instead.")
     else set_ctx (with_currFont (itemByName fonts fontName))) ;;;
    gets (fun st => currFont (ctx st))
  in
  if (length args =? 2) then lookup (fontName +:+ tab +:+ fontStyle)
  else if (length args =? 1) then lookup (fontName +:+ tab +:+ "Regular")
  else if (length args =? 0) then gets (fun st => currFont (ctx st))
  else error "textFont(), wrong parameters. To set font use: fontName, fontStyle. fontStyle is optional.".

(** [pub.textKerning = function(kerning)]. *)
Definition textKerning (args : list value) : M value :=
  let kerning := arg 0 args in
  (if (length args =? 1) then set_ctx (with_currKerning kerning)
   else ret tt) ;;;
  gets (fun st => currKerning (ctx st)).

(** [pub.textLeading = function(leading)]. *)
Definition textLeading (args : list value) : M value :=
  let leading := arg 0 args in
  (if (length args =? 1) then set_ctx (with_currLeading leading)
   else ret tt) ;;;
  gets (fun st => currLeading (ctx st)).

(** [pub.textSize = function(pointSize)]; the argument is a number (JSDoc:
    Number), and [pointSize > 0] is the comparison of binary64 numbers. *)
Definition textSize (args : list float) : M float :=
  let pointSize := nth 0 args nan in
  (if (length args =? 1) then
     if PrimFloat.ltb 0 pointSize then set_ctx (with_currFontSize pointSize)
     else error "textSize() must be greater than 0."
   else ret tt) ;;;
  gets (fun st => currFontSize (ctx st)).

(** [pub.textTracking = function(tracking)]. *)
Definition textTracking (args : list value) : M value :=
  let tracking := arg 0 args in
  (if (length args =? 1) then set_ctx (with_currTracking tracking)
   else ret tt) ;;;
  gets (fun st => currTracking (ctx st)).

(** ** [pub.typo = function(item, property, value)] *)

(** [typeof property === "string" && (value === undefined || value === null)]. *)
Definition actsAsGetter (property : property) (val : value) : bool :=
  match property with
  | PStr _ => is_nullish val
  | PObj _ => false
  end.

(** [setProperty]: [textItem[prop] = val]. *)
Definition setProperty (textItem : value) (prop : string) (val : value) : M unit :=
  set_member textItem prop val.

(** [for (var prop in property) setProperty(textItem, prop, property[prop])]. *)
Fixpoint setProperty_each (textItem : value) (kvs : list (string * value)) : M unit :=
  match kvs with
  | [] => ret tt
  | (prop, val) :: kvs' =>
      setProperty textItem prop val ;;; setProperty_each textItem kvs'
  end.

(** [setProperties]: the local [result] array is passed in and handed back. *)
Definition setProperties (property : property) (val : value)
    (textItem : value) (result : list value) : M (list value) :=
  match property with
  | PStr prop =>
      let result := result ++ [textItem] in
      setProperty textItem prop val ;;; ret result
  | PObj kvs =>
      let result := result ++ [textItem] in
      setProperty_each textItem kvs ;;; ret result
  end.

(** [getOrSetProperties]. *)
Definition getOrSetProperties (property : property) (val : value)
    (textItem : value) (result : list value) : M (list value) :=
  if actsAsGetter property val then
    match property with
    | PStr prop => v <- get_member textItem prop ;; ret (result ++ [v])
    | PObj _ => ret result
    end
  else setProperties property val textItem result.

(** [for (var i = n - 1; i >= 0; i--) body(paras[i])]. *)
Fixpoint loop_backwards (body : value -> list value -> M (list value))
    (paras : list ref) (n : nat) (result : list value) : M (list value) :=
  match n with
  | 0 => ret result
  | S i =>
      match paras !! i with
      | Some p =>
          result' <- body (VRef p) result ;;
          loop_backwards body paras i result'
      | None => error "TypeError"
      end
  end.

Fixpoint typo (fuel : nat) (item : value) (property : property) (val : value)
  : M value :=
  match fuel with
  | 0 => out_of_fuel
  | S fuel' =>
      let result : list value := [] in
      (if String.eqb (js_typeof item) "string"
       then error "typo() cannot work on strings. Please pass a Text object to modify."
       else ret tt) ;;;
      ok <- gets (fun st => isValid st item) ;;
      if negb ok then
        warning "typo(), invalid object passed" ;;;
        ret VUndefined
      else
        container <- gets (fun st =>
          instanceof st item Document || instanceof st item Spread
          || instanceof st item Page || instanceof st item Layer) ;;
        if container : bool then
          textFrames <- gets (fun st => item_coll st item "textFrames") ;;
          forEach textFrames (fun textFrame => typo fuel' textFrame property val) ;;;
          ret (VArr result)
        else
          textual <- gets (fun st =>
            instanceof st item Story || instanceof st item TextFrame
            || instanceof st item TextPath) ;;
          if textual : bool then
            isPath <- gets (fun st => instanceof st item TextPath) ;;
            paras <- (if isPath : bool then
                        match item with
                        | VRef r =>
                            t <- first_text r ;;
                            gets (fun st => coll st t "paragraphs")
                        | _ => error "TypeError"
                        end
                      else gets (fun st => item_coll st item "paragraphs")) ;;
            result <- loop_backwards (getOrSetProperties property val) paras
                        (length paras) result ;;
            ret (VArr result)
          else
            range <- gets (fun st => isText st item) ;;
            if range : bool then
              result <- getOrSetProperties property val item result ;;
              ret (VArr result)
            else ret (VArr result)
  end.

(** ** Typography/Styles *)

(** Modelled from the spec: [style.properties = props] is an assignment the
    host may refuse, and the module provides for it with a [try]. Whether
    the host takes [props] for an object of the style's class is the host's
    answer ([accepts_properties]); when it does, each pair of an object of
    name/value pairs is assigned to the style, and when it does not the
    assignment fails and nothing is assigned. On [undefined] and [null] the
    assignment is a TypeError of the script engine; on any other value that
    is no host object it has no effect. *)
Definition host_set_properties (style : value) (props : value) : M unit :=
  match style with
  | VUndefined | VNull => error "TypeError"
  | VRef r =>
      o <- gets (fun st => heap st !! r) ;;
      match o with
      | Some o =>
          if valid o then
            accepted <- gets (fun st => accepts_properties st (cls o) props) ;;
            if accepted : bool then
              match props with
              | VObj kvs => setProperty_each style kvs
              | _ => ret tt
              end
            else error "Invalid value for set property 'properties'"
          else error invalid_object
      | None => error invalid_object
      end
  | _ => ret tt
  end.

(** [pub.applyCharacterStyle = function(text, style)]. *)
Definition applyCharacterStyle (text style : value) : M value :=
  style <- (match style with
            | VStr name =>
                style <- gets (fun st => findInStylesByName st
                                 (coll st (currDoc st) "allCharacterStyles") name) ;;
                (if negb (truthy style)
                 then error ("applyCharacterStyle(), a character style named "
                             +:+ dq +:+ name +:+ dq +:+ " does not exist.")
                 else ret tt) ;;;
                ret style
            | _ => ret style
            end) ;;
  wrong <- gets (fun st =>
    negb (isText st text || instanceof st text TextFrame || instanceof st text Story)
    || negb (instanceof st style CharacterStyle)) ;;
  (if wrong : bool
   then error "applyCharacterStyle(), wrong parameters. Use: textObject|textFrame|story, characterStyle|name"
   else ret tt) ;;;
  isFrame <- gets (fun st => instanceof st text TextFrame) ;;
  text <- (if isFrame : bool
           then gets (fun st => VEvery (item_coll st text "characters"))
           else ret text) ;;
  set_member text "appliedCharacterStyle" style ;;;
  ret text.

(** [pub.applyParagraphStyle = function(text, style)]. *)
Definition applyParagraphStyle (text style : value) : M value :=
  style <- (match style with
            | VStr name =>
                style <- gets (fun st => findInStylesByName st
                                 (coll st (currDoc st) "allParagraphStyles") name) ;;
                (if negb (truthy style)
                 then error ("applyParagraphStyle(), a paragraph style named "
                             +:+ dq +:+ name +:+ dq +:+ " does not exist.")
                 else ret tt) ;;;
                ret style
            | _ => ret style
            end) ;;
  wrong <- gets (fun st =>
    negb (isText st text || instanceof st text TextFrame || instanceof st text Story)
    || negb (instanceof st style ParagraphStyle)) ;;
  (if wrong : bool
   then error "applyParagraphStyle(), wrong parameters. Use: textObject|textFrame|story, paragraphStyle|name"
   else ret tt) ;;;
  isFrame <- gets (fun st => instanceof st text TextFrame) ;;
  text <- (if isFrame : bool
           then gets (fun st => VEvery (item_coll st text "paragraphs"))
           else ret text) ;;
  set_member text "appliedParagraphStyle" style ;;;
  ret text.

(** [pub.characterStyle = function(textOrName, props)]. *)
Definition characterStyle (args : list value) : M value :=
  let textOrName := arg 0 args in
  let props := arg 1 args in
  let styleErrorMsg :=
    "characterStyle(), wrong parameters. Use: textObject|name and props. Props is optional." in
  (if (2 <? length args) then error styleErrorMsg else ret tt) ;;;
  isRange <- gets (fun st => isText st textOrName) ;;
  style <- (if isRange : bool then
              get_member textOrName "appliedCharacterStyle"
            else
              match textOrName with
              | VStr nm =>
                  style <- gets (fun st => findInStylesByName st
                                   (coll st (currDoc st) "allCharacterStyles") nm) ;;
                  if negb (truthy style)
                  then host_add_style CharacterStyle "characterStyles"
                                      "allCharacterStyles" nm
                  else ret style
              | _ => error styleErrorMsg
              end) ;;
  (if truthy props then
     try_catch (host_set_properties style props)
       (error "characterStyle(), wrong props parameter. Use object of property name/value pairs.")
   else ret tt) ;;;
  ret style.

(** [pub.paragraphStyle = function(textOrName, props)]. *)
Definition paragraphStyle (args : list value) : M value :=
  let textOrName := arg 0 args in
  let props := arg 1 args in
  let styleErrorMsg :=
    "paragraphStyle(), wrong parameters. Use: textObject|name and props. Props is optional." in
  (if (2 <? length args) then error styleErrorMsg else ret tt) ;;;
  isRange <- gets (fun st => isText st textOrName) ;;
  style <- (if isRange : bool then
              get_member textOrName "appliedParagraphStyle"
            else
              match textOrName with
              | VStr nm =>
                  style <- gets (fun st => findInStylesByName st
                                   (coll st (currDoc st) "allParagraphStyles") nm) ;;
                  if negb (truthy style)
                  then host_add_style ParagraphStyle "paragraphStyles"
                                      "allParagraphStyles" nm
                  else ret style
              | _ => error styleErrorMsg
              end) ;;
  (if truthy props then
     try_catch (host_set_properties style props)
       (error "paragraphStyle(), wrong props parameter. Use object of property name/value pairs.")
   else ret tt) ;;;
  ret style.

(** ** [pub.text = function(txt, x, y, w, h)] *)

(** Modelled from the spec: [currMatrix.adobeMatrix(x, y)] is a method of the
    matrix class, declared outside typography.js; it yields the host matrix
    that positions the frame at [(x, y)] in the space of the current
    transformation matrix. The request is kept symbolically. *)
Definition adobeMatrix (m : value) (x y : float) : value :=
  VObj [("matrix", m); ("x", VNum x); ("y", VNum y)].

Section Text.

(** [Number.prototype.toString] of the script engine; the digits it
    prints play no role below. *)
Variable Number_toString : float -> string.

(** [txt.toString()] for the string or number the first check lets
    through. *)
Definition toString (txt : value) : string :=
  match txt with
  | VStr s => s
  | VNum n => Number_toString n
  | _ => EmptyString
  end.

(** The branch [isNumber(x) && arguments.length === 5] (lines 52 to 88):
    the bounds after the rectangle mode, the new frame, its contents,
    bounds, vertical alignment and position. *)
Definition text_frame (txt : value) (x y w h : float) : M value :=
  mode <- gets (fun st => currRectMode (ctx st)) ;;
  let textBounds :=
    match mode with
    | CORNER => [VNum y; VNum x; VNum (y + h); VNum (x + w)]
    | CORNERS => [VNum y; VNum x; VNum h; VNum w]
    | CENTER => [VNum (y - h / 2); VNum (x - w / 2);
                 VNum (y + h / 2); VNum (x + w / 2)]
    | RADIUS => [VNum (y - h); VNum (x - w);
                 VNum (y + h); VNum (x + w)]
    end%float in
  textContainer <- host_add_textFrame ;;
  host_set_contents textContainer (toString txt) ;;;
  host_set textContainer "geometricBounds" (VArr textBounds) ;;;
  currYAlign0 <- gets (fun st => currYAlign (ctx st)) ;;
  host_set textContainer "textFramePreferences.verticalJustification"
           currYAlign0 ;;;
  currMatrix0 <- gets (fun st => currMatrix (ctx st)) ;;
  (if bool_decide (mode = CENTER) || bool_decide (mode = RADIUS) then
     host_transform textContainer
       (VEnum "CoordinateSpaces.PASTEBOARD_COORDINATES")
       (VEnum "AnchorPoint.CENTER_ANCHOR")
       (adobeMatrix currMatrix0 x y)
   else
     host_transform textContainer
       (VEnum "CoordinateSpaces.PASTEBOARD_COORDINATES")
       (VEnum "AnchorPoint.TOP_LEFT_ANCHOR")
       (adobeMatrix currMatrix0 x y)) ;;;
  ret (VRef textContainer).

(** [x] is a number or a page item, [y], [w] and [h] are numbers (JSDoc:
    Number); a call passes [txt], [x] and the numbers of [yhw], so that
    [arguments.length] is [2 + length yhw]. *)
Definition text (fuel : nat) (txt : value) (x : value) (yhw : list float)
  : M value :=
  let y := nth 0 yhw nan in
  let w := nth 1 yhw nan in
  let h := nth 2 yhw nan in
  let arguments_length := 2 + length yhw in
  (if negb (isString txt || isNumber txt)
   then error ("text(), the first parameter has to be a string! But is something else: "
               +:+ js_typeof txt +:+ ". Use: text(txt, x, y, w, h)")
   else ret tt) ;;;
  shape <- gets (fun st =>
    instanceof st x Rectangle || instanceof st x Oval
    || instanceof st x Polygon || instanceof st x TextFrame) ;;
  line <- gets (fun st => instanceof st x GraphicLine) ;;
  textContainer <-
    (if shape : bool then
       match x with
       | VRef r =>
           host_set r "contentType" (VEnum "ContentType.TEXT_TYPE") ;;;
           elements <- host_getElements r ;;
           match elements with
           | textContainer :: _ =>
               host_set_contents textContainer (toString txt) ;;;
               ret (VRef textContainer)
           | [] => error "TypeError"   (* [undefined.contents = ...] *)
           end
       | _ => error "TypeError"
       end
     else if line : bool then
       match x with
       | VRef r =>
           textContainer <- host_add_textPath r ;;
           host_set_contents textContainer (toString txt) ;;;
           ret (VRef textContainer)
       | _ => error "TypeError"
       end
     else if isNumber x && (arguments_length =? 5) then
       match x with
       | VNum x => text_frame txt x y w h
       | _ => error "TypeError"
       end
     else error "text(), invalid parameters. Use: text(txt, x, y, w, h) or text(txt, obj).") ;;
  c <- gets ctx ;;
  typo fuel textContainer
    (PObj [("appliedFont", VFont (currFont c));
           ("pointSize", VNum (currFontSize c));
           ("fillColor", currFillColor c);
           ("justification", currAlign c);
           ("leading", currLeading c);
           ("kerningValue", currKerning c);
           ("tracking", currTracking c)])
    VUndefined ;;;
  ret textContainer.

End Text.

(** ** Views of the state used to state properties *)

(** The value a read of [r[prop]] yields. *)
Definition read_prop (st : state) (r : ref) (prop : string) : value :=
  match heap st !! r with
  | Some o => default VUndefined (props o !! prop)
  | None => VUndefined
  end.

(** What the assignments of one [setProperties] call make of an object. *)
Definition apply_property (property : property) (val : value) (o : hobj) : hobj :=
  match property with
  | PStr prop => set_prop prop val o
  | PObj kvs => foldl (fun o kv => set_prop (fst kv) (snd kv) o) o kvs
  end.

(** The property names one [setProperties] call assigns. *)
Definition assigned (property : property) : list string :=
  match property with
  | PStr prop => [prop]
  | PObj kvs => fst <$> kvs
  end.

Definition write_obj (property : property) (val : value) (st : state) (p : ref)
  : state :=
  with_heap (alter (apply_property property val) p (heap st)) st.

(** The two [instanceof] chains of [typo]. *)
Definition is_container (st : state) (item : value) : bool :=
  instanceof st item Document || instanceof st item Spread
  || instanceof st item Page || instanceof st item Layer.

Definition is_textual (st : state) (item : value) : bool :=
  instanceof st item Story || instanceof st item TextFrame
  || instanceof st item TextPath.

(** The text items [typo] visits for a story, a text frame, a text path or a
    text range, in index order (the dispatch of lines 302 to 313); nothing
    for the other targets. *)
Definition units (st : state) (item : value) : option (list ref) :=
  match item with
  | VRef r =>
      if is_container st item then None
      else if is_textual st item then
        if instanceof st item TextPath
        then match coll st r "texts" with
             | t :: _ => Some (coll st t "paragraphs")
             | [] => None
             end
        else Some (coll st r "paragraphs")
      else if isText st item then Some [r]
      else None
  | _ => None
  end.

(** A live text frame at [r] whose paragraphs are [ps], all of them live. *)
Definition text_frame_at (st : state) (r : ref) (ps : list ref) : Prop :=
  exists o, heap st !! r = Some o /\ valid o = true /\ cls o = TextFrame
            /\ coll_of o "paragraphs" = ps
            /\ forall p, p ∈ ps -> live st p = true.

(** The spec's table of the bounds [top, left, bottom, right] per rectangle
    mode; what [text] assigns is compared with it. *)
Definition mode_bounds (mode : rectmode) (x y w h : float) : list value :=
  match mode with
  | CORNER => [VNum y; VNum x; VNum (y + h); VNum (x + w)]
  | CORNERS => [VNum y; VNum x; VNum h; VNum w]
  | CENTER => [VNum (y - h / 2); VNum (x - w / 2);
               VNum (y + h / 2); VNum (x + w / 2)]
  | RADIUS => [VNum (y - h); VNum (x - w); VNum (y + h); VNum (x + w)]
  end%float.

(** ** A sample document

    One document with a page and a layer; a text frame of two paragraphs and
    the story they belong to; a text path of one paragraph; a text frame whose
    reference went stale; a rectangle and a line; one character style. The
    host of the sample takes an object of name/value pairs as the properties
    of an object, and nothing else. *)

Definition sample_font : Font :=
  MkFont ("Helvetica" +:+ tab +:+ "Regular") "Helvetica" "Regular" INSTALLED.

Definition sample_bold : Font :=
  MkFont ("Helvetica" +:+ tab +:+ "Bold") "Helvetica" "Bold" INSTALLED.

Definition sample_ctx : context :=
  Context sample_font 10%float (VStr "Black")
          (VEnum "Justification.LEFT_ALIGN")
          (VEnum "VerticalJustification.TOP_ALIGN")
          (VEnum "Leading.AUTO") (VNum 0%float) (VNum 0%float)
          CORNER (VStr "identity").

Definition sample_heap : list hobj :=
  [ (* 0 *) set_coll "textFrames" [3]
              (set_coll "allCharacterStyles" [12]
                 (set_coll "characterStyles" [12] (new_obj Document)));
    (* 1 *) set_coll "textFrames" [3] (new_obj Page);
    (* 2 *) set_coll "textFrames" [3] (new_obj Layer);
    (* 3 *) set_coll "paragraphs" [4; 5] (new_obj TextFrame);
    (* 4 *) set_prop "pointSize" (VNum 10%float) (new_obj Paragraph);
    (* 5 *) set_prop "pointSize" (VNum 12%float) (new_obj Paragraph);
    (* 6 *) set_coll "paragraphs" [4; 5] (new_obj Story);
    (* 7 *) set_coll "texts" [8] (new_obj TextPath);
    (* 8 *) set_coll "paragraphs" [9] (new_obj Text);
    (* 9 *) set_prop "pointSize" (VNum 8%float) (new_obj Paragraph);
    (* 10 *) HObj TextFrame false ∅ ∅ [];
    (* 11 *) new_obj Rectangle;
    (* 12 *) set_prop "name" (VStr "Title") (new_obj CharacterStyle);
    (* 13 *) new_obj GraphicLine ].

Definition sample : state :=
  State sample_ctx sample_heap [sample_font; sample_bold]
        (fun _ v => match v with VObj _ => true | _ => false end) 0 1 2 [].

(** ** Further views and a larger sample *)

(** The value an object of name/value pairs leaves in the property [k]: that
    of the last pair that names it. *)
Fixpoint last_assigned (kvs : list (string * value)) (k : string)
  : option value :=
  match kvs with
  | [] => None
  | (k', v) :: kvs' =>
      match last_assigned kvs' k with
      | Some v' => Some v'
      | None => if String.eqb k' k then Some v else None
      end
  end.

(** A text frame of a container as [typo] expects to find it: a live text
    frame whose paragraphs are live. *)
Definition live_frame (st : state) (f : ref) : bool :=
  isValid st (VRef f) && instanceof st (VRef f) TextFrame
  && forallb (live st) (coll st f "paragraphs").

(** The state one call of [typo] on such a text frame [f] leaves: nothing
    changes for a read; for a write the paragraphs are assigned to, last one
    first. *)
Definition visit_frame (property : property) (val : value) (st : state)
    (f : ref) : state :=
  if actsAsGetter property val then st
  else foldl (write_obj property val) st (reverse (coll st f "paragraphs")).

(** What a script sees of an object apart from its child collections. *)
Definition view (o : hobj)
  : hclass * bool * gmap string value * list (value * value * value) :=
  (cls o, valid o, props o, transforms o).

(** [st1] has the context and the warnings of [st], and the objects that
    [ex] does not except look in [st1] as they do in [st], through [pr]
    ([view], or the identity for the whole object). *)
Definition keeps {A} (pr : hobj -> A) (ex : ref -> bool) (st st1 : state)
  : Prop :=
  ctx st1 = ctx st /\ warnings st1 = warnings st
  /\ forall q, ex q = false -> pr <$> heap st1 !! q = pr <$> heap st !! q.

(** The attributes [text] hands to [typo] (lines 93 to 101). *)
Definition stamp (c : context) : list (string * value) :=
  [("appliedFont", VFont (currFont c));
   ("pointSize", VNum (currFontSize c));
   ("fillColor", currFillColor c);
   ("justification", currAlign c);
   ("leading", currLeading c);
   ("kerningValue", currKerning c);
   ("tracking", currTracking c)].

(** The sample document with, in addition, a paragraph style, a text frame
    of two characters and one paragraph, and a page that holds the two live
    text frames. *)
Definition sample2_heap : list hobj :=
  sample_heap ++
  [ (* 14 *) set_prop "name" (VStr "Body") (new_obj ParagraphStyle);
    (* 15 *) new_obj Character;
    (* 16 *) new_obj Character;
    (* 17 *) set_prop "pointSize" (VNum 9%float) (new_obj Paragraph);
    (* 18 *) set_coll "characters" [15; 16]
               (set_coll "paragraphs" [17] (new_obj TextFrame));
    (* 19 *) set_coll "textFrames" [3; 18] (new_obj Page) ].

Definition sample2 : state :=
  with_heap
    (alter (set_coll "allParagraphStyles" [14]) 0
       (alter (set_coll "paragraphStyles" [14]) 0 sample2_heap))
    sample.


(** * Properties *)

(** ** Numbers *)

(** A number that is at most zero is not greater than zero: this holds for
    both zeros and the negative infinity, and a NaN is not at most zero. *)
Lemma le_zero_not_gt_zero (p : float) :
  PrimFloat.leb p 0 = true -> PrimFloat.ltb 0 p = false.
Proof.
  rewrite leb_spec, ltb_spec.
  change (Prim2SF 0) with (S754_zero false).
  destruct (Prim2SF p) as [s | s | | s m e]; try destruct s; cbn; congruence.
Qed.

(** Two closed numbers that compare different are different. *)
Ltac float_discriminate H :=
  match type of H with
  | ?a = ?b =>
      apply (f_equal (fun z => PrimFloat.eqb z b)) in H;
      vm_compute in H; discriminate H
  end.

(** ** The Current Typography Context *)

Section Attributes.

Variable st : state.

Lemma textSize_get : textSize [] st = (Return (currFontSize (ctx st)), st).
Proof. reflexivity. Qed.

Lemma textSize_set (pointSize : float) :
  textSize [pointSize] st =
    if PrimFloat.ltb 0 pointSize
    then (Return pointSize, with_ctx (with_currFontSize pointSize (ctx st)) st)
    else (Throw "textSize() must be greater than 0.", st).
Proof.
  unfold textSize, bind; cbn.
  destruct (PrimFloat.ltb 0 pointSize); reflexivity.
Qed.

Lemma textFont_get : textFont [] st = (Return (currFont (ctx st)), st).
Proof. reflexivity. Qed.

(** The two setting forms of [textFont] when the host does not report the
    font as installed. *)
Lemma textFont_keeps_font (fontName : string) (fontStyle : option string) :
  status (itemByName (app_fonts st)
            (fontName +:+ tab +:+ default "Regular" fontStyle)) <> INSTALLED ->
  exists msg,
    textFont (fontName :: option_list fontStyle) st
    = (Return (currFont (ctx st)), with_warnings (warnings st ++ [msg]) st).
Proof.
  intros Hst.
  destruct fontStyle as [fontStyle |]; cbn in Hst |- *; eexists;
    unfold textFont, bind, gets; cbn;
    rewrite (bool_decide_false _ Hst); reflexivity.
Qed.

End Attributes.

(** C7. A point size that is zero or negative is refused: [textSize] fails
    with its error, the state (and with it the current font size) is what it
    was, and a following [textSize()] still answers the prior size. *)
Theorem textSize_nonpositive_rejected (st : state) (pointSize : float) :
  PrimFloat.leb pointSize 0 = true ->
  textSize [pointSize] st = (Throw "textSize() must be greater than 0.", st)
  /\ textSize [] (snd (textSize [pointSize] st))
     = (Return (currFontSize (ctx st)), st).
Proof.
  intros Hle. apply le_zero_not_gt_zero in Hle.
  assert (E : textSize [pointSize] st
              = (Throw "textSize() must be greater than 0.", st)).
  { rewrite textSize_set, Hle. reflexivity. }
  split; [exact E |].
  rewrite E. cbn [snd]. apply textSize_get.
Qed.

Lemma textSize_nonpositive_rejected_witness :
  PrimFloat.leb (-5) 0 = true
  /\ textSize [(-5)%float] sample
     = (Throw "textSize() must be greater than 0.", sample)
  /\ textSize [] (snd (textSize [(-5)%float] sample)) = (Return 10%float, sample).
Proof.
  split; [reflexivity |].
  apply (textSize_nonpositive_rejected sample (-5)%float). reflexivity.
Defined.

(** C8. When the host does not report the requested font as installed,
    [textFont] emits one warning, keeps the current font and returns it;
    nothing is thrown. The style defaults to Regular. *)
Theorem textFont_not_installed (st : state) (fontName : string)
    (fontStyle : option string) :
  status (itemByName (app_fonts st)
            (fontName +:+ tab +:+ default "Regular" fontStyle)) <> INSTALLED ->
  exists msg,
    textFont (fontName :: option_list fontStyle) st
    = (Return (currFont (ctx st)), with_warnings (warnings st ++ [msg]) st).
Proof.
  apply textFont_keeps_font.
Qed.

Lemma textFont_not_installed_witness :
  status (itemByName (app_fonts sample) ("Futura" +:+ tab +:+ "Regular"))
    <> INSTALLED
  /\ exists msg,
       textFont ["Futura"] sample
       = (Return sample_font, with_warnings [msg] sample).
Proof.
  split; [vm_compute; discriminate |].
  apply (textFont_not_installed sample "Futura" None).
  vm_compute; discriminate.
Defined.

(** C9, as the code has it. Font, size, leading, kerning and tracking are
    getter/setter pairs: without argument the call answers the current value
    and leaves the state alone, with an argument it stores the value (a size
    only when positive, a font only when installed: a font that is not
    installed leaves the context as it was and adds a warning) and answers
    the current value. [textAlign] is a setter only: whatever the arguments,
    it answers nothing and stores its first argument ([undefined] when there
    is none) as the alignment, and it stores its second argument as the
    vertical alignment when there are exactly two, and only then. *)
Theorem context_accessors (st : state) :
  (textFont [] st = (Return (currFont (ctx st)), st)
   /\ textSize [] st = (Return (currFontSize (ctx st)), st)
   /\ textLeading [] st = (Return (currLeading (ctx st)), st)
   /\ textKerning [] st = (Return (currKerning (ctx st)), st)
   /\ textTracking [] st = (Return (currTracking (ctx st)), st))
  /\ (forall v, textLeading [v] st
                = (Return v, with_ctx (with_currLeading v (ctx st)) st))
  /\ (forall v, textKerning [v] st
                = (Return v, with_ctx (with_currKerning v (ctx st)) st))
  /\ (forall v, textTracking [v] st
                = (Return v, with_ctx (with_currTracking v (ctx st)) st))
  /\ (forall n, textSize [n] st
                = if PrimFloat.ltb 0 n
                  then (Return n, with_ctx (with_currFontSize n (ctx st)) st)
                  else (Throw "textSize() must be greater than 0.", st))
  /\ (forall fontName fontStyle,
        let f := itemByName (app_fonts st)
                   (fontName +:+ tab +:+ default "Regular" fontStyle) in
        if bool_decide (status f = INSTALLED)
        then textFont (fontName :: option_list fontStyle) st
             = (Return f, with_ctx (with_currFont f (ctx st)) st)
        else exists msg,
               textFont (fontName :: option_list fontStyle) st
               = (Return (currFont (ctx st)),
                  with_warnings (warnings st ++ [msg]) st))
  /\ (forall args,
        textAlign args st
        = (Return VUndefined,
           with_ctx
             ((if length args =? 2 then with_currYAlign (arg 1 args) else id)
                (with_currAlign (arg 0 args) (ctx st))) st))
  /\ textAlign [] st
     = (Return VUndefined, with_ctx (with_currAlign VUndefined (ctx st)) st).
Proof.
  repeat split; try reflexivity.
  - intros n. apply textSize_set.
  - intros fontName fontStyle f.
    destruct (bool_decide (status f = INSTALLED)) eqn:E.
    + subst f. destruct fontStyle; cbn in E |- *;
        unfold textFont, bind, gets; cbn; rewrite E; reflexivity.
    + apply bool_decide_eq_false in E.
      by apply textFont_keeps_font.
  - intros args. unfold textAlign, bind, set_ctx, modify, ret.
    destruct (length args =? 2); reflexivity.
Qed.

(** C9, as the claim has it, fails: [textAlign()] without arguments answers
    [undefined], not the current alignment, and overwrites the current
    alignment with [undefined]. *)
Lemma textAlign_is_no_getter :
  currAlign (ctx sample) = VEnum "Justification.LEFT_ALIGN"
  /\ fst (textAlign [] sample) = Return VUndefined
  /\ currAlign (ctx (snd (textAlign [] sample))) = VUndefined
  /\ textAlign [] sample <> (Return (currAlign (ctx sample)), sample).
Proof. repeat split. vm_compute. discriminate. Qed.

(** ** The host's store *)

Lemma with_heap_id (st : state) : with_heap (heap st) st = st.
Proof. by destruct st. Qed.

Lemma typeof_string (v : value) : String.eqb (js_typeof v) "string" = isString v.
Proof. by destruct v. Qed.

Lemma isValid_ref (st : state) (item : value) :
  isValid st item = true -> exists r, item = VRef r /\ live st r = true.
Proof. destruct item; cbn; try discriminate. eauto. Qed.

Lemma live_lookup (st : state) (r : ref) :
  live st r = true -> exists o, heap st !! r = Some o /\ valid o = true.
Proof. unfold live. destruct (heap st !! r); [eauto | discriminate]. Qed.

Lemma host_get_live (st : state) (r : ref) (prop : string) :
  live st r = true -> host_get r prop st = (Return (read_prop st r prop), st).
Proof.
  intros (o & H & V)%live_lookup. unfold host_get, read_prop. by rewrite H, V.
Qed.

Lemma host_set_live (st : state) (r : ref) (prop : string) (v : value) :
  live st r = true ->
  host_set r prop v st = (Return tt, write_obj (PStr prop) v st r).
Proof. intros L. unfold host_set. by rewrite L. Qed.

(** Assignments touch neither the class, nor the validity, nor the child
    collections of an object. *)
Lemma apply_property_skeleton (property : property) (val : value) (o : hobj) :
  cls (apply_property property val o) = cls o
  /\ valid (apply_property property val o) = valid o
  /\ colls (apply_property property val o) = colls o.
Proof.
  destruct property as [prop | kvs]; cbn; [done |].
  revert o. induction kvs as [| [k v] kvs IH]; intros o; cbn; [done |].
  destruct (IH (set_prop k v o)) as (-> & -> & ->). done.
Qed.

Lemma iter_apply_skeleton (property : property) (val : value) (n : nat) (o : hobj) :
  cls (Nat.iter n (apply_property property val) o) = cls o
  /\ valid (Nat.iter n (apply_property property val) o) = valid o
  /\ colls (Nat.iter n (apply_property property val) o) = colls o.
Proof.
  induction n as [| n (IH1 & IH2 & IH3)]; [done |].
  rewrite Nat.iter_succ.
  destruct (apply_property_skeleton property val
              (Nat.iter n (apply_property property val) o)) as (E1 & E2 & E3).
  rewrite E1, E2, E3. done.
Qed.

(** A property outside the assigned ones keeps its value. *)
Lemma apply_property_other (property : property) (val : value) (o : hobj)
    (k : string) :
  k ∉ assigned property -> props (apply_property property val o) !! k = props o !! k.
Proof.
  destruct property as [prop | kvs]; cbn.
  - intros Hk. apply lookup_insert_ne. set_solver.
  - revert o. induction kvs as [| [k' v] kvs IH]; intros o Hk; cbn; [done |].
    cbn in Hk. apply not_elem_of_cons in Hk as [Hk1 Hk2].
    rewrite IH by done. cbn. by apply lookup_insert_ne.
Qed.

Lemma iter_apply_other (property : property) (val : value) (n : nat) (o : hobj)
    (k : string) :
  k ∉ assigned property ->
  props (Nat.iter n (apply_property property val) o) !! k = props o !! k.
Proof.
  intros Hk. induction n as [| n IH]; [done |].
  rewrite Nat.iter_succ. by rewrite apply_property_other.
Qed.

(** After at least one assignment of [prop], the property holds the value. *)
Lemma iter_apply_same (prop : string) (val : value) (n : nat) (o : hobj) :
  0 < n -> props (Nat.iter n (apply_property (PStr prop) val) o) !! prop = Some val.
Proof.
  destruct n as [| n]; [lia |]. intros _.
  rewrite Nat.iter_succ. cbn. apply lookup_insert_eq.
Qed.

(** The store after the assignments of [setProperties] to the objects of a
    list, one after the other. *)
Lemma written_lookup (property : property) (val : value) (L : list ref) :
  forall (st : state) (q : ref),
  exists n, (q ∈ L -> 0 < n)
    /\ heap (foldl (write_obj property val) st L) !! q
       = Nat.iter n (apply_property property val) <$> heap st !! q.
Proof.
  induction L as [| p L IH]; intros st q; cbn.
  - exists 0. split; [set_solver |]. by destruct (heap st !! q).
  - destruct (IH (write_obj property val st p) q) as (n & Hn & E).
    rewrite E.
    change (heap (write_obj property val st p))
      with (alter (apply_property property val) p (heap st)).
    destruct (decide (p = q)) as [-> | Hne].
    + exists (S n). split; [lia |].
      rewrite list_lookup_alter_eq. destruct (heap st !! q); [| done].
      cbn [fmap option_fmap option_map]. by rewrite Nat.iter_succ_r.
    + exists n. split; [intros [? | ?]%elem_of_cons; [congruence | auto] |].
      by rewrite list_lookup_alter_ne.
Qed.

Lemma written_fields (property : property) (val : value) (L : list ref) :
  forall st : state,
  let st' := foldl (write_obj property val) st L in
  ctx st' = ctx st /\ app_fonts st' = app_fonts st /\ currDoc st' = currDoc st
  /\ currPage st' = currPage st /\ currLayer st' = currLayer st
  /\ warnings st' = warnings st.
Proof.
  induction L as [| p L IH]; intros st; cbn; [done |].
  destruct (IH (write_obj property val st p)) as (-> & -> & -> & -> & -> & ->).
  done.
Qed.

Section Written.

Variables (property : property) (val : value) (L : list ref) (st : state).

Let st' := foldl (write_obj property val) st L.

Lemma written_live (q : ref) : live st' q = live st q.
Proof.
  unfold live, st'. destruct (written_lookup property val L st q) as (n & _ & ->).
  destruct (heap st !! q) as [o |]; cbn; [| done].
  apply iter_apply_skeleton.
Qed.

Lemma written_coll (q : ref) (nm : string) : coll st' q nm = coll st q nm.
Proof.
  unfold coll, coll_of, st'.
  destruct (written_lookup property val L st q) as (n & _ & ->).
  destruct (heap st !! q) as [o |]; cbn; [| done].
  by destruct (iter_apply_skeleton property val n o) as (_ & _ & ->).
Qed.

Lemma written_class (v : value) : class_of st' v = class_of st v.
Proof.
  unfold st'. destruct v; cbn; try done.
  destruct (written_lookup property val L st r) as (n & _ & ->).
  destruct (heap st !! r) as [o |]; cbn; [| done].
  by destruct (iter_apply_skeleton property val n o) as (-> & _ & _).
Qed.

Lemma written_instanceof (v : value) (c : hclass) :
  instanceof st' v c = instanceof st v c.
Proof. unfold instanceof. by rewrite written_class. Qed.

Lemma written_isValid (v : value) : isValid st' v = isValid st v.
Proof. destruct v; cbn; try done. apply written_live. Qed.

Lemma written_units (item : value) : units st' item = units st item.
Proof.
  unfold units, is_container, is_textual, isText.
  destruct item; try done.
  rewrite !written_instanceof, !written_coll.
  destruct (coll st r "texts"); [done |]. by rewrite written_coll.
Qed.

Lemma written_other (q : ref) (k : string) :
  k ∉ assigned property -> read_prop st' q k = read_prop st q k.
Proof.
  intros Hk. unfold read_prop, st'.
  destruct (written_lookup property val L st q) as (n & _ & ->).
  destruct (heap st !! q) as [o |]; cbn; [| done].
  by rewrite iter_apply_other.
Qed.

End Written.

(** A live object that was assigned [prop] reads back the value. *)
Lemma written_same (prop : string) (val : value) (L : list ref) (st : state)
    (q : ref) :
  q ∈ L -> live st q = true ->
  read_prop (foldl (write_obj (PStr prop) val) st L) q prop = val.
Proof.
  intros Hq (o & Ho & _)%live_lookup. unfold read_prop.
  destruct (written_lookup (PStr prop) val L st q) as (n & Hn & ->).
  rewrite Ho; cbn. by rewrite iter_apply_same by auto.
Qed.

(** ** [typo] *)

(** One [setProperties] call on a live object. *)
Lemma live_write_obj (property : property) (val : value) (st : state)
    (p q : ref) :
  live (write_obj property val st p) q = live st q.
Proof. apply (written_live property val [p] st q). Qed.

Lemma setProperty_each_live (kvs : list (string * value)) (val : value) :
  forall (st : state) (p : ref),
  live st p = true ->
  setProperty_each (VRef p) kvs st = (Return tt, write_obj (PObj kvs) val st p).
Proof.
  induction kvs as [| [k v] kvs IH]; intros st p Hp.
  - cbn. unfold ret, write_obj. cbn.
    rewrite list_alter_id by done. by rewrite with_heap_id.
  - cbn [setProperty_each]. unfold bind, setProperty, set_member.
    rewrite host_set_live by done.
    rewrite IH by (by rewrite live_write_obj).
    unfold write_obj. cbn. by rewrite list_alter_alter_eq.
Qed.

Lemma setProperties_live (property : property) (val : value) (st : state)
    (p : ref) (result : list value) :
  live st p = true ->
  setProperties property val (VRef p) result st
  = (Return (result ++ [VRef p]), write_obj property val st p).
Proof.
  intros Hp. destruct property as [prop | kvs]; cbn; unfold bind.
  - unfold setProperty, set_member. by rewrite host_set_live.
  - by rewrite (setProperty_each_live kvs val).
Qed.

Lemma getOrSetProperties_write (property : property) (val : value)
    (st : state) (p : ref) (result : list value) :
  actsAsGetter property val = false -> live st p = true ->
  getOrSetProperties property val (VRef p) result st
  = (Return (result ++ [VRef p]), write_obj property val st p).
Proof.
  intros Hg Hp. unfold getOrSetProperties. rewrite Hg.
  by apply setProperties_live.
Qed.

Lemma getOrSetProperties_read (prop : string) (val : value) (st : state)
    (p : ref) (result : list value) :
  is_nullish val = true -> live st p = true ->
  getOrSetProperties (PStr prop) val (VRef p) result st
  = (Return (result ++ [read_prop st p prop]), st).
Proof.
  intros Hg Hp. unfold getOrSetProperties. cbn. rewrite Hg.
  unfold bind. cbn. by rewrite host_get_live.
Qed.

(** The backwards loop visits [paras[n-1]], ..., [paras[0]]. *)
Lemma loop_backwards_read (prop : string) (val : value) (st : state)
    (paras : list ref) :
  is_nullish val = true ->
  forall (n : nat) (result : list value),
  n <= length paras ->
  (forall p, p ∈ take n paras -> live st p = true) ->
  loop_backwards (getOrSetProperties (PStr prop) val) paras n result st
  = (Return (result ++ ((fun p => read_prop st p prop) <$> reverse (take n paras))),
     st).
Proof.
  intros Hg. induction n as [| i IH]; intros result Hn Hlive.
  - cbn. by rewrite app_nil_r.
  - destruct (lookup_lt_is_Some_2 paras i) as [p Hp]; [lia |].
    cbn [loop_backwards]. rewrite Hp. unfold bind.
    rewrite (take_S_r _ _ _ Hp) in Hlive |- *.
    rewrite getOrSetProperties_read by (try apply Hlive; set_solver).
    rewrite IH by (try lia; intros; apply Hlive; set_solver).
    rewrite reverse_app, reverse_singleton. cbn. by rewrite <- app_assoc.
Qed.

Lemma loop_backwards_write (property : property) (val : value)
    (paras : list ref) :
  actsAsGetter property val = false ->
  forall (n : nat) (st : state) (result : list value),
  n <= length paras ->
  (forall p, p ∈ take n paras -> live st p = true) ->
  loop_backwards (getOrSetProperties property val) paras n result st
  = (Return (result ++ (VRef <$> reverse (take n paras))),
     foldl (write_obj property val) st (reverse (take n paras))).
Proof.
  intros Hg. induction n as [| i IH]; intros st result Hn Hlive.
  - cbn. by rewrite app_nil_r.
  - destruct (lookup_lt_is_Some_2 paras i) as [p Hp]; [lia |].
    cbn [loop_backwards]. rewrite Hp. unfold bind.
    rewrite (take_S_r _ _ _ Hp) in Hlive |- *.
    rewrite getOrSetProperties_write by (try apply Hlive; set_solver).
    rewrite IH
      by (try lia; intros; rewrite live_write_obj; apply Hlive; set_solver).
    rewrite reverse_app, reverse_singleton. cbn. by rewrite <- app_assoc.
Qed.

(** [typo] with its tests evaluated on the state of the call. *)
Lemma typo_unfold (fuel : nat) (item : value) (property : property)
    (val : value) (st : state) :
  typo (S fuel) item property val st =
    if isString item
    then (Throw "typo() cannot work on strings. Please pass a Text object to modify.", st)
    else if negb (isValid st item)
    then (Return VUndefined,
          with_warnings (warnings st ++ ["typo(), invalid object passed"]) st)
    else if is_container st item
    then (forEach (item_coll st item "textFrames")
            (fun textFrame => typo fuel textFrame property val) ;;;
          ret (VArr [])) st
    else if is_textual st item
    then (paras <- (if instanceof st item TextPath then
                      match item with
                      | VRef r =>
                          t <- first_text r ;;
                          gets (fun st => coll st t "paragraphs")
                      | _ => error "TypeError"
                      end
                    else gets (fun st => item_coll st item "paragraphs")) ;;
          result <- loop_backwards (getOrSetProperties property val) paras
                      (length paras) [] ;;
          ret (VArr result)) st
    else if isText st item
    then (result <- getOrSetProperties property val item [] ;;
          ret (VArr result)) st
    else (Return (VArr []), st).
Proof.
  cbn [typo]. rewrite typeof_string. unfold is_container, is_textual.
  unfold bind at 1. destruct (isString item); [reflexivity |].
  unfold ret at 1. unfold bind at 1, gets at 1.
  destruct (isValid st item); cbn [negb]; [| reflexivity].
  unfold bind at 1, gets at 1.
  destruct (_ || _ || _ || _); [reflexivity |].
  unfold bind at 1, gets at 1.
  destruct (_ || _ || _).
  - unfold bind at 1, gets at 1. unfold bind at 4.
    destruct (instanceof st item TextPath); reflexivity.
  - unfold bind at 1, gets at 1.
    destruct (isText st item); reflexivity.
Qed.

(** The paragraphs [typo] loops over, for a target with text items. *)
Lemma typo_on_units (fuel : nat) (item : value) (property : property)
    (val : value) (st : state) (us : list ref) :
  isValid st item = true -> units st item = Some us ->
  typo (S fuel) item property val st
  = if is_textual st item
    then (result <- loop_backwards (getOrSetProperties property val) us
                      (length us) [] ;;
          ret (VArr result)) st
    else (result <- getOrSetProperties property val item [] ;;
          ret (VArr result)) st.
Proof.
  intros Hv Hu. rewrite typo_unfold, Hv.
  destruct (isValid_ref _ _ Hv) as (r & -> & Hr). cbn [isString negb].
  unfold units in Hu.
  destruct (is_container st (VRef r)); [discriminate |].
  destruct (is_textual st (VRef r)).
  - destruct (instanceof st (VRef r) TextPath).
    + unfold bind at 1. unfold bind at 1. unfold first_text.
      destruct (coll st r "texts") as [| t ts]; [discriminate |].
      injection Hu as <-. reflexivity.
    + injection Hu as <-. reflexivity.
  - destruct (isText st (VRef r)); [| discriminate]. reflexivity.
Qed.

Lemma typo_read_units (fuel : nat) (item : value) (prop : string)
    (val : value) (st : state) (us : list ref) :
  is_nullish val = true ->
  isValid st item = true -> units st item = Some us ->
  (forall p, p ∈ us -> live st p = true) ->
  typo (S fuel) item (PStr prop) val st
  = (Return (VArr ((fun p => read_prop st p prop) <$> reverse us)), st).
Proof.
  intros Hg Hv Hu Hlive. rewrite (typo_on_units _ _ _ _ _ us) by done.
  destruct (is_textual st item) eqn:Ht.
  - unfold bind. rewrite loop_backwards_read; try done.
    + by rewrite firstn_all.
    + by rewrite firstn_all.
  - destruct (isValid_ref _ _ Hv) as (r & -> & Hr).
    unfold units in Hu. rewrite Ht in Hu.
    destruct (is_container st (VRef r)); [discriminate |].
    destruct (isText st (VRef r)); [| discriminate]. injection Hu as <-.
    unfold bind. by rewrite getOrSetProperties_read.
Qed.

Lemma typo_write_units (fuel : nat) (item : value) (property : property)
    (val : value) (st : state) (us : list ref) :
  actsAsGetter property val = false ->
  isValid st item = true -> units st item = Some us ->
  (forall p, p ∈ us -> live st p = true) ->
  typo (S fuel) item property val st
  = (Return (VArr (VRef <$> reverse us)),
     foldl (write_obj property val) st (reverse us)).
Proof.
  intros Hg Hv Hu Hlive. rewrite (typo_on_units _ _ _ _ _ us) by done.
  destruct (is_textual st item) eqn:Ht.
  - unfold bind. rewrite loop_backwards_write; try done.
    + by rewrite firstn_all.
    + by rewrite firstn_all.
  - destruct (isValid_ref _ _ Hv) as (r & -> & Hr).
    unfold units in Hu. rewrite Ht in Hu.
    destruct (is_container st (VRef r)); [discriminate |].
    destruct (isText st (VRef r)); [| discriminate]. injection Hu as <-.
    unfold bind. by rewrite getOrSetProperties_write.
Qed.

Lemma forallb_live (st : state) (us : list ref) :
  forallb (live st) us = true -> forall p, p ∈ us -> live st p = true.
Proof.
  intros H p Hp. rewrite forallb_forall in H. apply H. by apply list_elem_of_In.
Qed.

Lemma fmap_constant {A B} (f : A -> B) (b : B) (l : list A) :
  (forall a, a ∈ l -> f a = b) -> f <$> l = replicate (length l) b.
Proof.
  induction l as [| a l IH]; intros H; cbn; [done |].
  rewrite H by set_solver. f_equal. apply IH. intros; apply H; set_solver.
Qed.

(** C2, as the code has it. A read on a live story, text frame or text path
    whose paragraphs are live returns one value per paragraph, and leaves the
    state alone; the values come last paragraph first, the order of the
    backwards loop. Nothing is said of a document. *)
Theorem typo_read_reverse_order (fuel : nat) (st : state) (item : value)
    (prop : string) (paras : list ref) :
  isValid st item = true ->
  is_textual st item = true ->
  units st item = Some paras ->
  forallb (live st) paras = true ->
  exists vs,
    typo (S fuel) item (PStr prop) VUndefined st = (Return (VArr vs), st)
    /\ length vs = length paras
    /\ vs = reverse ((fun p => read_prop st p prop) <$> paras).
Proof.
  intros Hv _ Hu Hl. eexists. split; [| split].
  - apply typo_read_units; eauto using forallb_live.
  - by rewrite length_fmap, length_reverse.
  - by rewrite fmap_reverse.
Qed.

Lemma typo_read_reverse_order_witness :
  exists vs,
    typo 1 (VRef 3) (PStr "pointSize") VUndefined sample = (Return (VArr vs), sample)
    /\ length vs = 2
    /\ vs = reverse ((fun p => read_prop sample p "pointSize") <$> [4; 5]).
Proof.
  apply (typo_read_reverse_order 0 sample (VRef 3) "pointSize" [4; 5]);
    reflexivity.
Defined.

(** C2, as the claim has it, fails twice. The paragraphs of the sample frame
    hold the sizes 10 and 12 in document order, and the read answers 12, 10.
    The sample document has that frame, with its two paragraphs, as its only
    text frame, and the read on the document answers the empty list. *)
Lemma typo_read_not_in_document_order :
  (units sample (VRef 3) = Some [4; 5]
   /\ read_prop sample 4 "pointSize" = VNum 10
   /\ read_prop sample 5 "pointSize" = VNum 12
   /\ typo 1 (VRef 3) (PStr "pointSize") VUndefined sample
      = (Return (VArr [VNum 12; VNum 10]), sample)
   /\ VArr [VNum 12; VNum 10] <> VArr [VNum 10; VNum 12])
  /\ (class_of sample (VRef 0) = Some Document
      /\ coll sample 0 "textFrames" = [3]
      /\ typo 2 (VRef 0) (PStr "pointSize") VUndefined sample
         = (Return (VArr []), sample)).
Proof.
  repeat split; try (vm_compute; reflexivity).
  intros H.
  apply (f_equal (fun v => match v with
                           | VArr (VNum n :: _) => n
                           | _ => 0%float
                           end)) in H.
  float_discriminate H.
Qed.

(** The calls of [typo] on the text frames of a document do their work, but
    what they return is dropped: the call on the document answers the empty
    list, here for a document whose frame has two paragraphs. *)
Lemma typo_document_result_dropped :
  coll sample 0 "textFrames" = [3]
  /\ typo 2 (VRef 0) (PStr "pointSize") VUndefined sample
     = (Return (VArr []), sample)
  /\ fst ((typo 2 (VRef 0) (PStr "pointSize") (VNum 7) ;;;
           typo 2 (VRef 0) (PStr "pointSize") VUndefined) sample)
     = Return (VArr [])
  /\ fst ((typo 2 (VRef 0) (PStr "pointSize") (VNum 7) ;;;
           typo 2 (VRef 3) (PStr "pointSize") VUndefined) sample)
     = Return (VArr [VNum 7; VNum 7]).
Proof. repeat split; vm_compute; reflexivity. Qed.

(** C3. On a document the round trip fails. The sample document has one
    text frame, of two paragraphs. The write of 7 on the document reaches
    both paragraphs, as a read on the frame shows, but the read on the
    document that follows the write answers the empty list, not 7 twice:
    what the calls on the text frames return is dropped (lines 299 to 301),
    against the return value the docstring promises. *)
Lemma typo_round_trip_fails :
  class_of sample (VRef 0) = Some Document
  /\ coll sample 0 "textFrames" = [3]
  /\ coll sample 3 "paragraphs" = [4; 5]
  /\ fst ((typo 2 (VRef 0) (PStr "pointSize") (VNum 7) ;;;
           typo 2 (VRef 0) (PStr "pointSize") VUndefined) sample)
     = Return (VArr [])
  /\ VArr [] <> VArr [VNum 7; VNum 7]
  /\ fst ((typo 2 (VRef 0) (PStr "pointSize") (VNum 7) ;;;
           typo 2 (VRef 3) (PStr "pointSize") VUndefined) sample)
     = Return (VArr [VNum 7; VNum 7]).
Proof. repeat split; try (vm_compute; reflexivity). discriminate. Qed.

(** C4, as the code has it. On a target that is not a string and not a live
    host reference, [typo] emits exactly one warning, throws nothing and
    returns [undefined]. *)
Theorem typo_invalid_target (fuel : nat) (st : state) (item : value)
    (property : property) (val : value) :
  isString item = false ->
  isValid st item = false ->
  typo (S fuel) item property val st
  = (Return VUndefined,
     with_warnings (warnings st ++ ["typo(), invalid object passed"]) st).
Proof. intros Hs Hv. by rewrite typo_unfold, Hs, Hv. Qed.

Lemma typo_invalid_target_witness :
  typo 1 (VRef 10) (PStr "pointSize") (VNum 3) sample
  = (Return VUndefined, with_warnings ["typo(), invalid object passed"] sample).
Proof.
  apply (typo_invalid_target 0 sample (VRef 10) (PStr "pointSize") (VNum 3));
    reflexivity.
Defined.

(** C4, as the claim has it, fails: on the stale frame of the sample the
    write returns [undefined], not the empty list. *)
Lemma typo_invalid_target_returns_undefined :
  isValid sample (VRef 10) = false
  /\ fst (typo 1 (VRef 10) (PStr "pointSize") (VNum 3) sample) = Return VUndefined
  /\ fst (typo 1 (VRef 10) (PStr "pointSize") (VNum 3) sample) <> Return (VArr []).
Proof. repeat split; vm_compute; discriminate || reflexivity. Qed.

(** C10. A live object that is neither a document, spread, page or layer,
    nor a story, text frame or text path, nor a text range falls through
    every branch: [typo] returns the empty list, throws nothing, warns of
    nothing and changes nothing. *)
Theorem typo_unrecognized_target (fuel : nat) (st : state) (item : value)
    (property : property) (val : value) :
  isValid st item = true ->
  is_container st item = false ->
  is_textual st item = false ->
  isText st item = false ->
  typo (S fuel) item property val st = (Return (VArr []), st).
Proof.
  intros Hv Hc Ht Hr. rewrite typo_unfold, Hv, Hc, Ht, Hr.
  destruct (isValid_ref _ _ Hv) as (r & -> & _). reflexivity.
Qed.

Lemma typo_unrecognized_target_witness :
  typo 1 (VRef 11) (PObj [("pointSize", VNum 3)]) VUndefined sample
  = (Return (VArr []), sample).
Proof.
  apply (typo_unrecognized_target 0 sample (VRef 11)); reflexivity.
Defined.

(** ** Styles *)

Lemma find_app_last {A} (P : A -> bool) (l : list A) (x : A) :
  (forall a, a ∈ l -> P a = true -> a = x) -> P x = true ->
  find P (l ++ [x]) = Some x.
Proof.
  intros Hl Hx. induction l as [| a l IH]; cbn.
  - by rewrite Hx.
  - destruct (P a) eqn:Ha.
    + f_equal. apply Hl; [set_solver | done].
    + apply IH. intros; apply Hl; [set_solver | done].
Qed.

Lemma find_none_elem {A} (P : A -> bool) (l : list A) (a : A) :
  find P l = None -> a ∈ l -> P a = false.
Proof.
  intros Hf Ha. apply list_elem_of_In in Ha.
  apply (find_none P l Hf a Ha).
Qed.

Section AddStyle.

Variables (st : state) (c : hclass) (own all nm : string).

Hypothesis doc_live : live st (currDoc st) = true.
Hypothesis own_all : own <> all.

Let s := length (heap st).
Let st1 :=
  with_heap
    (alter (push_coll all s) (currDoc st)
       (alter (push_coll own s) (currDoc st)
          (heap st ++ [set_prop "name" (VStr nm) (new_obj c)]))) st.

Lemma host_add_style_live :
  host_add_style c own all nm st = (Return (VRef s), st1).
Proof. unfold host_add_style, bind, gets. cbn. by rewrite doc_live. Qed.

Lemma doc_below : currDoc st < s.
Proof.
  destruct (live_lookup _ _ doc_live) as (o & Ho & _).
  by apply lookup_lt_Some in Ho.
Qed.

Lemma added_style_lookup :
  heap st1 !! s = Some (set_prop "name" (VStr nm) (new_obj c)).
Proof.
  pose proof doc_below as Hd. unfold st1; cbn [heap with_heap].
  rewrite !list_lookup_alter_ne by lia.
  rewrite lookup_app_r by done. by rewrite Nat.sub_diag.
Qed.

Lemma added_style_old (q : ref) (o : hobj) :
  heap st !! q = Some o ->
  exists o', heap st1 !! q = Some o'
    /\ props o' = props o /\ cls o' = cls o /\ valid o' = valid o.
Proof.
  intros Ho. unfold st1; cbn [heap with_heap].
  destruct (decide (currDoc st = q)) as [<- | Hne];
    [rewrite !list_lookup_alter_eq | rewrite !list_lookup_alter_ne by done];
    rewrite (lookup_app_l_Some _ _ _ _ Ho); cbn; eauto.
Qed.

Lemma added_style_coll :
  coll st1 (currDoc st) all = coll st (currDoc st) all ++ [s].
Proof.
  destruct (live_lookup _ _ doc_live) as (o & Ho & _).
  unfold coll, st1; cbn [heap with_heap].
  rewrite !list_lookup_alter_eq, (lookup_app_l_Some _ _ _ _ Ho), Ho.
  cbn [fmap option_fmap option_map]. unfold coll_of, push_coll, set_coll.
  cbn [colls]. rewrite lookup_insert_eq. cbn [default from_option id].
  unfold coll_of. cbn [colls]. by rewrite lookup_insert_ne.
Qed.

Lemma added_style_has_name (q : ref) :
  has_name st1 nm q = true -> q = s \/ has_name st nm q = true.
Proof.
  unfold has_name. destruct (heap st !! q) as [o |] eqn:Ho.
  - destruct (added_style_old q o Ho) as (o' & -> & -> & _). auto.
  - intros H. left. apply lookup_ge_None in Ho.
    destruct (decide (q = s)) as [| Hne]; [done |].
    unfold st1 in H; cbn [heap with_heap] in H.
    rewrite !list_lookup_alter_ne in H by (pose proof doc_below; unfold s in *; lia).
    rewrite lookup_ge_None_2 in H; [done |].
    rewrite length_app; cbn. unfold s in *; lia.
Qed.

Lemma added_style_named : has_name st1 nm s = true.
Proof.
  unfold has_name. rewrite added_style_lookup. cbn.
  rewrite lookup_insert_eq. apply String.eqb_refl.
Qed.

(** The style just added is the one a search for its name now finds. *)
Lemma added_style_found :
  find (has_name st nm) (coll st (currDoc st) all) = None ->
  find (has_name st1 nm) (coll st1 (currDoc st1) all) = Some s.
Proof.
  intros Hf. change (currDoc st1) with (currDoc st).
  rewrite added_style_coll. apply find_app_last.
  - intros q Hq [-> | Hn]%added_style_has_name; [done |].
    by rewrite (find_none_elem _ _ _ Hf Hq) in Hn.
  - apply added_style_named.
Qed.

End AddStyle.

Lemma isText_not_ref (st : state) (v : value) :
  (forall r, v <> VRef r) -> isText st v = false.
Proof. destruct v; intros H; try reflexivity. by destruct (H r). Qed.

(** [characterStyle(nm)]: the search, and on a miss the creation. *)
Lemma characterStyle_by_name (st : state) (nm : string) :
  characterStyle [VStr nm] st =
    match find (has_name st nm) (coll st (currDoc st) "allCharacterStyles") with
    | Some r => (Return (VRef r), st)
    | None =>
        host_add_style CharacterStyle "characterStyles" "allCharacterStyles"
                       nm st
    end.
Proof.
  unfold characterStyle, bind, gets, findInStylesByName.
  cbn -[host_add_style]. rewrite isText_not_ref by done. cbn beta iota.
  destruct (find _ _); cbn -[host_add_style]; [reflexivity |].
  destruct (host_add_style _ _ _ _ st) as [[] ?]; reflexivity.
Qed.

(** What a miss creates: a new character style of that name, listed in the
    document, which the next search finds. *)
Lemma characterStyle_creates (st : state) (nm : string) :
  live st (currDoc st) = true ->
  find (has_name st nm) (coll st (currDoc st) "allCharacterStyles") = None ->
  exists st1,
    characterStyle [VStr nm] st = (Return (VRef (length (heap st))), st1)
    /\ characterStyle [VStr nm] st1 = (Return (VRef (length (heap st))), st1)
    /\ class_of st1 (VRef (length (heap st))) = Some CharacterStyle
    /\ read_prop st1 (length (heap st)) "name" = VStr nm
    /\ length (heap st) ∈ coll st1 (currDoc st1) "allCharacterStyles"
    /\ length (heap st1) = S (length (heap st)).
Proof.
  intros Hd Hf. eexists. split; [| split; [| repeat split]].
  - rewrite characterStyle_by_name, Hf. by apply host_add_style_live.
  - rewrite characterStyle_by_name.
    by rewrite (added_style_found st CharacterStyle "characterStyles"
                  "allCharacterStyles" nm Hd).
  - cbn [class_of]. by rewrite added_style_lookup.
  - unfold read_prop. by rewrite added_style_lookup.
  - change (currDoc (with_heap ?h st)) with (currDoc st).
    rewrite added_style_coll by done. set_solver.
  - cbn [heap with_heap]. rewrite !length_alter, length_app. cbn. lia.
Qed.

(** C5. Asking twice for the character style of a name answers the same
    style both times; the first call creates it only when the document has
    no style of that name, and the second call creates nothing. *)
Theorem characterStyle_idempotent (st : state) (nm : string) :
  live st (currDoc st) = true ->
  exists s st1,
    characterStyle [VStr nm] st = (Return (VRef s), st1)
    /\ characterStyle [VStr nm] st1 = (Return (VRef s), st1)
    /\ match findInStylesByName st
               (coll st (currDoc st) "allCharacterStyles") nm with
       | VRef s0 => s = s0 /\ st1 = st
       | _ => heap st !! s = None
              /\ class_of st1 (VRef s) = Some CharacterStyle
              /\ read_prop st1 s "name" = VStr nm
              /\ length (heap st1) = S (length (heap st))
       end.
Proof.
  intros Hd. unfold findInStylesByName.
  destruct (find _ _) as [s0 |] eqn:Hf.
  - exists s0, st. rewrite characterStyle_by_name, Hf. done.
  - destruct (characterStyle_creates st nm Hd Hf)
      as (st1 & H1 & H2 & Hc & Hn & _ & Hl).
    exists (length (heap st)), st1. repeat split; try done.
    by apply lookup_ge_None_2.
Qed.

Lemma characterStyle_idempotent_witness :
  exists s st1,
    characterStyle [VStr "NewStyle"] sample = (Return (VRef s), st1)
    /\ characterStyle [VStr "NewStyle"] st1 = (Return (VRef s), st1)
    /\ heap sample !! s = None
    /\ class_of st1 (VRef s) = Some CharacterStyle
    /\ read_prop st1 s "name" = VStr "NewStyle"
    /\ length (heap st1) = S (length (heap sample)).
Proof.
  apply (characterStyle_idempotent sample "NewStyle"). reflexivity.
Defined.

(** C6. For a name no style of the document bears, [applyCharacterStyle]
    fails with its error, whatever the text, and creates nothing, while
    [characterStyle] succeeds and creates a character style of that name. *)
Theorem style_creation_asymmetry (st : state) (text : value) (nm : string) :
  live st (currDoc st) = true ->
  findInStylesByName st (coll st (currDoc st) "allCharacterStyles") nm = VNull ->
  applyCharacterStyle text (VStr nm) st
  = (Throw ("applyCharacterStyle(), a character style named "
            +:+ dq +:+ nm +:+ dq +:+ " does not exist."), st)
  /\ exists s st1,
       characterStyle [VStr nm] st = (Return (VRef s), st1)
       /\ heap st !! s = None
       /\ class_of st1 (VRef s) = Some CharacterStyle
       /\ read_prop st1 s "name" = VStr nm
       /\ s ∈ coll st1 (currDoc st1) "allCharacterStyles".
Proof.
  intros Hd Hf. split.
  - unfold applyCharacterStyle, bind, gets. by rewrite Hf.
  - unfold findInStylesByName in Hf.
    destruct (find _ _) as [s0 |] eqn:Hfind; [discriminate |].
    destruct (characterStyle_creates st nm Hd Hfind)
      as (st1 & H1 & _ & Hc & Hn & Hin & _).
    exists (length (heap st)), st1. repeat split; try done.
    by apply lookup_ge_None_2.
Qed.

Lemma style_creation_asymmetry_witness :
  applyCharacterStyle (VRef 3) (VStr "Missing") sample
  = (Throw ("applyCharacterStyle(), a character style named "
            +:+ dq +:+ "Missing" +:+ dq +:+ " does not exist."), sample)
  /\ exists s st1,
       characterStyle [VStr "Missing"] sample = (Return (VRef s), st1)
       /\ heap sample !! s = None
       /\ class_of st1 (VRef s) = Some CharacterStyle
       /\ read_prop st1 s "name" = VStr "Missing"
       /\ s ∈ coll st1 (currDoc st1) "allCharacterStyles".
Proof.
  apply (style_creation_asymmetry sample (VRef 3) "Missing"); reflexivity.
Defined.

(** ** [text] *)

Lemma bind_Return {A B} (m : M A) (k : A -> M B) (st st' : state) (a : A) :
  m st = (Return a, st') -> bind m k st = k a st'.
Proof. intros H. unfold bind. by rewrite H. Qed.

Lemma instanceof_not_ref (st : state) (v : value) (c : hclass) :
  (forall r, v <> VRef r) -> instanceof st v c = false.
Proof. destruct v; intros H; try reflexivity. by destruct (H r). Qed.

Lemma instanceof_obj (st : state) (r : ref) (o : hobj) (c : hclass) :
  heap st !! r = Some o -> instanceof st (VRef r) c = bool_decide (cls o = c).
Proof.
  intros H. unfold instanceof, class_of. rewrite H. cbn.
  apply bool_decide_ext. split; congruence.
Qed.

Lemma alloc_all_spec (os : list hobj) :
  forall st : state,
  alloc_all os st
  = (Return (seq (length (heap st)) (length os)), with_heap (heap st ++ os) st).
Proof.
  induction os as [| o os IH]; intros st; cbn.
  - unfold ret. by rewrite app_nil_r, with_heap_id.
  - unfold bind, alloc. rewrite IH. cbn. unfold ret.
    rewrite length_app, <- app_assoc. cbn. by rewrite Nat.add_1_r.
Qed.

(** Updating an object in place keeps what the update keeps. *)
Lemma alter_keeps (P : hobj -> Prop) (f : hobj -> hobj) (i j : ref)
    (l : list hobj) :
  (forall o, P o -> P (f o)) ->
  (exists o, l !! j = Some o /\ P o) ->
  exists o, alter f i l !! j = Some o /\ P o.
Proof.
  intros Hf (o & Ho & HP). rewrite list_lookup_alter.
  case_decide; subst; rewrite Ho; cbn; eauto.
Qed.

(** The frame [text] adds to a live page and layer. *)
Lemma host_add_textFrame_live (st : state) :
  live st (currPage st) = true -> live st (currLayer st) = true ->
  exists st1,
    host_add_textFrame st = (Return (length (heap st)), st1)
    /\ ctx st1 = ctx st
    /\ length (heap st1) = S (length (heap st))
    /\ exists o, heap st1 !! length (heap st) = Some o
                 /\ (valid o = true /\ cls o = TextFrame).
Proof.
  intros Hp Hl. eexists. split; [| split; [| split]].
  - unfold host_add_textFrame, bind, gets. cbn. rewrite Hp, Hl. reflexivity.
  - reflexivity.
  - cbn [heap with_heap]. rewrite !length_alter, length_app. cbn. lia.
  - cbn [heap with_heap]. do 3 (apply alter_keeps; [by intros ? [] |]).
    eexists. rewrite lookup_app_r, Nat.sub_diag by done. cbn. done.
Qed.

(** The contents of a live text frame become its paragraphs. *)
Lemma host_set_contents_frame (st : state) (r : ref) (s : string) :
  (exists o, heap st !! r = Some o /\ (valid o = true /\ cls o = TextFrame)) ->
  exists st1 ps,
    host_set_contents r s st = (Return tt, st1)
    /\ ctx st1 = ctx st
    /\ text_frame_at st1 r ps.
Proof.
  intros (o & Ho & Hv & Hc).
  pose proof (lookup_lt_Some _ _ _ Ho) as Hr.
  eexists _, (seq (length (heap st))
                (length (paragraph_obj <$> paragraphs_of EmptyString s))).
  split; [| split].
  - unfold host_set_contents. unfold bind at 1, gets at 1. rewrite Ho, Hv, Hc.
    rewrite bool_decide_false by done. unfold bind at 1. unfold ret at 1.
    unfold bind at 1. rewrite alloc_all_spec. reflexivity.
  - reflexivity.
  - unfold text_frame_at. cbn [heap with_heap]. eexists. split; [| repeat split].
    + rewrite !list_lookup_alter_eq, (lookup_app_l_Some _ _ _ _ Ho).
      reflexivity.
    + done.
    + done.
    + unfold coll_of, set_coll. cbn [colls]. by rewrite lookup_insert_eq.
    + intros p [Hp1 Hp2]%elem_of_seq. unfold live. cbn [heap with_heap].
      rewrite !list_lookup_alter_ne by lia.
      rewrite lookup_app_r by lia.
      destruct (lookup_lt_is_Some_2
                  (paragraph_obj <$> paragraphs_of EmptyString s)
                  (p - length (heap st))) as [po Hpo]; [lia |].
      rewrite Hpo. apply list_lookup_fmap_Some in Hpo as (? & -> & _).
      reflexivity.
Qed.

Lemma bind_gets {A B} (f : state -> A) (k : A -> M B) (st : state) :
  bind (gets f) k st = k (f st) st.
Proof. reflexivity. Qed.

Lemma text_frame_at_live (st : state) (r : ref) (ps : list ref) :
  text_frame_at st r ps -> live st r = true.
Proof. intros (o & Ho & Hv & _). unfold live. by rewrite Ho. Qed.

(** [typo] takes a text frame for what it is. *)
Lemma text_frame_at_units (st : state) (r : ref) (ps : list ref) :
  text_frame_at st r ps ->
  isValid st (VRef r) = true /\ units st (VRef r) = Some ps
  /\ forall p, p ∈ ps -> live st p = true.
Proof.
  intros F. pose proof (text_frame_at_live _ _ _ F) as Hl.
  destruct F as (o & Ho & Hv & Hc & Hps & Hlive).
  split; [done |]. split; [| done].
  unfold units, is_container, is_textual.
  rewrite !(instanceof_obj _ _ _ _ Ho), Hc.
  repeat (rewrite bool_decide_false by done).
  rewrite bool_decide_true by done. cbn.
  unfold coll. by rewrite Ho, Hps.
Qed.

Lemma text_frame_at_written (property : property) (val : value)
    (L : list ref) (st : state) (r : ref) (ps : list ref) :
  text_frame_at st r ps ->
  text_frame_at (foldl (write_obj property val) st L) r ps.
Proof.
  intros (o & Ho & Hv & Hc & Hps & Hlive).
  destruct (written_lookup property val L st r) as (n & _ & E).
  rewrite Ho in E. eexists. split; [exact E |].
  destruct (iter_apply_skeleton property val n o) as (E1 & E2 & E3).
  rewrite E1, E2. unfold coll_of. rewrite E3. repeat split; try done.
  intros p Hp. rewrite written_live. by apply Hlive.
Qed.

(** Assigning a property of the frame. *)
Lemma host_set_frame (st : state) (r : ref) (ps : list ref) (k : string)
    (v : value) :
  text_frame_at st r ps ->
  let st1 := write_obj (PStr k) v st r in
  host_set r k v st = (Return tt, st1)
  /\ text_frame_at st1 r ps
  /\ read_prop st1 r k = v
  /\ forall k', k' <> k -> read_prop st1 r k' = read_prop st r k'.
Proof.
  intros F st1. pose proof (text_frame_at_live _ _ _ F) as Hl.
  split; [by apply host_set_live |]. split; [| split].
  - apply (text_frame_at_written (PStr k) v [r]), F.
  - apply (written_same k v [r]); [by apply list_elem_of_singleton | done].
  - intros k' Hk. apply (written_other (PStr k) v [r]). cbn.
    by intros ?%list_elem_of_singleton.
Qed.

(** Recording a transformation of the frame. *)
Lemma host_transform_frame (st : state) (r : ref) (ps : list ref)
    (space anchor matrix : value) :
  text_frame_at st r ps ->
  exists st1,
    host_transform r space anchor matrix st = (Return tt, st1)
    /\ ctx st1 = ctx st
    /\ text_frame_at st1 r ps
    /\ forall k, read_prop st1 r k = read_prop st r k.
Proof.
  intros F. pose proof (text_frame_at_live _ _ _ F) as Hl.
  destruct F as (o & Ho & Hv & Hc & Hps & Hlive).
  eexists. split; [| split; [| split]].
  - unfold host_transform, bind, gets. rewrite Hl. reflexivity.
  - reflexivity.
  - eexists. cbn [heap with_heap]. rewrite list_lookup_alter_eq, Ho.
    split; [reflexivity |]. repeat split; try done.
    intros p Hp. unfold live. cbn [heap with_heap].
    rewrite list_lookup_alter. specialize (Hlive p Hp). unfold live in Hlive.
    case_decide; subst; [rewrite Ho; cbn; done | done].
  - intros k. unfold read_prop. cbn [heap with_heap].
    by rewrite list_lookup_alter_eq, Ho.
Qed.

Section TextProofs.

Variable Number_toString : float -> string.

(** The numeric branch: a new frame, whose bounds are the mode's. *)
Lemma text_frame_spec (st : state) (txt : value) (x y w h : float) :
  live st (currPage st) = true -> live st (currLayer st) = true ->
  exists st1 ps,
    text_frame Number_toString txt x y w h st
    = (Return (VRef (length (heap st))), st1)
    /\ ctx st1 = ctx st
    /\ text_frame_at st1 (length (heap st)) ps
    /\ read_prop st1 (length (heap st)) "geometricBounds"
       = VArr (mode_bounds (currRectMode (ctx st)) x y w h).
Proof.
  intros Hp Hl.
  destruct (host_add_textFrame_live st Hp Hl) as (st1 & E1 & C1 & _ & F1).
  destruct (host_set_contents_frame st1 (length (heap st))
              (toString Number_toString txt) F1) as (st2 & ps & E2 & C2 & F2).
  destruct (host_set_frame st2 _ ps "geometricBounds"
              (VArr (mode_bounds (currRectMode (ctx st)) x y w h)) F2)
    as (E3 & F3 & R3 & _).
  set (st3 := write_obj _ _ st2 _) in *.
  destruct (host_set_frame st3 _ ps
              "textFramePreferences.verticalJustification"
              (currYAlign (ctx st3)) F3) as (E4 & F4 & _ & R4).
  set (st4 := write_obj _ _ st3 _) in *.
  assert (exists st5,
    (if bool_decide (currRectMode (ctx st) = CENTER)
        || bool_decide (currRectMode (ctx st) = RADIUS)
     then host_transform (length (heap st))
            (VEnum "CoordinateSpaces.PASTEBOARD_COORDINATES")
            (VEnum "AnchorPoint.CENTER_ANCHOR")
            (adobeMatrix (currMatrix (ctx st4)) x y)
     else host_transform (length (heap st))
            (VEnum "CoordinateSpaces.PASTEBOARD_COORDINATES")
            (VEnum "AnchorPoint.TOP_LEFT_ANCHOR")
            (adobeMatrix (currMatrix (ctx st4)) x y)) st4
    = (Return tt, st5)
    /\ ctx st5 = ctx st4
    /\ text_frame_at st5 (length (heap st)) ps
    /\ forall k, read_prop st5 (length (heap st)) k
                 = read_prop st4 (length (heap st)) k)
    as (st5 & E5 & C5 & F5 & R5).
  { destruct (_ || _); by apply host_transform_frame. }
  exists st5, ps. split; [| split; [| split]].
  - unfold text_frame. rewrite bind_gets.
    rewrite (bind_Return _ _ _ _ _ E1).
    rewrite (bind_Return _ _ _ _ _ E2).
    change (mode_bounds ?m x y w h) with (mode_bounds m x y w h) in E3.
    unfold mode_bounds in E3.
    rewrite (bind_Return _ _ _ _ _ E3).
    rewrite bind_gets.
    rewrite (bind_Return _ _ _ _ _ E4).
    rewrite bind_gets.
    rewrite (bind_Return _ _ _ _ _ E5).
    reflexivity.
  - rewrite C5. unfold st4, st3. cbn [ctx write_obj with_heap]. congruence.
  - exact F5.
  - rewrite R5, R4 by done. exact R3.
Qed.

End TextProofs.

Section TextClaim.

Variable Number_toString : float -> string.

(** C1, as the code has it. A call [text(txt, x, y, w, h)] with a string or
    number [txt] and four numbers, on a live current page and layer,
    returns a new text frame whose geometric bounds are those of the table
    for the active rectangle mode: CORNER [y, x, y+h, x+w], CORNERS
    [y, x, h, w], CENTER [y-h/2, x-w/2, y+h/2, x+w/2], RADIUS
    [y-h, x-w, y+h, x+w]. *)
Theorem text_bounds_by_mode (fuel : nat) (st : state) (txt : value)
    (x y w h : float) :
  isString txt || isNumber txt = true ->
  live st (currPage st) = true ->
  live st (currLayer st) = true ->
  exists r st1,
    text Number_toString (S fuel) txt (VNum x) [y; w; h] st
    = (Return (VRef r), st1)
    /\ heap st !! r = None
    /\ class_of st1 (VRef r) = Some TextFrame
    /\ read_prop st1 r "geometricBounds"
       = VArr (mode_bounds (currRectMode (ctx st)) x y w h).
Proof.
  intros Htxt Hp Hl.
  destruct (text_frame_spec Number_toString st txt x y w h Hp Hl)
    as (st1 & ps & E1 & C1 & F1 & R1).
  destruct (text_frame_at_units _ _ _ F1) as (Hv & Hu & Hlive).
  eexists _, _. split; [| split; [| split]].
  - unfold text. rewrite Htxt.
    cbn [negb nth length Nat.add Nat.eqb isNumber andb].
    unfold bind at 1. unfold ret at 1.
    rewrite !bind_gets, !instanceof_not_ref by done. cbn [orb].
    rewrite (bind_Return _ _ _ _ _ E1), bind_gets.
    erewrite bind_Return; [reflexivity |].
    by apply typo_write_units.
  - by apply lookup_ge_None_2.
  - rewrite written_class.
    destruct F1 as (o & Ho & _ & Hc & _). cbn. rewrite Ho. cbn. by rewrite Hc.
  - rewrite written_other; [exact R1 |].
    intros H. apply list_elem_of_In in H. cbn in H.
    repeat (destruct H as [H | H]; [discriminate |]). done.
Qed.

End TextClaim.

(** The scenario of C1 with the bounds the code assigns: text placed at
    (50, 50, 100, 200) in CORNER mode has top 50, left 50, bottom 250 and
    right 150. *)
Lemma text_bounds_by_mode_witness :
  exists r st1,
    text (fun _ => "0") 1 (VStr "Hello") (VNum 50) [50; 100; 200]%float sample
    = (Return (VRef r), st1)
    /\ heap sample !! r = None
    /\ class_of st1 (VRef r) = Some TextFrame
    /\ read_prop st1 r "geometricBounds"
       = VArr [VNum 50; VNum 50; VNum 250; VNum 150].
Proof.
  apply (text_bounds_by_mode (fun _ => "0") 0 sample (VStr "Hello")
           50 50 100 200); reflexivity.
Defined.

(** C1, as the claim has it, fails in its scenario: the bottom is 250 and
    the right edge 150, not 150 and 250. *)
Lemma text_scenario_bounds_swapped :
  currRectMode (ctx sample) = CORNER
  /\ (exists st1,
        text (fun _ => "0") 1 (VStr "Hello") (VNum 50) [50; 100; 200]%float sample
        = (Return (VRef 14), st1)
        /\ read_prop st1 14 "geometricBounds"
           = VArr [VNum 50; VNum 50; VNum 250; VNum 150])
  /\ VArr [VNum 50; VNum 50; VNum 250; VNum 150]
     <> VArr [VNum 50; VNum 50; VNum 150; VNum 250].
Proof.
  split; [reflexivity |]. split.
  - eexists. split; vm_compute; reflexivity.
  - intros H.
    apply (f_equal (fun v => match v with
                             | VArr [_; _; VNum n; _] => n
                             | _ => 0%float
                             end)) in H.
    float_discriminate H.
Qed.

(** * Further properties *)

(** ** Assignments, in more detail *)

Lemma apply_property_transforms (property : property) (val : value) (o : hobj) :
  transforms (apply_property property val o) = transforms o.
Proof.
  destruct property as [prop | kvs]; cbn; [done |].
  revert o. induction kvs as [| [k v] kvs IH]; intros o; cbn; [done |].
  by rewrite IH.
Qed.

Lemma iter_apply_transforms (property : property) (val : value) (n : nat)
    (o : hobj) :
  transforms (Nat.iter n (apply_property property val) o) = transforms o.
Proof.
  induction n as [| n IH]; [done |].
  by rewrite Nat.iter_succ, apply_property_transforms.
Qed.

(** An object of pairs leaves in each property the value of the last pair
    that names it, and leaves the properties it does not name alone. *)
Lemma apply_pairs_lookup (kvs : list (string * value)) (val : value) :
  forall (o : hobj) (k : string),
  props (apply_property (PObj kvs) val o) !! k
  = match last_assigned kvs k with
    | Some v => Some v
    | None => props o !! k
    end.
Proof.
  induction kvs as [| [k' v] kvs IH]; intros o k; [done |].
  change (apply_property (PObj ((k', v) :: kvs)) val o)
    with (apply_property (PObj kvs) val (set_prop k' v o)).
  rewrite IH. cbn [last_assigned].
  destruct (last_assigned kvs k); [done |]. cbn [set_prop props].
  destruct (String.eqb_spec k' k) as [-> | Hne].
  - apply lookup_insert_eq.
  - by apply lookup_insert_ne.
Qed.

Lemma iter_apply_pairs_lookup (kvs : list (string * value)) (val : value)
    (n : nat) (o : hobj) (k : string) :
  0 < n ->
  props (Nat.iter n (apply_property (PObj kvs) val) o) !! k
  = match last_assigned kvs k with
    | Some v => Some v
    | None => props o !! k
    end.
Proof.
  induction n as [| n IH]; [lia |]. intros _.
  rewrite Nat.iter_succ, apply_pairs_lookup.
  destruct (last_assigned kvs k) eqn:E; [done |].
  destruct n as [| n]; [done |]. rewrite IH by lia. by rewrite ?E.
Qed.

(** An object that is not in the list is not touched. *)
Lemma written_untouched (property : property) (val : value) (L : list ref) :
  forall (st : state) (q : ref),
  q ∉ L -> heap (foldl (write_obj property val) st L) !! q = heap st !! q.
Proof.
  induction L as [| p L IH]; intros st q Hq; [done |].
  apply not_elem_of_cons in Hq as [Hne Hq]. cbn [foldl].
  rewrite IH by done.
  change (heap (write_obj property val st p))
    with (alter (apply_property property val) p (heap st)).
  by apply list_lookup_alter_ne.
Qed.

Lemma written_length (property : property) (val : value) (L : list ref) :
  forall st : state,
  length (heap (foldl (write_obj property val) st L)) = length (heap st).
Proof.
  induction L as [| p L IH]; intros st; [done |].
  cbn [foldl]. rewrite IH.
  change (heap (write_obj property val st p))
    with (alter (apply_property property val) p (heap st)).
  apply length_alter.
Qed.

(** A live object of the list reads back the last value of each name. *)
Lemma written_pairs (kvs : list (string * value)) (val : value) (L : list ref)
    (st : state) (q : ref) (k : string) (v : value) :
  q ∈ L -> live st q = true -> last_assigned kvs k = Some v ->
  read_prop (foldl (write_obj (PObj kvs) val) st L) q k = v.
Proof.
  intros Hq (o & Ho & _)%live_lookup Hk. unfold read_prop.
  destruct (written_lookup (PObj kvs) val L st q) as (n & Hn & ->).
  rewrite Ho; cbn. rewrite iter_apply_pairs_lookup by auto. by rewrite Hk.
Qed.

Lemma written_transforms (property : property) (val : value) (L : list ref)
    (st : state) (q : ref) :
  transforms <$> heap (foldl (write_obj property val) st L) !! q
  = transforms <$> heap st !! q.
Proof.
  destruct (written_lookup property val L st q) as (n & _ & ->).
  destruct (heap st !! q) as [o |]; cbn; [| done].
  by rewrite iter_apply_transforms.
Qed.

(** ** [typo], further *)

Ltac class_tests :=
  repeat match goal with
         | |- context [bool_decide (?a = ?b)] =>
             first [ rewrite (bool_decide_true (a = b)) by done
                   | rewrite (bool_decide_false (a = b)) by done ]
         end.

(** A text range is neither of the other kinds of target. *)
Lemma isText_units (st : state) (r : ref) :
  isText st (VRef r) = true -> units st (VRef r) = Some [r].
Proof.
  unfold units, isText, is_container, is_textual.
  destruct (heap st !! r) as [o |] eqn:Ho.
  - rewrite !(instanceof_obj _ _ _ _ Ho).
    destruct (cls o); class_tests; cbn; congruence.
  - unfold instanceof, class_of. rewrite Ho. cbn. class_tests. done.
Qed.

Lemma last_assigned_None (kvs : list (string * value)) (k : string) :
  last_assigned kvs k = None -> k ∉ assigned (PObj kvs).
Proof.
  induction kvs as [| [k' v] kvs IH]; cbn; [intros _; apply not_elem_of_nil |].
  destruct (last_assigned kvs k); [discriminate |].
  destruct (String.eqb_spec k' k) as [-> | Hne]; [discriminate |].
  intros _. apply not_elem_of_cons. split; [congruence | by apply IH].
Qed.

(** X1. A string is refused as a target before anything else is looked at:
    [typo] throws its error, emits no warning and changes nothing, whatever
    the property and the value. *)
Theorem typo_rejects_strings (fuel : nat) (st : state) (s : string)
    (property : property) (val : value) :
  typo (S fuel) (VStr s) property val st
  = (Throw "typo() cannot work on strings. Please pass a Text object to modify.",
     st).
Proof. by rewrite typo_unfold. Qed.

(** X2. With an object of name/value pairs [typo] always writes, whatever
    the value argument: on a live story, text frame, text path or text range
    whose text items are live it returns the items, last one first, and
    afterwards every item holds, for each name, the value of the last pair
    that names it; a property that no pair names keeps its value on every
    object. *)
Theorem typo_write_pairs (fuel : nat) (st : state) (item : value)
    (kvs : list (string * value)) (val : value) (us : list ref) :
  isValid st item = true ->
  units st item = Some us ->
  forallb (live st) us = true ->
  exists st1,
    typo (S fuel) item (PObj kvs) val st
    = (Return (VArr (VRef <$> reverse us)), st1)
    /\ (forall p k v, p ∈ us -> last_assigned kvs k = Some v ->
                      read_prop st1 p k = v)
    /\ (forall q k, last_assigned kvs k = None ->
                    read_prop st1 q k = read_prop st q k).
Proof.
  intros Hv Hu Hl. pose proof (forallb_live _ _ Hl) as Hlive.
  eexists. split; [| split].
  - apply typo_write_units; eauto.
  - intros p k v Hp Hk. apply written_pairs; auto.
    by apply elem_of_reverse.
  - intros q k Hk. apply written_other. by apply last_assigned_None.
Qed.

Lemma typo_write_pairs_witness :
  exists st1,
    typo 1 (VRef 3)
      (PObj [("tracking", VNum 5); ("leading", VNum 14); ("tracking", VNum 20)])
      VNull sample
    = (Return (VArr (VRef <$> reverse [4; 5])), st1)
    /\ (forall p k v, p ∈ [4; 5] ->
          last_assigned
            [("tracking", VNum 5); ("leading", VNum 14); ("tracking", VNum 20)]
            k = Some v ->
          read_prop st1 p k = v)
    /\ (forall q k,
          last_assigned
            [("tracking", VNum 5); ("leading", VNum 14); ("tracking", VNum 20)]
            k = None ->
          read_prop st1 q k = read_prop sample q k).
Proof.
  apply (typo_write_pairs 0 sample (VRef 3)
           [("tracking", VNum 5); ("leading", VNum 14); ("tracking", VNum 20)]
           VNull [4; 5]); reflexivity.
Defined.

(** X3. A write assigns to the text items of its target and to nothing
    else: the context and the warnings are what they were, an object that
    is not one of the items keeps every property, and an item keeps every
    property the write does not name. *)
Theorem typo_write_frame (fuel : nat) (st : state) (item : value)
    (property : property) (val : value) (us : list ref) :
  actsAsGetter property val = false ->
  isValid st item = true ->
  units st item = Some us ->
  forallb (live st) us = true ->
  exists st1,
    typo (S fuel) item property val st
    = (Return (VArr (VRef <$> reverse us)), st1)
    /\ ctx st1 = ctx st /\ warnings st1 = warnings st
    /\ (forall q k, q ∉ us -> read_prop st1 q k = read_prop st q k)
    /\ (forall q k, k ∉ assigned property ->
                    read_prop st1 q k = read_prop st q k).
Proof.
  intros Hg Hv Hu Hl. pose proof (forallb_live _ _ Hl) as Hlive.
  eexists. split; [apply typo_write_units; eauto |].
  destruct (written_fields property val (reverse us) st)
    as (E1 & _ & _ & _ & _ & E2).
  repeat split.
  - exact E1.
  - exact E2.
  - intros q k Hq. unfold read_prop.
    rewrite written_untouched; [done |]. by rewrite elem_of_reverse.
  - intros q k Hk. by apply written_other.
Qed.

Lemma typo_write_frame_witness :
  exists st1,
    typo 1 (VRef 6) (PStr "pointSize") (VNum 11) sample
    = (Return (VArr (VRef <$> reverse [4; 5])), st1)
    /\ ctx st1 = ctx sample /\ warnings st1 = warnings sample
    /\ (forall q k, q ∉ [4; 5] -> read_prop st1 q k = read_prop sample q k)
    /\ (forall q k, k ∉ assigned (PStr "pointSize") ->
                    read_prop st1 q k = read_prop sample q k).
Proof.
  apply (typo_write_frame 0 sample (VRef 6) (PStr "pointSize") (VNum 11) [4; 5]);
    reflexivity.
Defined.

(** X4. On a live text range (a character, word, line, paragraph or plain
    text) a read returns exactly one value, the range's own value of the
    property, and changes nothing. *)
Theorem typo_read_text_range (fuel : nat) (st : state) (r : ref)
    (prop : string) :
  isText st (VRef r) = true ->
  live st r = true ->
  typo (S fuel) (VRef r) (PStr prop) VUndefined st
  = (Return (VArr [read_prop st r prop]), st).
Proof.
  intros Ht Hl.
  rewrite (typo_read_units _ _ _ _ _ [r]); try done.
  - by apply isText_units.
  - by intros p ->%list_elem_of_singleton.
Qed.

Lemma typo_read_text_range_witness :
  typo 1 (VRef 5) (PStr "pointSize") VUndefined sample
  = (Return (VArr [VNum 12]), sample).
Proof. apply (typo_read_text_range 0 sample 5 "pointSize"); reflexivity. Defined.

(** ** [typo] on a document, spread, page or layer *)

Lemma forallb_pointwise {A} (f g : A -> bool) (l : list A) :
  (forall a, f a = g a) -> forallb f l = forallb g l.
Proof. intros H. induction l as [| a l IH]; cbn; [done |]. by rewrite H, IH. Qed.

Lemma live_frame_text_frame_at (st : state) (f : ref) :
  live_frame st f = true -> text_frame_at st f (coll st f "paragraphs").
Proof.
  unfold live_frame. intros H.
  apply andb_true_iff in H as [H Hl]. apply andb_true_iff in H as [Hv Hc].
  cbn in Hv. destruct (live_lookup _ _ Hv) as (o & Ho & Hval).
  rewrite (instanceof_obj _ _ _ _ Ho) in Hc. apply bool_decide_eq_true in Hc.
  exists o. repeat split; try done.
  - unfold coll. by rewrite Ho.
  - by apply forallb_live.
Qed.

Section VisitFrame.

Variables (property : property) (val : value).

(** One visit keeps what makes an object a target. *)
Lemma visit_frame_live (st : state) (f q : ref) :
  live (visit_frame property val st f) q = live st q.
Proof.
  unfold visit_frame.
  destruct (actsAsGetter _ _); [done | apply written_live].
Qed.

Lemma visit_frame_coll (st : state) (f q : ref) (nm : string) :
  coll (visit_frame property val st f) q nm = coll st q nm.
Proof.
  unfold visit_frame.
  destruct (actsAsGetter _ _); [done | apply written_coll].
Qed.

Lemma visit_frame_class (st : state) (f : ref) (v : value) :
  class_of (visit_frame property val st f) v = class_of st v.
Proof.
  unfold visit_frame.
  destruct (actsAsGetter _ _); [done | apply written_class].
Qed.

Lemma visit_frame_live_frame (st : state) (f g : ref) :
  live_frame (visit_frame property val st f) g = live_frame st g.
Proof.
  unfold live_frame, instanceof. cbn [isValid].
  rewrite visit_frame_live, visit_frame_class, visit_frame_coll.
  f_equal. apply forallb_pointwise. intros q. apply visit_frame_live.
Qed.

Lemma visit_frame_fields (st : state) (f : ref) :
  ctx (visit_frame property val st f) = ctx st
  /\ warnings (visit_frame property val st f) = warnings st.
Proof.
  unfold visit_frame. destruct (actsAsGetter _ _); [done |].
  by destruct (written_fields property val
                 (reverse (coll st f "paragraphs")) st)
    as (-> & _ & _ & _ & _ & ->).
Qed.

(** The call on one text frame of the container. *)
Lemma typo_visit_frame (fuel : nat) (st : state) (f : ref) :
  live_frame st f = true ->
  exists res,
    typo (S fuel) (VRef f) property val st
    = (Return res, visit_frame property val st f).
Proof.
  intros Hf%live_frame_text_frame_at. unfold visit_frame.
  destruct (text_frame_at_units _ _ _ Hf) as (Hv & Hu & Hlive).
  destruct (actsAsGetter property val) eqn:Hg.
  - destruct property as [prop | kvs]; [| discriminate]. eexists.
    by apply typo_read_units.
  - eexists. by apply typo_write_units.
Qed.

Lemma forEach_frames (fuel : nat) (frames : list ref) :
  forall st : state,
  forallb (live_frame st) frames = true ->
  forEach frames (fun textFrame => typo (S fuel) textFrame property val) st
  = (Return tt, foldl (visit_frame property val) st frames).
Proof.
  induction frames as [| f frames IH]; intros st Hok; [done |].
  cbn [forEach foldl]. cbn [forallb] in Hok.
  apply andb_true_iff in Hok as [Hf Hok].
  destruct (typo_visit_frame fuel st f Hf) as (res & E).
  rewrite (bind_Return _ _ _ _ _ E). apply IH.
  erewrite forallb_pointwise; [exact Hok |].
  intros g. apply visit_frame_live_frame.
Qed.

(** The whole call: the frames are visited in order. *)
Lemma typo_container (fuel : nat) (st : state) (item : value) :
  isValid st item = true ->
  is_container st item = true ->
  forallb (live_frame st) (item_coll st item "textFrames") = true ->
  exists res,
    typo (S (S fuel)) item property val st
    = (Return res,
       foldl (visit_frame property val) st (item_coll st item "textFrames")).
Proof.
  intros Hv Hc Hok. rewrite typo_unfold, Hv, Hc.
  destruct (isValid_ref _ _ Hv) as (r & -> & _). cbn [isString negb].
  rewrite (bind_Return _ _ _ _ _ (forEach_frames fuel _ st Hok)).
  by eexists.
Qed.

(** The visits touch neither the context nor the warnings. *)
Lemma visit_frames_fields (frames : list ref) :
  forall st : state,
  ctx (foldl (visit_frame property val) st frames) = ctx st
  /\ warnings (foldl (visit_frame property val) st frames) = warnings st.
Proof.
  induction frames as [| f frames IH]; intros st; [done |].
  cbn [foldl]. destruct (IH (visit_frame property val st f)) as [-> ->].
  apply visit_frame_fields.
Qed.

(** A read changes nothing. *)
Lemma visit_frames_read (frames : list ref) :
  actsAsGetter property val = true ->
  forall st : state, foldl (visit_frame property val) st frames = st.
Proof.
  intros Hg. induction frames as [| f frames IH]; intros st; [done |].
  cbn [foldl]. unfold visit_frame at 2. rewrite Hg. apply IH.
Qed.

End VisitFrame.

Section VisitFramesWrite.

Variables (prop : string) (v : value).

(** A value that is there stays there. *)
Lemma write_obj_keeps_value (st : state) (p q : ref) :
  read_prop st q prop = v ->
  read_prop (write_obj (PStr prop) v st p) q prop = v.
Proof.
  intros H. unfold read_prop in *.
  change (heap (write_obj (PStr prop) v st p))
    with (alter (set_prop prop v) p (heap st)).
  destruct (decide (p = q)) as [-> | Hne].
  - rewrite list_lookup_alter_eq. destruct (heap st !! q); [| done].
    cbn. by rewrite lookup_insert_eq.
  - by rewrite list_lookup_alter_ne.
Qed.

Lemma written_keeps_value (L : list ref) :
  forall (st : state) (q : ref),
  read_prop st q prop = v ->
  read_prop (foldl (write_obj (PStr prop) v) st L) q prop = v.
Proof.
  induction L as [| p L IH]; intros st q H; [done |].
  cbn [foldl]. by apply IH, write_obj_keeps_value.
Qed.

Lemma visit_frame_keeps_value (val0 : value) (st : state) (f q : ref) :
  val0 = v ->
  read_prop st q prop = v ->
  read_prop (visit_frame (PStr prop) val0 st f) q prop = v.
Proof.
  intros -> H. unfold visit_frame.
  destruct (actsAsGetter _ _); [done | by apply written_keeps_value].
Qed.

Lemma visit_frames_keep_value (frames : list ref) :
  forall (st : state) (q : ref),
  read_prop st q prop = v ->
  read_prop (foldl (visit_frame (PStr prop) v) st frames) q prop = v.
Proof.
  induction frames as [| f frames IH]; intros st q H; [done |].
  cbn [foldl]. by apply IH, visit_frame_keeps_value.
Qed.

(** After the visits every paragraph of every frame holds the value. *)
Lemma visit_frames_write (frames : list ref) :
  is_nullish v = false ->
  forall st : state,
  forallb (live_frame st) frames = true ->
  forall f p,
  f ∈ frames -> p ∈ coll st f "paragraphs" ->
  read_prop (foldl (visit_frame (PStr prop) v) st frames) p prop = v.
Proof.
  intros Hn. induction frames as [| f0 frames IH]; intros st Hok f p Hf Hp.
  - by apply elem_of_nil in Hf.
  - cbn [forallb] in Hok. apply andb_true_iff in Hok as [Hok0 Hok].
    cbn [foldl]. apply elem_of_cons in Hf as [-> | Hf].
    + apply visit_frames_keep_value. unfold visit_frame.
      cbn [actsAsGetter]. rewrite Hn.
      destruct (live_frame_text_frame_at _ _ Hok0) as (_ & _ & _ & _ & _ & Hl).
      apply written_same; [by apply elem_of_reverse | by apply Hl].
    + apply IH with (f := f); try done.
      * erewrite forallb_pointwise; [exact Hok |].
        intros g. apply visit_frame_live_frame.
      * by rewrite visit_frame_coll.
Qed.

End VisitFramesWrite.

(** X5. A read on a live document, spread, page or layer whose text frames
    are live text frames with live paragraphs comes back, and it changes
    nothing: no property is assigned on the way through the frames and
    their paragraphs, no warning is emitted and the context is untouched.
    What the call returns is left open here. *)
Theorem typo_container_read (fuel : nat) (st : state) (item : value)
    (prop : string) :
  isValid st item = true ->
  is_container st item = true ->
  forallb (live_frame st) (item_coll st item "textFrames") = true ->
  exists res,
    typo (S (S fuel)) item (PStr prop) VUndefined st = (Return res, st).
Proof.
  intros Hv Hc Hok.
  destruct (typo_container (PStr prop) VUndefined fuel st item Hv Hc Hok)
    as (res & E).
  exists res. rewrite E. by rewrite visit_frames_read.
Qed.

Lemma typo_container_read_witness :
  exists res,
    typo 2 (VRef 19) (PStr "pointSize") VUndefined sample2
    = (Return res, sample2).
Proof.
  apply (typo_container_read 0 sample2 (VRef 19) "pointSize"); reflexivity.
Defined.

(** X6. A write of a value other than [undefined] and [null] on such a
    container comes back and reaches every paragraph of every text frame of
    the container: each reads the value back afterwards. The context and
    the warnings are what they were. What the call returns is left open
    here. *)
Theorem typo_container_write (fuel : nat) (st : state) (item : value)
    (prop : string) (v : value) :
  is_nullish v = false ->
  isValid st item = true ->
  is_container st item = true ->
  forallb (live_frame st) (item_coll st item "textFrames") = true ->
  exists res st1,
    typo (S (S fuel)) item (PStr prop) v st = (Return res, st1)
    /\ (forall f p,
          f ∈ item_coll st item "textFrames" -> p ∈ coll st f "paragraphs" ->
          read_prop st1 p prop = v)
    /\ ctx st1 = ctx st /\ warnings st1 = warnings st.
Proof.
  intros Hn Hv Hc Hok.
  destruct (typo_container (PStr prop) v fuel st item Hv Hc Hok) as (res & E).
  exists res. eexists. split; [exact E |]. split.
  - intros f p Hf Hp. by apply visit_frames_write with (f := f).
  - apply visit_frames_fields.
Qed.

Lemma typo_container_write_witness :
  exists res st1,
    typo 2 (VRef 19) (PStr "pointSize") (VNum 7) sample2 = (Return res, st1)
    /\ (forall f p,
          f ∈ item_coll sample2 (VRef 19) "textFrames" ->
          p ∈ coll sample2 f "paragraphs" ->
          read_prop st1 p "pointSize" = VNum 7)
    /\ ctx st1 = ctx sample2 /\ warnings st1 = warnings sample2.
Proof.
  apply (typo_container_write 0 sample2 (VRef 19) "pointSize" (VNum 7));
    reflexivity.
Defined.

(** ** The accessors of the context, further *)

(** X7. The accessors of kerning, leading, tracking and size set only when
    called with exactly one argument: with two or more arguments, as with
    none, they return the current value and change nothing (so a size that
    is not positive is not refused then). *)
Theorem accessors_set_with_one_argument_only (st : state) (args : list value)
    (sizes : list float) :
  length args <> 1 ->
  length sizes <> 1 ->
  textKerning args st = (Return (currKerning (ctx st)), st)
  /\ textLeading args st = (Return (currLeading (ctx st)), st)
  /\ textTracking args st = (Return (currTracking (ctx st)), st)
  /\ textSize sizes st = (Return (currFontSize (ctx st)), st).
Proof.
  intros Ha Hs. apply Nat.eqb_neq in Ha, Hs.
  unfold textKerning, textLeading, textTracking, textSize, bind.
  rewrite Ha, Hs. done.
Qed.

Lemma accessors_set_with_one_argument_only_witness :
  textKerning [VNum 3; VNum 4] sample = (Return (VNum 0), sample)
  /\ textLeading [VNum 3; VNum 4] sample = (Return (VEnum "Leading.AUTO"), sample)
  /\ textTracking [VNum 3; VNum 4] sample = (Return (VNum 0), sample)
  /\ textSize [(-3)%float; 4%float] sample = (Return 10%float, sample).
Proof.
  apply (accessors_set_with_one_argument_only sample [VNum 3; VNum 4]
           [(-3)%float; 4%float]); discriminate.
Defined.

(** X8. [textFont] with more than two arguments throws its error and
    changes nothing. *)
Theorem textFont_too_many_arguments (st : state) (args : list string) :
  2 < length args ->
  textFont args st
  = (Throw "textFont(), wrong parameters. To set font use: fontName, fontStyle. fontStyle is optional.",
     st).
Proof.
  intros H. unfold textFont.
  destruct (Nat.eqb_spec (length args) 2); [lia |].
  destruct (Nat.eqb_spec (length args) 1); [lia |].
  destruct (Nat.eqb_spec (length args) 0); [lia |].
  reflexivity.
Qed.

Lemma textFont_too_many_arguments_witness :
  textFont ["Helvetica"; "Bold"; "Italic"] sample
  = (Throw "textFont(), wrong parameters. To set font use: fontName, fontStyle. fontStyle is optional.",
     sample).
Proof.
  apply (textFont_too_many_arguments sample ["Helvetica"; "Bold"; "Italic"]).
  cbn. lia.
Defined.

(** X9. Setting an installed font is idempotent and warns of nothing: the
    call returns the host's font of that name, a second call with the same
    arguments returns the same font and leaves the state as the first call
    left it, and [textFont()] then returns that font. *)
Theorem textFont_installed_idempotent (st : state) (fontName : string)
    (fontStyle : option string) :
  let f := itemByName (app_fonts st)
             (fontName +:+ tab +:+ default "Regular" fontStyle) in
  status f = INSTALLED ->
  exists st1,
    textFont (fontName :: option_list fontStyle) st = (Return f, st1)
    /\ textFont (fontName :: option_list fontStyle) st1 = (Return f, st1)
    /\ textFont [] st1 = (Return f, st1)
    /\ warnings st1 = warnings st /\ heap st1 = heap st.
Proof.
  intros f Hf. exists (with_ctx (with_currFont f (ctx st)) st).
  subst f. destruct fontStyle as [fontStyle |]; cbn in Hf |- *;
    unfold textFont, bind, gets; cbn;
    rewrite !(bool_decide_true _ Hf); done.
Qed.

Lemma textFont_installed_idempotent_witness :
  exists st1,
    textFont ["Helvetica"; "Bold"] sample = (Return sample_bold, st1)
    /\ textFont ["Helvetica"; "Bold"] st1 = (Return sample_bold, st1)
    /\ textFont [] st1 = (Return sample_bold, st1)
    /\ warnings st1 = warnings sample /\ heap st1 = heap sample.
Proof.
  apply (textFont_installed_idempotent sample "Helvetica" (Some "Bold")).
  reflexivity.
Defined.

(** ** [text], further *)

Lemma view_alter {A} (pr : hobj -> A) (f : hobj -> hobj) (i q : ref)
    (l : list hobj) :
  (forall o, pr (f o) = pr o) ->
  pr <$> alter f i l !! q = pr <$> l !! q.
Proof.
  intros Hf. rewrite list_lookup_alter. case_decide; [subst |]; [| done].
  destruct (l !! q); cbn; [| done]. by rewrite Hf.
Qed.

Section Keeps.

Context {A : Type} (pr : hobj -> A).
Variable ex : ref -> bool.

Lemma keeps_refl (st : state) : keeps pr ex st st.
Proof. done. Qed.

Lemma keeps_trans (st st1 st2 : state) :
  keeps pr ex st st1 -> keeps pr ex st1 st2 -> keeps pr ex st st2.
Proof.
  intros (C1 & W1 & H1) (C2 & W2 & H2). repeat split; try congruence.
  intros q Hq. by rewrite H2, H1.
Qed.

Lemma keeps_alter (st : state) (f : hobj -> hobj) (i : ref) :
  ex i = true -> keeps pr ex st (with_heap (alter f i (heap st)) st).
Proof.
  intros Hi. repeat split. intros q Hq. cbn [heap with_heap].
  rewrite list_lookup_alter_ne; [done | congruence].
Qed.

Lemma keeps_alter_view (st : state) (f : hobj -> hobj) (i : ref) :
  (forall o, pr (f o) = pr o) ->
  keeps pr ex st (with_heap (alter f i (heap st)) st).
Proof.
  intros Hf. repeat split. intros q Hq. cbn [heap with_heap].
  by apply view_alter.
Qed.

Lemma excepted_below (st : state) (q : ref) :
  (forall q, length (heap st) <= q -> ex q = true) ->
  ex q = false -> q < length (heap st).
Proof.
  intros Hge Hq. destruct (decide (q < length (heap st))); [done |].
  rewrite Hge in Hq by lia. discriminate.
Qed.

Lemma keeps_app (st : state) (os : list hobj) :
  (forall q, length (heap st) <= q -> ex q = true) ->
  keeps pr ex st (with_heap (heap st ++ os) st).
Proof.
  intros Hge. repeat split. intros q Hq. cbn [heap with_heap].
  destruct (decide (q < length (heap st))) as [Hlt | Hnlt].
  - by rewrite lookup_app_l.
  - rewrite (Hge q) in Hq by lia. discriminate.
Qed.

Lemma keeps_written (property : property) (val : value) (L : list ref)
    (st : state) :
  (forall p, p ∈ L -> ex p = true) ->
  keeps pr ex st (foldl (write_obj property val) st L).
Proof.
  intros HL.
  destruct (written_fields property val L st) as (C & _ & _ & _ & _ & W).
  repeat split; try done.
  intros q Hq. rewrite written_untouched; [done |].
  intros Hin. rewrite (HL q Hin) in Hq. discriminate.
Qed.

End Keeps.

(** What [keeps] says of one object, in the terms of the script. *)
Lemma keeps_object (ex : ref -> bool) (st st1 : state) (q : ref) :
  keeps view ex st st1 -> ex q = false ->
  (forall k, read_prop st1 q k = read_prop st q k)
  /\ live st1 q = live st q
  /\ class_of st1 (VRef q) = class_of st (VRef q)
  /\ transforms <$> heap st1 !! q = transforms <$> heap st !! q.
Proof.
  intros (_ & _ & H) Hq. specialize (H q Hq).
  unfold read_prop, live, class_of, view in *.
  destruct (heap st1 !! q) as [o1 |], (heap st !! q) as [o |];
    cbn in H |- *; try discriminate; [| done].
  injection H as -> -> -> ->. done.
Qed.

Lemma stamp_last (c : context) (k : string) (v : value) :
  (k, v) ∈ stamp c -> last_assigned (stamp c) k = Some v.
Proof.
  unfold stamp. rewrite !elem_of_cons, elem_of_nil.
  intros H.
  repeat (destruct H as [H | H]; [injection H as -> ->; reflexivity |]).
  done.
Qed.

Section KeepsSteps.

Context {A : Type} (pr : hobj -> A).
Variable ex : ref -> bool.

(** The new frame, with what the older objects keep. *)
Lemma host_add_textFrame_keeps (st : state) :
  (forall nm r o, pr (push_coll nm r o) = pr o) ->
  live st (currPage st) = true -> live st (currLayer st) = true ->
  (forall q, length (heap st) <= q -> ex q = true) ->
  exists st1,
    host_add_textFrame st = (Return (length (heap st)), st1)
    /\ keeps pr ex st st1
    /\ length (heap st1) = S (length (heap st))
    /\ exists o, heap st1 !! length (heap st) = Some o
                 /\ (valid o = true /\ cls o = TextFrame)
                 /\ transforms o = [].
Proof.
  intros Hpr Hp Hl Hex. eexists. split; [| split; [| split]].
  - unfold host_add_textFrame, bind, gets. cbn. rewrite Hp, Hl. reflexivity.
  - repeat split. intros q Hq. cbn [heap with_heap].
    rewrite !view_alter by done.
    by rewrite lookup_app_l by eauto using excepted_below.
  - cbn [heap with_heap]. rewrite !length_alter, length_app. cbn. lia.
  - cbn [heap with_heap].
    destruct (alter_keeps
                (fun o => (valid o = true /\ cls o = TextFrame)
                          /\ transforms o = [])
                (push_coll "textFrames" (length (heap st))) (currDoc st)
                (length (heap st))
                (alter (push_coll "textFrames" (length (heap st)))
                   (currLayer st)
                   (alter (push_coll "textFrames" (length (heap st)))
                      (currPage st)
                      (heap st ++
                         [set_prop "itemLayer" (VRef (currLayer st))
                            (new_obj TextFrame)]))))
      as (o & Ho & HP); [by intros ? [[] ?] | | by eauto].
    do 2 (apply alter_keeps; [by intros ? [[] ?] |]).
    eexists. rewrite lookup_app_r, Nat.sub_diag by done. cbn. done.
Qed.

(** The contents of a live text frame: its paragraphs are new objects, the
    frame changes in its contents and paragraphs only. *)
Lemma host_set_contents_keeps (st : state) (r : ref) (s : string) :
  (exists o, heap st !! r = Some o /\ (valid o = true /\ cls o = TextFrame)) ->
  ex r = true ->
  (forall q, length (heap st) <= q -> ex q = true) ->
  exists st1 ps,
    host_set_contents r s st = (Return tt, st1)
    /\ keeps pr ex st st1
    /\ text_frame_at st1 r ps
    /\ (forall p, p ∈ ps -> length (heap st) <= p)
    /\ read_prop st1 r "contents" = VStr s
    /\ (forall k, k <> "contents" -> read_prop st1 r k = read_prop st r k)
    /\ transforms <$> heap st1 !! r = transforms <$> heap st !! r.
Proof.
  intros (o & Ho & Hv & Hc) Hr Hex.
  pose proof (lookup_lt_Some _ _ _ Ho) as Hlt.
  eexists _, (seq (length (heap st))
                (length (paragraph_obj <$> paragraphs_of EmptyString s))).
  split; [| split; [| split; [| split; [| split; [| split]]]]].
  - unfold host_set_contents. unfold bind at 1, gets at 1. rewrite Ho, Hv, Hc.
    rewrite bool_decide_false by done. unfold bind at 1. unfold ret at 1.
    unfold bind at 1. rewrite alloc_all_spec. reflexivity.
  - repeat split. intros q Hq. cbn [heap with_heap].
    rewrite !list_lookup_alter_ne by congruence.
    by rewrite lookup_app_l by eauto using excepted_below.
  - unfold text_frame_at. cbn [heap with_heap]. eexists. split; [| repeat split].
    + rewrite !list_lookup_alter_eq, (lookup_app_l_Some _ _ _ _ Ho).
      reflexivity.
    + done.
    + done.
    + unfold coll_of, set_coll. cbn [colls]. by rewrite lookup_insert_eq.
    + intros p [Hp1 Hp2]%elem_of_seq. unfold live. cbn [heap with_heap].
      rewrite !list_lookup_alter_ne by lia.
      rewrite lookup_app_r by lia.
      destruct (lookup_lt_is_Some_2
                  (paragraph_obj <$> paragraphs_of EmptyString s)
                  (p - length (heap st))) as [po Hpo]; [lia |].
      rewrite Hpo. apply list_lookup_fmap_Some in Hpo as (? & -> & _).
      reflexivity.
  - by intros p [Hp _]%elem_of_seq.
  - unfold read_prop. cbn [heap with_heap].
    rewrite !list_lookup_alter_eq, (lookup_app_l_Some _ _ _ _ Ho). cbn.
    by rewrite lookup_insert_eq.
  - intros k Hk. unfold read_prop. cbn [heap with_heap].
    rewrite !list_lookup_alter_eq, (lookup_app_l_Some _ _ _ _ Ho), Ho. cbn.
    by rewrite lookup_insert_ne.
  - cbn [heap with_heap].
    by rewrite !list_lookup_alter_eq, (lookup_app_l_Some _ _ _ _ Ho), Ho.
Qed.

(** An assignment to the frame. *)
Lemma host_set_keeps (st : state) (r : ref) (k : string) (v : value) :
  ex r = true ->
  keeps pr ex st (write_obj (PStr k) v st r)
  /\ transforms <$> heap (write_obj (PStr k) v st r) !! r
     = transforms <$> heap st !! r.
Proof.
  intros Hr. split.
  - apply (keeps_written pr ex (PStr k) v [r]).
    by intros p ->%list_elem_of_singleton.
  - apply (written_transforms (PStr k) v [r]).
Qed.

(** A transformation of the frame is added to those requested. *)
Lemma host_transform_keeps (st : state) (r : ref) (ps : list ref)
    (space anchor matrix : value) :
  text_frame_at st r ps ->
  ex r = true ->
  exists st1,
    host_transform r space anchor matrix st = (Return tt, st1)
    /\ keeps pr ex st st1
    /\ text_frame_at st1 r ps
    /\ (forall k, read_prop st1 r k = read_prop st r k)
    /\ transforms <$> heap st1 !! r
       = (fun ts => ts ++ [(space, anchor, matrix)])
           <$> (transforms <$> heap st !! r).
Proof.
  intros F Hr. pose proof (text_frame_at_live _ _ _ F) as Hl.
  destruct F as (o & Ho & Hv & Hc & Hps & Hlive).
  eexists. split; [| split; [| split; [| split]]].
  - unfold host_transform, bind, gets. rewrite Hl. reflexivity.
  - by apply keeps_alter.
  - eexists. cbn [heap with_heap]. rewrite list_lookup_alter_eq, Ho.
    split; [reflexivity |]. repeat split; try done.
    intros p Hp. unfold live. cbn [heap with_heap].
    rewrite list_lookup_alter. specialize (Hlive p Hp). unfold live in Hlive.
    case_decide; subst; [rewrite Ho; cbn; done | done].
  - intros k. unfold read_prop. cbn [heap with_heap].
    by rewrite list_lookup_alter_eq, Ho.
  - cbn [heap with_heap]. by rewrite list_lookup_alter_eq, Ho.
Qed.

End KeepsSteps.

Section TextFurther.

Variable Number_toString : float -> string.

(** The numeric branch, with everything it does to the new frame. *)
Lemma text_frame_full (st : state) (txt : value) (x y w h : float) :
  live st (currPage st) = true -> live st (currLayer st) = true ->
  exists st1 ps,
    text_frame Number_toString txt x y w h st
    = (Return (VRef (length (heap st))), st1)
    /\ keeps view (Nat.leb (length (heap st))) st st1
    /\ text_frame_at st1 (length (heap st)) ps
    /\ (forall p, p ∈ ps -> length (heap st) <= p)
    /\ read_prop st1 (length (heap st)) "contents"
       = VStr (toString Number_toString txt)
    /\ read_prop st1 (length (heap st))
         "textFramePreferences.verticalJustification"
       = currYAlign (ctx st)
    /\ transforms <$> heap st1 !! length (heap st)
       = Some [(VEnum "CoordinateSpaces.PASTEBOARD_COORDINATES",
                match currRectMode (ctx st) with
                | CENTER | RADIUS => VEnum "AnchorPoint.CENTER_ANCHOR"
                | CORNER | CORNERS => VEnum "AnchorPoint.TOP_LEFT_ANCHOR"
                end,
                adobeMatrix (currMatrix (ctx st)) x y)].
Proof.
  intros Hp Hl. set (n := length (heap st)).
  assert (Hn : Nat.leb n n = true) by apply Nat.leb_refl.
  destruct (host_add_textFrame_keeps view (Nat.leb n) st (fun _ _ _ => eq_refl)
              Hp Hl)
    as (st1 & E1 & K1 & L1 & o1 & Ho1 & F1 & T1).
  { intros q Hq. by apply Nat.leb_le. }
  fold n in E1, L1, Ho1.
  destruct (host_set_contents_keeps view (Nat.leb n) st1 n
              (toString Number_toString txt))
    as (st2 & ps & E2 & K2 & F2 & Hps & R2 & R2o & T2); [by eauto | done | |].
  { intros q Hq. apply Nat.leb_le. lia. }
  destruct (host_set_frame st2 n ps "geometricBounds"
              (VArr (mode_bounds (currRectMode (ctx st)) x y w h)) F2)
    as (E3 & F3 & _ & R3o).
  destruct (host_set_keeps view (Nat.leb n) st2 n "geometricBounds"
              (VArr (mode_bounds (currRectMode (ctx st)) x y w h)) Hn)
    as (K3 & T3).
  set (st3 := write_obj _ _ st2 _) in *.
  destruct (host_set_frame st3 n ps
              "textFramePreferences.verticalJustification"
              (currYAlign (ctx st3)) F3) as (E4 & F4 & R4 & R4o).
  destruct (host_set_keeps view (Nat.leb n) st3 n
              "textFramePreferences.verticalJustification"
              (currYAlign (ctx st3)) Hn) as (K4 & T4).
  set (st4 := write_obj _ _ st3 _) in *.
  pose proof (keeps_trans _ _ _ _ _ K1 K2) as K12.
  pose proof (keeps_trans _ _ _ _ _ K12 K3) as K13.
  pose proof (keeps_trans _ _ _ _ _ K13 K4) as K14.
  destruct K13 as (C3 & _). destruct K14 as (C4 & W4 & V4).
  destruct (host_transform_keeps view (Nat.leb n) st4 n ps
              (VEnum "CoordinateSpaces.PASTEBOARD_COORDINATES")
              match currRectMode (ctx st) with
              | CENTER | RADIUS => VEnum "AnchorPoint.CENTER_ANCHOR"
              | CORNER | CORNERS => VEnum "AnchorPoint.TOP_LEFT_ANCHOR"
              end
              (adobeMatrix (currMatrix (ctx st4)) x y) F4 Hn)
    as (st5 & E5 & K5 & F5 & R5 & T5).
  exists st5, ps. split; [| split; [| split; [| split; [| split; [| split]]]]].
  - unfold text_frame. rewrite bind_gets.
    rewrite (bind_Return _ _ _ _ _ E1).
    rewrite (bind_Return _ _ _ _ _ E2).
    unfold mode_bounds in E3.
    rewrite (bind_Return _ _ _ _ _ E3).
    rewrite bind_gets.
    rewrite (bind_Return _ _ _ _ _ E4).
    rewrite bind_gets.
    erewrite bind_Return; [reflexivity |].
    rewrite <- E5. by destruct (currRectMode (ctx st)).
  - eapply keeps_trans; [| exact K5]. done.
  - exact F5.
  - intros p Hp'. specialize (Hps p Hp'). lia.
  - rewrite R5, R4o, R3o by done. exact R2.
  - rewrite R5, R4. by rewrite C3.
  - rewrite C4 in T5. rewrite T5, T4, T3, T2, Ho1. cbn. by rewrite T1.
Qed.

(** The whole numeric call. *)
Lemma text_numeric_full (fuel : nat) (st : state) (txt : value)
    (x y w h : float) :
  isString txt || isNumber txt = true ->
  live st (currPage st) = true -> live st (currLayer st) = true ->
  exists st1 ps,
    text Number_toString (S fuel) txt (VNum x) [y; w; h] st
    = (Return (VRef (length (heap st))), st1)
    /\ keeps view (Nat.leb (length (heap st))) st st1
    /\ text_frame_at st1 (length (heap st)) ps
    /\ (forall p, p ∈ ps -> length (heap st) <= p)
    /\ read_prop st1 (length (heap st)) "contents"
       = VStr (toString Number_toString txt)
    /\ read_prop st1 (length (heap st))
         "textFramePreferences.verticalJustification"
       = currYAlign (ctx st)
    /\ transforms <$> heap st1 !! length (heap st)
       = Some [(VEnum "CoordinateSpaces.PASTEBOARD_COORDINATES",
                match currRectMode (ctx st) with
                | CENTER | RADIUS => VEnum "AnchorPoint.CENTER_ANCHOR"
                | CORNER | CORNERS => VEnum "AnchorPoint.TOP_LEFT_ANCHOR"
                end,
                adobeMatrix (currMatrix (ctx st)) x y)]
    /\ (forall p k v, p ∈ ps -> (k, v) ∈ stamp (ctx st) ->
                      read_prop st1 p k = v).
Proof.
  intros Htxt Hp Hl.
  destruct (text_frame_full st txt x y w h Hp Hl)
    as (st1 & ps & E1 & K1 & F1 & Hps & Rc & Rv & T1).
  destruct (text_frame_at_units _ _ _ F1) as (Hv & Hu & Hlive).
  pose proof K1 as (C1 & _ & _).
  exists (foldl (write_obj (PObj (stamp (ctx st))) VUndefined) st1 (reverse ps)),
    ps.
  split; [| split; [| split; [| split; [| split; [| split; [| split]]]]]].
  - unfold text. rewrite Htxt.
    cbn [negb nth length Nat.add Nat.eqb isNumber andb].
    unfold bind at 1. unfold ret at 1.
    rewrite !bind_gets, !instanceof_not_ref by done. cbn [orb].
    rewrite (bind_Return _ _ _ _ _ E1), bind_gets.
    erewrite bind_Return; [reflexivity |].
    rewrite C1. by apply typo_write_units.
  - eapply keeps_trans; [exact K1 |]. apply keeps_written.
    intros p Hp'. rewrite elem_of_reverse in Hp'. apply Nat.leb_le.
    by apply Hps.
  - by apply text_frame_at_written.
  - exact Hps.
  - rewrite written_other; [exact Rc |].
    apply last_assigned_None. reflexivity.
  - rewrite written_other; [exact Rv |].
    apply last_assigned_None. reflexivity.
  - by rewrite written_transforms.
  - intros p k v Hp' Hk. apply written_pairs.
    + by apply elem_of_reverse.
    + by apply Hlive.
    + by apply stamp_last.
Qed.

End TextFurther.

Lemma text_frame_at_coll (st : state) (r : ref) (ps : list ref) :
  text_frame_at st r ps -> coll st r "paragraphs" = ps.
Proof. intros (o & Ho & _ & _ & Hps & _). unfold coll. by rewrite Ho. Qed.

Section TextExtras.

Variable Number_toString : float -> string.

(** X10. A numeric call of [text] on a live page and layer makes a text
    frame whose contents are the text, whose vertical justification is the
    current vertical alignment, and each paragraph of which is a new, live
    object that holds the current font, size, fill colour, alignment,
    leading, kerning and tracking. *)
Theorem text_stamps_context (fuel : nat) (st : state) (txt : value)
    (x y w h : float) :
  isString txt || isNumber txt = true ->
  live st (currPage st) = true ->
  live st (currLayer st) = true ->
  exists r st1,
    text Number_toString (S fuel) txt (VNum x) [y; w; h] st
    = (Return (VRef r), st1)
    /\ read_prop st1 r "contents" = VStr (toString Number_toString txt)
    /\ read_prop st1 r "textFramePreferences.verticalJustification"
       = currYAlign (ctx st)
    /\ (forall p, p ∈ coll st1 r "paragraphs" ->
          live st1 p = true /\ heap st !! p = None)
    /\ (forall p k v, p ∈ coll st1 r "paragraphs" -> (k, v) ∈ stamp (ctx st) ->
          read_prop st1 p k = v).
Proof.
  intros Htxt Hp Hl.
  destruct (text_numeric_full Number_toString fuel st txt x y w h Htxt Hp Hl)
    as (st1 & ps & E & K & F & Hps & Rc & Rv & _ & Hs).
  exists (length (heap st)), st1. rewrite (text_frame_at_coll _ _ _ F).
  repeat split; try done.
  - destruct F as (_ & _ & _ & _ & _ & Hlive). by apply Hlive.
  - apply lookup_ge_None_2. by apply Hps.
Qed.

(** X11. The frame of a numeric call is transformed exactly once, in
    pasteboard coordinates, by the matrix [currMatrix.adobeMatrix(x, y)]:
    about its centre in the CENTER and RADIUS modes, about its top left
    corner in the CORNER and CORNERS modes. *)
Theorem text_positions_frame (fuel : nat) (st : state) (txt : value)
    (x y w h : float) :
  isString txt || isNumber txt = true ->
  live st (currPage st) = true ->
  live st (currLayer st) = true ->
  exists r st1,
    text Number_toString (S fuel) txt (VNum x) [y; w; h] st
    = (Return (VRef r), st1)
    /\ transforms <$> heap st1 !! r
       = Some [(VEnum "CoordinateSpaces.PASTEBOARD_COORDINATES",
                match currRectMode (ctx st) with
                | CENTER | RADIUS => VEnum "AnchorPoint.CENTER_ANCHOR"
                | CORNER | CORNERS => VEnum "AnchorPoint.TOP_LEFT_ANCHOR"
                end,
                adobeMatrix (currMatrix (ctx st)) x y)].
Proof.
  intros Htxt Hp Hl.
  destruct (text_numeric_full Number_toString fuel st txt x y w h Htxt Hp Hl)
    as (st1 & ps & E & _ & _ & _ & _ & _ & T & _).
  by exists (length (heap st)), st1.
Qed.

(** X12. A numeric call of [text] adds objects and changes none that was
    there in what a script reads of it: the context and the warnings are what
    they were, and every object of the store before the call keeps its
    properties, its class, its validity and its transformations (the page,
    the layer and the document gain a child). *)
Theorem text_keeps_document (fuel : nat) (st : state) (txt : value)
    (x y w h : float) :
  isString txt || isNumber txt = true ->
  live st (currPage st) = true ->
  live st (currLayer st) = true ->
  exists r st1,
    text Number_toString (S fuel) txt (VNum x) [y; w; h] st
    = (Return (VRef r), st1)
    /\ ctx st1 = ctx st /\ warnings st1 = warnings st
    /\ forall q, q < length (heap st) ->
         (forall k, read_prop st1 q k = read_prop st q k)
         /\ live st1 q = live st q
         /\ class_of st1 (VRef q) = class_of st (VRef q)
         /\ transforms <$> heap st1 !! q = transforms <$> heap st !! q.
Proof.
  intros Htxt Hp Hl.
  destruct (text_numeric_full Number_toString fuel st txt x y w h Htxt Hp Hl)
    as (st1 & ps & E & K & _).
  exists (length (heap st)), st1. pose proof K as (C & W & _).
  repeat split; try done;
    apply (keeps_object _ _ _ q K); apply Nat.leb_gt; lia.
Qed.

(** X13. A first argument that is neither a string nor a number is refused
    before anything is done: [text] throws and changes nothing, whatever the
    other arguments. *)
Theorem text_rejects_other_txt (fuel : nat) (st : state) (txt x : value)
    (yhw : list float) :
  isString txt || isNumber txt = false ->
  text Number_toString fuel txt x yhw st
  = (Throw ("text(), the first parameter has to be a string! But is something else: "
            +:+ js_typeof txt +:+ ". Use: text(txt, x, y, w, h)"), st).
Proof. intros H. unfold text. by rewrite H. Qed.

(** X14. A second argument that is neither a rectangle, oval, polygon or
    text frame, nor a graphic line, nor a number followed by exactly three
    more arguments is refused: [text] throws its usage error and changes
    nothing. *)
Theorem text_rejects_other_shapes (fuel : nat) (st : state) (txt x : value)
    (yhw : list float) :
  isString txt || isNumber txt = true ->
  instanceof st x Rectangle || instanceof st x Oval
  || instanceof st x Polygon || instanceof st x TextFrame = false ->
  instanceof st x GraphicLine = false ->
  isNumber x && (2 + length yhw =? 5) = false ->
  text Number_toString fuel txt x yhw st
  = (Throw "text(), invalid parameters. Use: text(txt, x, y, w, h) or text(txt, obj).",
     st).
Proof.
  intros Htxt Hs Hline Hn. unfold text. rewrite Htxt. cbn [negb].
  unfold bind at 1. unfold ret at 1. rewrite !bind_gets, Hs, Hline, Hn.
  reflexivity.
Qed.

End TextExtras.

Lemma text_stamps_context_witness :
  exists r st1,
    text (fun _ => "0") 1 (VStr "Hello") (VNum 50) [50; 100; 200]%float sample
    = (Return (VRef r), st1)
    /\ read_prop st1 r "contents" = VStr (toString (fun _ => "0") (VStr "Hello"))
    /\ read_prop st1 r "textFramePreferences.verticalJustification"
       = currYAlign (ctx sample)
    /\ (forall p, p ∈ coll st1 r "paragraphs" ->
          live st1 p = true /\ heap sample !! p = None)
    /\ (forall p k v, p ∈ coll st1 r "paragraphs" ->
          (k, v) ∈ stamp (ctx sample) -> read_prop st1 p k = v).
Proof.
  apply (text_stamps_context (fun _ => "0") 0 sample (VStr "Hello") 50 50 100 200);
    reflexivity.
Defined.

Lemma text_positions_frame_witness :
  exists r st1,
    text (fun _ => "0") 1 (VStr "Hello") (VNum 50) [50; 100; 200]%float sample
    = (Return (VRef r), st1)
    /\ transforms <$> heap st1 !! r
       = Some [(VEnum "CoordinateSpaces.PASTEBOARD_COORDINATES",
                match currRectMode (ctx sample) with
                | CENTER | RADIUS => VEnum "AnchorPoint.CENTER_ANCHOR"
                | CORNER | CORNERS => VEnum "AnchorPoint.TOP_LEFT_ANCHOR"
                end,
                adobeMatrix (currMatrix (ctx sample)) 50 50)].
Proof.
  apply (text_positions_frame (fun _ => "0") 0 sample (VStr "Hello") 50 50 100 200);
    reflexivity.
Defined.

Lemma text_keeps_document_witness :
  exists r st1,
    text (fun _ => "0") 1 (VStr "Hello") (VNum 50) [50; 100; 200]%float sample
    = (Return (VRef r), st1)
    /\ ctx st1 = ctx sample /\ warnings st1 = warnings sample
    /\ forall q, q < length (heap sample) ->
         (forall k, read_prop st1 q k = read_prop sample q k)
         /\ live st1 q = live sample q
         /\ class_of st1 (VRef q) = class_of sample (VRef q)
         /\ transforms <$> heap st1 !! q = transforms <$> heap sample !! q.
Proof.
  apply (text_keeps_document (fun _ => "0") 0 sample (VStr "Hello") 50 50 100 200);
    reflexivity.
Defined.

Lemma text_rejects_other_txt_witness :
  text (fun _ => "0") 1 (VBool true) (VNum 50) [50; 100; 200]%float sample
  = (Throw ("text(), the first parameter has to be a string! But is something else: "
            +:+ js_typeof (VBool true) +:+ ". Use: text(txt, x, y, w, h)"),
     sample).
Proof.
  apply (text_rejects_other_txt (fun _ => "0") 1 sample (VBool true)).
  reflexivity.
Defined.

Lemma text_rejects_other_shapes_witness :
  text (fun _ => "0") 1 (VStr "Hello") (VNum 50) [50; 100]%float sample
  = (Throw "text(), invalid parameters. Use: text(txt, x, y, w, h) or text(txt, obj).",
     sample)
  /\ text (fun _ => "0") 1 (VStr "Hello") (VRef 0) [] sample
     = (Throw "text(), invalid parameters. Use: text(txt, x, y, w, h) or text(txt, obj).",
        sample).
Proof.
  split.
  - apply (text_rejects_other_shapes (fun _ => "0") 1 sample (VStr "Hello")
             (VNum 50) [50; 100]%float); reflexivity.
  - apply (text_rejects_other_shapes (fun _ => "0") 1 sample (VStr "Hello")
             (VRef 0) []); reflexivity.
Defined.

Section TextCompose.

Variable Number_toString : float -> string.

(** X15. What the setters store is what [text] uses: after [textAlign],
    [textSize] (of a positive size), [textLeading], [textKerning] and
    [textTracking], a numeric call of [text] makes a frame whose vertical
    justification is the vertical alignment set and whose paragraphs all
    hold the alignment, size, leading, kerning and tracking set. *)
Theorem setters_then_text (fuel : nat) (st : state) (txt : value)
    (x y w h : float) (align yAlign leading kerning tracking : value)
    (size : float) :
  PrimFloat.ltb 0 size = true ->
  isString txt || isNumber txt = true ->
  live st (currPage st) = true ->
  live st (currLayer st) = true ->
  exists r st1,
    (textAlign [align; yAlign] ;;; textSize [size] ;;;
     textLeading [leading] ;;; textKerning [kerning] ;;;
     textTracking [tracking] ;;;
     text Number_toString (S fuel) txt (VNum x) [y; w; h]) st
    = (Return (VRef r), st1)
    /\ read_prop st1 r "textFramePreferences.verticalJustification" = yAlign
    /\ forall p, p ∈ coll st1 r "paragraphs" ->
         read_prop st1 p "justification" = align
         /\ read_prop st1 p "pointSize" = VNum size
         /\ read_prop st1 p "leading" = leading
         /\ read_prop st1 p "kerningValue" = kerning
         /\ read_prop st1 p "tracking" = tracking.
Proof.
  intros Hsize Htxt Hp Hl.
  set (c := with_currTracking tracking
              (with_currKerning kerning
                 (with_currLeading leading
                    (with_currFontSize size
                       (with_currYAlign yAlign
                          (with_currAlign align (ctx st))))))).
  destruct (text_numeric_full Number_toString fuel (with_ctx c st) txt x y w h
              Htxt Hp Hl) as (st1 & ps & E & _ & F & _ & _ & Rv & _ & Hs).
  change (heap (with_ctx c st)) with (heap st) in *.
  exists (length (heap st)), st1. split; [| split].
  - erewrite bind_Return; [| reflexivity].
    erewrite bind_Return; [| rewrite textSize_set, Hsize; reflexivity].
    do 3 (erewrite bind_Return; [| reflexivity]).
    exact E.
  - exact Rv.
  - rewrite (text_frame_at_coll _ _ _ F). intros p Hp'.
    repeat split; apply Hs; try done; unfold stamp;
      rewrite !elem_of_cons; tauto.
Qed.

End TextCompose.

Lemma setters_then_text_witness :
  exists r st1,
    (textAlign [VEnum "Justification.CENTER_ALIGN";
                VEnum "VerticalJustification.BOTTOM_ALIGN"] ;;;
     textSize [24%float] ;;;
     textLeading [VNum 30] ;;; textKerning [VNum 10] ;;;
     textTracking [VNum 50] ;;;
     text (fun _ => "0") 1 (VStr "Hello") (VNum 50) [50; 100; 200]%float) sample
    = (Return (VRef r), st1)
    /\ read_prop st1 r "textFramePreferences.verticalJustification"
       = VEnum "VerticalJustification.BOTTOM_ALIGN"
    /\ forall p, p ∈ coll st1 r "paragraphs" ->
         read_prop st1 p "justification" = VEnum "Justification.CENTER_ALIGN"
         /\ read_prop st1 p "pointSize" = VNum 24
         /\ read_prop st1 p "leading" = VNum 30
         /\ read_prop st1 p "kerningValue" = VNum 10
         /\ read_prop st1 p "tracking" = VNum 50.
Proof.
  apply (setters_then_text (fun _ => "0") 0 sample (VStr "Hello") 50 50 100 200
           (VEnum "Justification.CENTER_ALIGN")
           (VEnum "VerticalJustification.BOTTOM_ALIGN")
           (VNum 30) (VNum 10) (VNum 50) 24); reflexivity.
Defined.




Section TextShape.

Variable Number_toString : float -> string.


End TextShape.


(** ** [text] on a graphic line *)

Section TextPathSteps.

Context {A : Type} (pr : hobj -> A).
Variable ex : ref -> bool.

(** The text path the host adds to a live line. *)
Lemma host_add_textPath_keeps (st : state) (line : ref) :
  (forall nm r o, pr (push_coll nm r o) = pr o) ->
  live st line = true ->
  (forall q, length (heap st) <= q -> ex q = true) ->
  exists st1,
    host_add_textPath line st = (Return (S (length (heap st))), st1)
    /\ keeps pr ex st st1
    /\ length (heap st1) = S (S (length (heap st)))
    /\ heap st1 !! length (heap st) = Some (new_obj Text)
    /\ heap st1 !! S (length (heap st))
       = Some (set_coll "texts" [length (heap st)] (new_obj TextPath))
    /\ coll st1 line "textPaths" = coll st line "textPaths" ++ [S (length (heap st))].
Proof.
  intros Hpr Hl Hex.
  destruct (live_lookup _ _ Hl) as (o & Ho & _).
  pose proof (lookup_lt_Some _ _ _ Ho) as Hlt.
  eexists. split; [| split; [| split; [| split; [| split]]]].
  - unfold host_add_textPath, bind, gets. rewrite Hl. cbn.
    rewrite length_app, Nat.add_1_r. reflexivity.
  - repeat split. intros q Hq. cbn [heap with_heap].
    rewrite view_alter by done.
    pose proof (excepted_below ex st q Hex Hq).
    rewrite !lookup_app_l; [done | lia | rewrite length_app; cbn; lia].
  - cbn [heap with_heap]. rewrite length_alter, !length_app. cbn. lia.
  - cbn [heap with_heap]. rewrite list_lookup_alter_ne by lia.
    rewrite lookup_app_l by (rewrite length_app; cbn; lia).
    rewrite lookup_app_r by done. by rewrite Nat.sub_diag.
  - cbn [heap with_heap]. rewrite list_lookup_alter_ne by lia.
    rewrite lookup_app_r by (rewrite length_app; cbn; lia).
    rewrite length_app. cbn.
    by replace (S (length (heap st)) - (length (heap st) + 1)) with 0 by lia.
  - unfold coll. cbn [heap with_heap]. rewrite list_lookup_alter_eq.
    rewrite !lookup_app_l, Ho; [| lia | rewrite length_app; cbn; lia].
    cbn. unfold coll_of, push_coll, set_coll. cbn [colls].
    by rewrite lookup_insert_eq.
Qed.

(** The contents of a text path become the paragraphs of its first text. *)
Lemma host_set_contents_path (st : state) (r t : ref) (s : string) :
  heap st !! r = Some (set_coll "texts" [t] (new_obj TextPath)) ->
  heap st !! t = Some (new_obj Text) ->
  r <> t ->
  ex r = true -> ex t = true ->
  (forall q, length (heap st) <= q -> ex q = true) ->
  exists st1 ps,
    host_set_contents r s st = (Return tt, st1)
    /\ keeps pr ex st st1
    /\ isValid st1 (VRef r) = true
    /\ class_of st1 (VRef r) = Some TextPath
    /\ units st1 (VRef r) = Some ps
    /\ (forall p, p ∈ ps -> live st1 p = true /\ length (heap st) <= p)
    /\ read_prop st1 r "contents" = VStr s
    /\ (forall q nm, q <> r -> q <> t -> coll st1 q nm = coll st q nm).
Proof.
  intros Hr Ht Hne Hexr Hext Hex.
  pose proof (lookup_lt_Some _ _ _ Hr) as Hrlt.
  pose proof (lookup_lt_Some _ _ _ Ht) as Htlt.
  set (objs := paragraph_obj <$> paragraphs_of EmptyString s).
  set (ps := seq (length (heap st)) (length objs)).
  exists (with_heap (alter (set_coll "paragraphs" ps) t
                       (alter (set_prop "contents" (VStr s)) r
                          (heap st ++ objs))) st), ps.
  assert (Hft : first_text r st = (Return t, st)).
  { unfold first_text, coll. by rewrite Hr. }
  assert (Hr1 : alter (set_coll "paragraphs" ps) t
                  (alter (set_prop "contents" (VStr s)) r (heap st ++ objs)) !! r
                = Some (set_prop "contents" (VStr s)
                          (set_coll "texts" [t] (new_obj TextPath)))).
  { rewrite list_lookup_alter_ne by congruence.
    by rewrite list_lookup_alter_eq, (lookup_app_l_Some _ _ _ _ Hr). }
  assert (Ht1 : alter (set_coll "paragraphs" ps) t
                  (alter (set_prop "contents" (VStr s)) r (heap st ++ objs)) !! t
                = Some (set_coll "paragraphs" ps (new_obj Text))).
  { rewrite list_lookup_alter_eq.
    rewrite list_lookup_alter_ne by congruence.
    by rewrite (lookup_app_l_Some _ _ _ _ Ht). }
  split; [| split; [| split; [| split; [| split; [| split; [| split]]]]]].
  - unfold host_set_contents. unfold bind at 1, gets at 1. rewrite Hr.
    cbn [valid set_coll new_obj cls]. rewrite bool_decide_true by done.
    unfold bind at 1. rewrite Hft.
    unfold bind at 1. rewrite alloc_all_spec. reflexivity.
  - repeat split. intros q Hq. cbn [heap with_heap].
    rewrite !list_lookup_alter_ne by congruence.
    by rewrite lookup_app_l by eauto using excepted_below.
  - cbn [isValid]. unfold live. cbn [heap with_heap]. by rewrite Hr1.
  - cbn [class_of heap with_heap]. by rewrite Hr1.
  - match goal with |- units ?s _ = _ => set (st1 := s) end.
    assert (Hc : class_of st1 (VRef r) = Some TextPath).
    { cbn [class_of]. subst st1. cbn [heap with_heap]. by rewrite Hr1. }
    assert (Htexts : coll st1 r "texts" = [t]).
    { unfold coll. subst st1. cbn [heap with_heap]. rewrite Hr1.
      unfold coll_of, set_prop, set_coll. cbn [colls].
      by rewrite lookup_insert_eq. }
    assert (Hpars : coll st1 t "paragraphs" = ps).
    { unfold coll. subst st1. cbn [heap with_heap]. rewrite Ht1.
      unfold coll_of, set_coll. cbn [colls]. by rewrite lookup_insert_eq. }
    unfold units, is_container, is_textual, instanceof. rewrite Hc.
    class_tests. cbn [orb andb]. by rewrite Htexts, Hpars.
  - intros p [Hp1 Hp2]%elem_of_seq. split; [| done].
    unfold live. cbn [heap with_heap].
    rewrite !list_lookup_alter_ne by lia.
    rewrite lookup_app_r by lia.
    destruct (lookup_lt_is_Some_2 objs (p - length (heap st))) as [po Hpo];
      [lia |].
    rewrite Hpo. apply list_lookup_fmap_Some in Hpo as (? & -> & _).
    reflexivity.
  - unfold read_prop. cbn [heap with_heap]. rewrite Hr1. cbn.
    by rewrite lookup_insert_eq.
  - intros q nm Hq1 Hq2. unfold coll. cbn [heap with_heap].
    rewrite !list_lookup_alter_ne by congruence.
    destruct (decide (q < length (heap st))) as [Hlt | Hge].
    + by rewrite lookup_app_l.
    + rewrite (lookup_ge_None_2 (heap st)) by lia.
      destruct ((heap st ++ objs) !! q) eqn:E; [| done].
      apply lookup_app_Some in E as [E | [_ E]].
      * apply lookup_lt_Some in E. lia.
      * apply list_lookup_fmap_Some in E as (? & -> & _). reflexivity.
Qed.

End TextPathSteps.

Section TextLine.

Variable Number_toString : float -> string.

(** X17. Given a live graphic line, [text] adds a new text path to the line
    and returns it: the path is appended to the line's text paths, its
    contents are the text, and the paragraphs [typo] reaches through it hold
    the current attributes. Every object that was there, the line included,
    keeps its class, validity, properties and transformations; the context
    and the warnings are unchanged. Arguments after the line are ignored. *)
Theorem text_on_line (fuel : nat) (st : state) (txt : value) (line : ref)
    (yhw : list float) :
  isString txt || isNumber txt = true ->
  instanceof st (VRef line) GraphicLine = true ->
  live st line = true ->
  exists tp st1 ps,
    text Number_toString (S fuel) txt (VRef line) yhw st = (Return (VRef tp), st1)
    /\ heap st !! tp = None
    /\ class_of st1 (VRef tp) = Some TextPath
    /\ coll st1 line "textPaths" = coll st line "textPaths" ++ [tp]
    /\ read_prop st1 tp "contents" = VStr (toString Number_toString txt)
    /\ units st1 (VRef tp) = Some ps
    /\ (forall q, q < length (heap st) ->
                  view <$> heap st1 !! q = view <$> heap st !! q)
    /\ ctx st1 = ctx st /\ warnings st1 = warnings st
    /\ (forall p k v, p ∈ ps -> (k, v) ∈ stamp (ctx st) ->
                      read_prop st1 p k = v).
Proof.
  intros Htxt Hline Hlive.
  destruct (live_lookup _ _ Hlive) as (o & Ho & Hval).
  pose proof (lookup_lt_Some _ _ _ Ho) as Hlt.
  assert (Hcls : cls o = GraphicLine).
  { rewrite (instanceof_obj _ _ _ _ Ho) in Hline.
    by apply bool_decide_eq_true in Hline. }
  assert (Hshape : instanceof st (VRef line) Rectangle
                   || instanceof st (VRef line) Oval
                   || instanceof st (VRef line) Polygon
                   || instanceof st (VRef line) TextFrame = false).
  { rewrite !(instanceof_obj _ _ _ _ Ho), Hcls. by class_tests. }
  set (n := length (heap st)) in *.
  assert (Hexn : forall q, n <= q -> Nat.leb n q = true).
  { intros q Hq. by apply Nat.leb_le. }
  destruct (host_add_textPath_keeps view (Nat.leb n) st line)
    as (stA & EA & KA & LA & HtA & HrA & CA); [done | done | done |].
  fold n in EA, LA, HtA, HrA, CA.
  destruct (host_set_contents_path view (Nat.leb n) stA (S n) n
              (toString Number_toString txt) HrA HtA)
    as (stB & ps & EB & KB & VB & ClB & UB & PB & RB & CollB).
  { lia. }
  { apply Hexn. lia. }
  { by apply Hexn. }
  { intros q Hq. apply Hexn. lia. }
  pose proof (keeps_trans _ _ _ _ _ KA KB) as KAB.
  pose proof KAB as (CAB & WAB & _).
  assert (Kf : keeps view (Nat.leb n) st
                 (foldl (write_obj (PObj (stamp (ctx st))) VUndefined) stB
                    (reverse ps))).
  { eapply keeps_trans; [exact KAB |]. apply keeps_written.
    intros p Hp. rewrite elem_of_reverse in Hp. apply Hexn.
    destruct (PB p Hp). lia. }
  exists (S n), (foldl (write_obj (PObj (stamp (ctx st))) VUndefined) stB
                   (reverse ps)), ps.
  split; [| split; [| split; [| split; [| split; [| split; [| split; [| split; [| split]]]]]]]].
  - unfold text. rewrite Htxt. cbn [negb].
    unfold bind at 1. unfold ret at 1. rewrite !bind_gets, Hshape, Hline.
    unfold bind at 1. unfold bind at 1. rewrite EA.
    unfold bind at 1. rewrite EB. cbn [ret]. rewrite bind_gets.
    erewrite bind_Return; [reflexivity |].
    rewrite CAB. apply typo_write_units; try done.
    intros p Hp. by destruct (PB p Hp).
  - apply lookup_ge_None_2. lia.
  - by rewrite written_class.
  - rewrite written_coll, CollB by lia. exact CA.
  - rewrite written_other; [exact RB |].
    apply last_assigned_None. reflexivity.
  - by rewrite written_units.
  - intros q Hq. destruct Kf as (_ & _ & H). apply H.
    apply Nat.leb_gt. done.
  - by destruct Kf as (? & _).
  - by destruct Kf as (_ & ? & _).
  - intros p k v Hp Hk. apply written_pairs.
    + by apply elem_of_reverse.
    + by destruct (PB p Hp).
    + by apply stamp_last.
Qed.

End TextLine.

Lemma text_on_line_witness :
  exists tp st1 ps,
    text (fun _ => "0") 1 (VStr "Hello") (VRef 13) [] sample
    = (Return (VRef tp), st1)
    /\ heap sample !! tp = None
    /\ class_of st1 (VRef tp) = Some TextPath
    /\ coll st1 13 "textPaths" = coll sample 13 "textPaths" ++ [tp]
    /\ read_prop st1 tp "contents" = VStr (toString (fun _ => "0") (VStr "Hello"))
    /\ units st1 (VRef tp) = Some ps
    /\ (forall q, q < length (heap sample) ->
                  view <$> heap st1 !! q = view <$> heap sample !! q)
    /\ ctx st1 = ctx sample /\ warnings st1 = warnings sample
    /\ (forall p k v, p ∈ ps -> (k, v) ∈ stamp (ctx sample) ->
                      read_prop st1 p k = v).
Proof.
  apply (text_on_line (fun _ => "0") 0 sample (VStr "Hello") 13 []);
    reflexivity.
Defined.

(** ** Applying styles *)

Lemma host_set_all_live (rs : list ref) (prop : string) (v : value) :
  forall st : state,
  (forall r, r ∈ rs -> live st r = true) ->
  host_set_all rs prop v st
  = (Return tt, foldl (write_obj (PStr prop) v) st rs).
Proof.
  induction rs as [| r rs IH]; intros st Hl; [done |].
  cbn [host_set_all foldl]. unfold bind.
  rewrite host_set_live by (apply Hl; set_solver).
  apply IH. intros q Hq. rewrite live_write_obj. apply Hl. set_solver.
Qed.

(** [applyCharacterStyle] and [applyParagraphStyle] once the style is an
    instance: the test of the parameters, then the assignment. *)
Lemma applyCharacterStyle_instance (st : state) (text style : value) :
  (forall nm, style <> VStr nm) ->
  applyCharacterStyle text style st
  = if negb (isText st text || instanceof st text TextFrame
             || instanceof st text Story)
       || negb (instanceof st style CharacterStyle)
    then (Throw "applyCharacterStyle(), wrong parameters. Use: textObject|textFrame|story, characterStyle|name", st)
    else
      let target := if instanceof st text TextFrame
                    then VEvery (item_coll st text "characters") else text in
      match set_member target "appliedCharacterStyle" style st with
      | (Return _, st1) => (Return target, st1)
      | (Throw e, st1) => (Throw e, st1)
      | (OutOfFuel, st1) => (OutOfFuel, st1)
      end.
Proof.
  intros Hs. unfold applyCharacterStyle, bind, gets, ret, error.
  destruct style; try (by destruct (Hs s));
    (destruct (negb _ || negb _); [reflexivity |];
     destruct (instanceof st text TextFrame); cbn beta iota zeta;
     match goal with
     | |- context [set_member ?t ?p ?v st] =>
         destruct (set_member t p v st) as [[] ?]; reflexivity
     end).
Qed.

Lemma applyParagraphStyle_instance (st : state) (text style : value) :
  (forall nm, style <> VStr nm) ->
  applyParagraphStyle text style st
  = if negb (isText st text || instanceof st text TextFrame
             || instanceof st text Story)
       || negb (instanceof st style ParagraphStyle)
    then (Throw "applyParagraphStyle(), wrong parameters. Use: textObject|textFrame|story, paragraphStyle|name", st)
    else
      let target := if instanceof st text TextFrame
                    then VEvery (item_coll st text "paragraphs") else text in
      match set_member target "appliedParagraphStyle" style st with
      | (Return _, st1) => (Return target, st1)
      | (Throw e, st1) => (Throw e, st1)
      | (OutOfFuel, st1) => (OutOfFuel, st1)
      end.
Proof.
  intros Hs. unfold applyParagraphStyle, bind, gets, ret, error.
  destruct style; try (by destruct (Hs s));
    (destruct (negb _ || negb _); [reflexivity |];
     destruct (instanceof st text TextFrame); cbn beta iota zeta;
     match goal with
     | |- context [set_member ?t ?p ?v st] =>
         destruct (set_member t p v st) as [[] ?]; reflexivity
     end).
Qed.

Lemma isText_not_frame (st : state) (v : value) :
  isText st v = true -> instanceof st v TextFrame = false.
Proof.
  unfold isText, instanceof. destruct (class_of st v) as [[] |]; cbn;
    by class_tests.
Qed.

(** X18. A target that is neither a text range, nor a text frame, nor a
    story is refused by both [applyCharacterStyle] and [applyParagraphStyle],
    whatever style instance comes with it; nothing is changed. *)
Theorem apply_style_wrong_text (st : state) (text style : value) :
  (forall nm, style <> VStr nm) ->
  isText st text || instanceof st text TextFrame || instanceof st text Story
  = false ->
  applyCharacterStyle text style st
  = (Throw "applyCharacterStyle(), wrong parameters. Use: textObject|textFrame|story, characterStyle|name", st)
  /\ applyParagraphStyle text style st
     = (Throw "applyParagraphStyle(), wrong parameters. Use: textObject|textFrame|story, paragraphStyle|name", st).
Proof.
  intros Hs Ht. split.
  - rewrite applyCharacterStyle_instance by done. by rewrite Ht.
  - rewrite applyParagraphStyle_instance by done. by rewrite Ht.
Qed.

Lemma apply_style_wrong_text_witness :
  applyCharacterStyle (VRef 11) (VRef 12) sample
  = (Throw "applyCharacterStyle(), wrong parameters. Use: textObject|textFrame|story, characterStyle|name", sample)
  /\ applyParagraphStyle (VRef 11) (VRef 12) sample
     = (Throw "applyParagraphStyle(), wrong parameters. Use: textObject|textFrame|story, paragraphStyle|name", sample).
Proof.
  apply (apply_style_wrong_text sample (VRef 11) (VRef 12)); [done |].
  reflexivity.
Defined.

(** X19. The two kinds of style are not interchangeable: a paragraph style
    given to [applyCharacterStyle], or a character style given to
    [applyParagraphStyle], is refused with the error of wrong parameters,
    whatever the text; nothing is changed. *)
Theorem apply_style_wrong_kind (st : state) (text : value) (cs ps : ref) :
  instanceof st (VRef cs) CharacterStyle = true ->
  instanceof st (VRef ps) ParagraphStyle = true ->
  applyCharacterStyle text (VRef ps) st
  = (Throw "applyCharacterStyle(), wrong parameters. Use: textObject|textFrame|story, characterStyle|name", st)
  /\ applyParagraphStyle text (VRef cs) st
     = (Throw "applyParagraphStyle(), wrong parameters. Use: textObject|textFrame|story, paragraphStyle|name", st).
Proof.
  unfold instanceof at 1 2. intros Hc%bool_decide_eq_true Hp%bool_decide_eq_true.
  split.
  - rewrite applyCharacterStyle_instance by done.
    unfold instanceof at 3. rewrite Hp. class_tests.
    by rewrite orb_true_r.
  - rewrite applyParagraphStyle_instance by done.
    unfold instanceof at 3. rewrite Hc. class_tests.
    by rewrite orb_true_r.
Qed.

Lemma apply_style_wrong_kind_witness :
  applyCharacterStyle (VRef 4) (VRef 14) sample2
  = (Throw "applyCharacterStyle(), wrong parameters. Use: textObject|textFrame|story, characterStyle|name", sample2)
  /\ applyParagraphStyle (VRef 4) (VRef 12) sample2
     = (Throw "applyParagraphStyle(), wrong parameters. Use: textObject|textFrame|story, paragraphStyle|name", sample2).
Proof.
  apply (apply_style_wrong_kind sample2 (VRef 4) 12 14); reflexivity.
Defined.

(** X20. Applying a style by its name is applying the style a search of
    the document's styles finds under that name: same result and same
    state, for character and for paragraph styles. *)
Theorem apply_style_by_name (st : state) (text : value) (cnm pnm : string)
    (cs ps : ref) :
  findInStylesByName st (coll st (currDoc st) "allCharacterStyles") cnm = VRef cs ->
  findInStylesByName st (coll st (currDoc st) "allParagraphStyles") pnm = VRef ps ->
  applyCharacterStyle text (VStr cnm) st = applyCharacterStyle text (VRef cs) st
  /\ applyParagraphStyle text (VStr pnm) st = applyParagraphStyle text (VRef ps) st.
Proof.
  intros Hc Hp. split.
  - unfold applyCharacterStyle, bind, gets. by rewrite Hc.
  - unfold applyParagraphStyle, bind, gets. by rewrite Hp.
Qed.

Lemma apply_style_by_name_witness :
  applyCharacterStyle (VRef 4) (VStr "Title") sample2
  = applyCharacterStyle (VRef 4) (VRef 12) sample2
  /\ applyParagraphStyle (VRef 4) (VStr "Body") sample2
     = applyParagraphStyle (VRef 4) (VRef 14) sample2.
Proof.
  apply (apply_style_by_name sample2 (VRef 4) "Title" "Body" 12 14);
    reflexivity.
Defined.

(** A style applied to one live text range. *)
Lemma write_one_spec (st : state) (r : ref) (prop : string) (v : value) :
  live st r = true ->
  let st1 := write_obj (PStr prop) v st r in
  read_prop st1 r prop = v
  /\ (forall k, k <> prop -> read_prop st1 r k = read_prop st r k)
  /\ (forall q, q <> r -> heap st1 !! q = heap st !! q)
  /\ ctx st1 = ctx st /\ warnings st1 = warnings st
  /\ live st1 r = true
  /\ (forall x, isText st1 x = isText st x).
Proof.
  intros Hl st1. subst st1. repeat split.
  - apply (written_same prop v [r] st r); [| done].
    by apply list_elem_of_singleton.
  - intros k Hk. apply (written_other (PStr prop) v [r] st r k).
    cbn. by intros ->%list_elem_of_singleton.
  - intros q Hq. apply (written_untouched (PStr prop) v [r] st q).
    by intros ->%list_elem_of_singleton.
  - by rewrite live_write_obj.
  - intros x. unfold isText.
    by rewrite !(written_instanceof (PStr prop) v [r] st).
Qed.

(** X21. Round trip on a text range: [applyCharacterStyle] on a live range
    returns the range, and [characterStyle] of that range then answers the
    style that was applied, without changing anything. The assignment
    touches one property of the range and nothing else. *)
Theorem applyCharacterStyle_then_read (st : state) (r s : ref) :
  isText st (VRef r) = true -> live st r = true ->
  instanceof st (VRef s) CharacterStyle = true ->
  exists st1,
    applyCharacterStyle (VRef r) (VRef s) st = (Return (VRef r), st1)
    /\ characterStyle [VRef r] st1 = (Return (VRef s), st1)
    /\ (forall k, k <> "appliedCharacterStyle" ->
                  read_prop st1 r k = read_prop st r k)
    /\ (forall q, q <> r -> heap st1 !! q = heap st !! q)
    /\ ctx st1 = ctx st /\ warnings st1 = warnings st.
Proof.
  intros Ht Hl Hs.
  destruct (write_one_spec st r "appliedCharacterStyle" (VRef s) Hl)
    as (R & Ro & Hq & C & W & L1 & T1).
  exists (write_obj (PStr "appliedCharacterStyle") (VRef s) st r).
  split; [| split; [| done]].
  - rewrite applyCharacterStyle_instance by done.
    rewrite Ht, Hs, (isText_not_frame _ _ Ht). cbn [orb negb set_member].
    by rewrite host_set_live.
  - unfold characterStyle, bind, gets. cbn [length Nat.ltb Nat.leb ret arg nth].
    rewrite T1, Ht. cbn [get_member]. rewrite host_get_live by done.
    by rewrite R.
Qed.

Lemma applyCharacterStyle_then_read_witness :
  exists st1,
    applyCharacterStyle (VRef 4) (VRef 12) sample = (Return (VRef 4), st1)
    /\ characterStyle [VRef 4] st1 = (Return (VRef 12), st1)
    /\ (forall k, k <> "appliedCharacterStyle" ->
                  read_prop st1 4 k = read_prop sample 4 k)
    /\ (forall q, q <> 4 -> heap st1 !! q = heap sample !! q)
    /\ ctx st1 = ctx sample /\ warnings st1 = warnings sample.
Proof.
  apply (applyCharacterStyle_then_read sample 4 12); reflexivity.
Defined.

(** X22. The same round trip for paragraph styles: [applyParagraphStyle] on
    a live text range, then [paragraphStyle] of the range. *)
Theorem applyParagraphStyle_then_read (st : state) (r s : ref) :
  isText st (VRef r) = true -> live st r = true ->
  instanceof st (VRef s) ParagraphStyle = true ->
  exists st1,
    applyParagraphStyle (VRef r) (VRef s) st = (Return (VRef r), st1)
    /\ paragraphStyle [VRef r] st1 = (Return (VRef s), st1)
    /\ (forall k, k <> "appliedParagraphStyle" ->
                  read_prop st1 r k = read_prop st r k)
    /\ (forall q, q <> r -> heap st1 !! q = heap st !! q)
    /\ ctx st1 = ctx st /\ warnings st1 = warnings st.
Proof.
  intros Ht Hl Hs.
  destruct (write_one_spec st r "appliedParagraphStyle" (VRef s) Hl)
    as (R & Ro & Hq & C & W & L1 & T1).
  exists (write_obj (PStr "appliedParagraphStyle") (VRef s) st r).
  split; [| split; [| done]].
  - rewrite applyParagraphStyle_instance by done.
    rewrite Ht, Hs, (isText_not_frame _ _ Ht). cbn [orb negb set_member].
    by rewrite host_set_live.
  - unfold paragraphStyle, bind, gets. cbn [length Nat.ltb Nat.leb ret arg nth].
    rewrite T1, Ht. cbn [get_member]. rewrite host_get_live by done.
    by rewrite R.
Qed.

Lemma applyParagraphStyle_then_read_witness :
  exists st1,
    applyParagraphStyle (VRef 4) (VRef 14) sample2 = (Return (VRef 4), st1)
    /\ paragraphStyle [VRef 4] st1 = (Return (VRef 14), st1)
    /\ (forall k, k <> "appliedParagraphStyle" ->
                  read_prop st1 4 k = read_prop sample2 4 k)
    /\ (forall q, q <> 4 -> heap st1 !! q = heap sample2 !! q)
    /\ ctx st1 = ctx sample2 /\ warnings st1 = warnings sample2.
Proof.
  apply (applyParagraphStyle_then_read sample2 4 14); reflexivity.
Defined.

(** What an assignment to every item of a collection leaves. *)
Lemma write_all_spec (st : state) (rs : list ref) (prop : string) (v : value) :
  (forall r, r ∈ rs -> live st r = true) ->
  let st1 := foldl (write_obj (PStr prop) v) st rs in
  (forall r, r ∈ rs -> read_prop st1 r prop = v)
  /\ (forall q k, k <> prop -> read_prop st1 q k = read_prop st q k)
  /\ (forall q, q ∉ rs -> heap st1 !! q = heap st !! q)
  /\ ctx st1 = ctx st /\ warnings st1 = warnings st.
Proof.
  intros Hl st1. subst st1.
  destruct (written_fields (PStr prop) v rs st) as (C & _ & _ & _ & _ & W).
  repeat split; try done.
  - intros r Hr. apply written_same; auto.
  - intros q k Hk. apply written_other. cbn.
    by intros ->%list_elem_of_singleton.
  - intros q Hq. by apply written_untouched.
Qed.

(** X23. Given a live text frame, [applyCharacterStyle] assigns the style
    to every character of the frame and returns the characters, not the
    frame: each character then holds the style, no other property of any
    object changes, and an object that is not a character of the frame, the
    frame among them, is left as it was. *)
Theorem applyCharacterStyle_frame (st : state) (f s : ref) :
  instanceof st (VRef f) TextFrame = true ->
  instanceof st (VRef s) CharacterStyle = true ->
  (forall c, c ∈ coll st f "characters" -> live st c = true) ->
  exists st1,
    applyCharacterStyle (VRef f) (VRef s) st
    = (Return (VEvery (coll st f "characters")), st1)
    /\ (forall c, c ∈ coll st f "characters" ->
                  read_prop st1 c "appliedCharacterStyle" = VRef s)
    /\ (forall q k, k <> "appliedCharacterStyle" ->
                    read_prop st1 q k = read_prop st q k)
    /\ (forall q, q ∉ coll st f "characters" -> heap st1 !! q = heap st !! q)
    /\ ctx st1 = ctx st /\ warnings st1 = warnings st.
Proof.
  intros Hf Hs Hl.
  exists (foldl (write_obj (PStr "appliedCharacterStyle") (VRef s)) st
            (coll st f "characters")).
  split; [| by apply write_all_spec].
  rewrite applyCharacterStyle_instance by done.
  rewrite Hf, Hs, orb_true_r. cbn [orb negb item_coll set_member].
  by rewrite host_set_all_live.
Qed.

Lemma applyCharacterStyle_frame_witness :
  exists st1,
    applyCharacterStyle (VRef 18) (VRef 12) sample2
    = (Return (VEvery (coll sample2 18 "characters")), st1)
    /\ (forall c, c ∈ coll sample2 18 "characters" ->
                  read_prop st1 c "appliedCharacterStyle" = VRef 12)
    /\ (forall q k, k <> "appliedCharacterStyle" ->
                    read_prop st1 q k = read_prop sample2 q k)
    /\ (forall q, q ∉ coll sample2 18 "characters" ->
                  heap st1 !! q = heap sample2 !! q)
    /\ ctx st1 = ctx sample2 /\ warnings st1 = warnings sample2.
Proof.
  apply (applyCharacterStyle_frame sample2 18 12); [reflexivity .. |].
  intros c Hc. vm_compute in Hc.
  repeat (apply elem_of_cons in Hc as [-> | Hc]; [reflexivity |]).
  by apply elem_of_nil in Hc.
Defined.

(** X24. Given a live text frame, [applyParagraphStyle] assigns the style
    to every paragraph of the frame and returns the paragraphs, not the
    frame; the rest is left as it was. *)
Theorem applyParagraphStyle_frame (st : state) (f s : ref) :
  instanceof st (VRef f) TextFrame = true ->
  instanceof st (VRef s) ParagraphStyle = true ->
  (forall p, p ∈ coll st f "paragraphs" -> live st p = true) ->
  exists st1,
    applyParagraphStyle (VRef f) (VRef s) st
    = (Return (VEvery (coll st f "paragraphs")), st1)
    /\ (forall p, p ∈ coll st f "paragraphs" ->
                  read_prop st1 p "appliedParagraphStyle" = VRef s)
    /\ (forall q k, k <> "appliedParagraphStyle" ->
                    read_prop st1 q k = read_prop st q k)
    /\ (forall q, q ∉ coll st f "paragraphs" -> heap st1 !! q = heap st !! q)
    /\ ctx st1 = ctx st /\ warnings st1 = warnings st.
Proof.
  intros Hf Hs Hl.
  exists (foldl (write_obj (PStr "appliedParagraphStyle") (VRef s)) st
            (coll st f "paragraphs")).
  split; [| by apply write_all_spec].
  rewrite applyParagraphStyle_instance by done.
  rewrite Hf, Hs, orb_true_r. cbn [orb negb item_coll set_member].
  by rewrite host_set_all_live.
Qed.

Lemma applyParagraphStyle_frame_witness :
  exists st1,
    applyParagraphStyle (VRef 3) (VRef 14) sample2
    = (Return (VEvery (coll sample2 3 "paragraphs")), st1)
    /\ (forall p, p ∈ coll sample2 3 "paragraphs" ->
                  read_prop st1 p "appliedParagraphStyle" = VRef 14)
    /\ (forall q k, k <> "appliedParagraphStyle" ->
                    read_prop st1 q k = read_prop sample2 q k)
    /\ (forall q, q ∉ coll sample2 3 "paragraphs" ->
                  heap st1 !! q = heap sample2 !! q)
    /\ ctx st1 = ctx sample2 /\ warnings st1 = warnings sample2.
Proof.
  apply (applyParagraphStyle_frame sample2 3 14); [reflexivity .. |].
  intros c Hc. vm_compute in Hc.
  repeat (apply elem_of_cons in Hc as [-> | Hc]; [reflexivity |]).
  by apply elem_of_nil in Hc.
Defined.

(** ** Paragraph styles by name *)

(** [paragraphStyle(nm)]: the search, and on a miss the creation. *)
Lemma paragraphStyle_by_name (st : state) (nm : string) :
  paragraphStyle [VStr nm] st =
    match find (has_name st nm) (coll st (currDoc st) "allParagraphStyles") with
    | Some r => (Return (VRef r), st)
    | None =>
        host_add_style ParagraphStyle "paragraphStyles" "allParagraphStyles"
                       nm st
    end.
Proof.
  unfold paragraphStyle, bind, gets, findInStylesByName.
  cbn -[host_add_style]. rewrite isText_not_ref by done. cbn beta iota.
  destruct (find _ _); cbn -[host_add_style]; [reflexivity |].
  destruct (host_add_style _ _ _ _ st) as [[] ?]; reflexivity.
Qed.

Lemma paragraphStyle_creates (st : state) (nm : string) :
  live st (currDoc st) = true ->
  find (has_name st nm) (coll st (currDoc st) "allParagraphStyles") = None ->
  exists st1,
    paragraphStyle [VStr nm] st = (Return (VRef (length (heap st))), st1)
    /\ paragraphStyle [VStr nm] st1 = (Return (VRef (length (heap st))), st1)
    /\ class_of st1 (VRef (length (heap st))) = Some ParagraphStyle
    /\ read_prop st1 (length (heap st)) "name" = VStr nm
    /\ length (heap st) ∈ coll st1 (currDoc st1) "allParagraphStyles"
    /\ length (heap st1) = S (length (heap st))
    /\ (forall q o, heap st !! q = Some o ->
          exists o', heap st1 !! q = Some o'
            /\ props o' = props o /\ cls o' = cls o /\ valid o' = valid o).
Proof.
  intros Hd Hf. eexists. split; [| split; [| repeat split]].
  - rewrite paragraphStyle_by_name, Hf. by apply host_add_style_live.
  - rewrite paragraphStyle_by_name.
    by rewrite (added_style_found st ParagraphStyle "paragraphStyles"
                  "allParagraphStyles" nm Hd).
  - cbn [class_of]. by rewrite added_style_lookup.
  - unfold read_prop. by rewrite added_style_lookup.
  - change (currDoc (with_heap ?h st)) with (currDoc st).
    rewrite added_style_coll by done. set_solver.
  - cbn [heap with_heap]. rewrite !length_alter, length_app. cbn. lia.
  - intros q o Ho. by apply added_style_old.
Qed.

(** X25. Asking twice for the paragraph style of a name answers the same
    style both times. When the document has a paragraph style of that name
    the first call changes nothing; when it has none, the first call creates
    one paragraph style of that name, lists it in the document and leaves
    the class, validity and properties of every older object alone. The
    second call creates nothing. *)
Theorem paragraphStyle_idempotent (st : state) (nm : string) :
  live st (currDoc st) = true ->
  exists s st1,
    paragraphStyle [VStr nm] st = (Return (VRef s), st1)
    /\ paragraphStyle [VStr nm] st1 = (Return (VRef s), st1)
    /\ match findInStylesByName st
               (coll st (currDoc st) "allParagraphStyles") nm with
       | VRef s0 => s = s0 /\ st1 = st
       | _ => heap st !! s = None
              /\ class_of st1 (VRef s) = Some ParagraphStyle
              /\ read_prop st1 s "name" = VStr nm
              /\ s ∈ coll st1 (currDoc st1) "allParagraphStyles"
              /\ length (heap st1) = S (length (heap st))
              /\ (forall q k, q < length (heap st) ->
                    read_prop st1 q k = read_prop st q k)
       end.
Proof.
  intros Hd. unfold findInStylesByName.
  destruct (find _ _) as [s0 |] eqn:Hf.
  - exists s0, st. rewrite paragraphStyle_by_name, Hf. done.
  - destruct (paragraphStyle_creates st nm Hd Hf)
      as (st1 & H1 & H2 & Hc & Hn & Hin & Hl & Hold).
    exists (length (heap st)), st1. repeat split; try done.
    + by apply lookup_ge_None_2.
    + intros q k Hq. destruct (lookup_lt_is_Some_2 _ _ Hq) as [o Ho].
      destruct (Hold q o Ho) as (o' & Ho' & Hp & _).
      unfold read_prop. by rewrite Ho, Ho', Hp.
Qed.

Lemma paragraphStyle_idempotent_witness :
  exists s st1,
    paragraphStyle [VStr "Quote"] sample2 = (Return (VRef s), st1)
    /\ paragraphStyle [VStr "Quote"] st1 = (Return (VRef s), st1)
    /\ heap sample2 !! s = None
    /\ class_of st1 (VRef s) = Some ParagraphStyle
    /\ read_prop st1 s "name" = VStr "Quote"
    /\ s ∈ coll st1 (currDoc st1) "allParagraphStyles"
    /\ length (heap st1) = S (length (heap sample2))
    /\ (forall q k, q < length (heap sample2) ->
          read_prop st1 q k = read_prop sample2 q k).
Proof.
  apply (paragraphStyle_idempotent sample2 "Quote"). reflexivity.
Defined.

(** X26. For a name no paragraph style of the document bears,
    [applyParagraphStyle] fails with its error, whatever the text, and
    creates nothing, while [paragraphStyle] succeeds and creates a paragraph
    style of that name. *)
Theorem paragraph_style_creation_asymmetry (st : state) (text : value)
    (nm : string) :
  live st (currDoc st) = true ->
  findInStylesByName st (coll st (currDoc st) "allParagraphStyles") nm = VNull ->
  applyParagraphStyle text (VStr nm) st
  = (Throw ("applyParagraphStyle(), a paragraph style named "
            +:+ dq +:+ nm +:+ dq +:+ " does not exist."), st)
  /\ exists s st1,
       paragraphStyle [VStr nm] st = (Return (VRef s), st1)
       /\ heap st !! s = None
       /\ class_of st1 (VRef s) = Some ParagraphStyle
       /\ read_prop st1 s "name" = VStr nm
       /\ s ∈ coll st1 (currDoc st1) "allParagraphStyles".
Proof.
  intros Hd Hf. split.
  - unfold applyParagraphStyle, bind, gets. by rewrite Hf.
  - unfold findInStylesByName in Hf.
    destruct (find _ _) as [s0 |] eqn:Hfind; [discriminate |].
    destruct (paragraphStyle_creates st nm Hd Hfind)
      as (st1 & H1 & _ & Hc & Hn & Hin & _).
    exists (length (heap st)), st1. repeat split; try done.
    by apply lookup_ge_None_2.
Qed.

Lemma paragraph_style_creation_asymmetry_witness :
  applyParagraphStyle (VRef 3) (VStr "Title") sample2
  = (Throw ("applyParagraphStyle(), a paragraph style named "
            +:+ dq +:+ "Title" +:+ dq +:+ " does not exist."), sample2)
  /\ exists s st1,
       paragraphStyle [VStr "Title"] sample2 = (Return (VRef s), st1)
       /\ heap sample2 !! s = None
       /\ class_of st1 (VRef s) = Some ParagraphStyle
       /\ read_prop st1 s "name" = VStr "Title"
       /\ s ∈ coll st1 (currDoc st1) "allParagraphStyles".
Proof.
  apply (paragraph_style_creation_asymmetry sample2 (VRef 3) "Title");
    reflexivity.
Defined.

(** ** The parameters of [characterStyle] and [paragraphStyle] *)

(** X27. [characterStyle] and [paragraphStyle] refuse more than two
    arguments, and a first argument that is neither a text range nor a
    string, with their error of wrong parameters; nothing is changed and no
    style is created. *)
Theorem style_getters_wrong_parameters (st : state) (args : list value) :
  2 < length args
  \/ (isText st (arg 0 args) = false /\ isString (arg 0 args) = false) ->
  characterStyle args st
  = (Throw "characterStyle(), wrong parameters. Use: textObject|name and props. Props is optional.", st)
  /\ paragraphStyle args st
     = (Throw "paragraphStyle(), wrong parameters. Use: textObject|name and props. Props is optional.", st).
Proof.
  intros [Hn | [Ht Hs]].
  - apply Nat.ltb_lt in Hn.
    unfold characterStyle, paragraphStyle, bind. by rewrite Hn.
  - unfold characterStyle, paragraphStyle, bind, gets.
    destruct (2 <? length args); [done |]. cbn [ret error].
    rewrite Ht. by destruct (arg 0 args).
Qed.

Lemma style_getters_wrong_parameters_witness :
  characterStyle [VRef 3] sample
  = (Throw "characterStyle(), wrong parameters. Use: textObject|name and props. Props is optional.", sample)
  /\ paragraphStyle [VRef 3] sample
     = (Throw "paragraphStyle(), wrong parameters. Use: textObject|name and props. Props is optional.", sample).
Proof.
  apply (style_getters_wrong_parameters sample [VRef 3]).
  right. split; reflexivity.
Defined.

(** ** The properties of a style *)

(** What the second argument adds to a call with a name. *)
Lemma characterStyle_with_props (st : state) (nm : string) (props : value) :
  characterStyle [VStr nm; props] st
  = match characterStyle [VStr nm] st with
    | (Return style, st1) =>
        if truthy props then
          match host_set_properties style props st1 with
          | (Return _, st2) => (Return style, st2)
          | (Throw _, st2) =>
              (Throw "characterStyle(), wrong props parameter. Use object of property name/value pairs.", st2)
          | (OutOfFuel, st2) => (OutOfFuel, st2)
          end
        else (Return style, st1)
    | r => r
    end.
Proof.
  rewrite characterStyle_by_name.
  unfold characterStyle, bind, gets, try_catch, findInStylesByName.
  cbn -[host_add_style host_set_properties].
  rewrite isText_not_ref by done. cbn beta iota.
  destruct (find _ _) as [r |]; cbn -[host_add_style host_set_properties].
  - destruct (truthy props); [| reflexivity].
    destruct (host_set_properties _ props st) as [[] ?]; reflexivity.
  - destruct (host_add_style _ _ _ _ st) as [[style | e |] st1];
      cbn -[host_set_properties]; try reflexivity.
    destruct (truthy props); [| reflexivity].
    destruct (host_set_properties style props st1) as [[] ?]; reflexivity.
Qed.

Lemma paragraphStyle_with_props (st : state) (nm : string) (props : value) :
  paragraphStyle [VStr nm; props] st
  = match paragraphStyle [VStr nm] st with
    | (Return style, st1) =>
        if truthy props then
          match host_set_properties style props st1 with
          | (Return _, st2) => (Return style, st2)
          | (Throw _, st2) =>
              (Throw "paragraphStyle(), wrong props parameter. Use object of property name/value pairs.", st2)
          | (OutOfFuel, st2) => (OutOfFuel, st2)
          end
        else (Return style, st1)
    | r => r
    end.
Proof.
  rewrite paragraphStyle_by_name.
  unfold paragraphStyle, bind, gets, try_catch, findInStylesByName.
  cbn -[host_add_style host_set_properties].
  rewrite isText_not_ref by done. cbn beta iota.
  destruct (find _ _) as [r |]; cbn -[host_add_style host_set_properties].
  - destruct (truthy props); [| reflexivity].
    destruct (host_set_properties _ props st) as [[] ?]; reflexivity.
  - destruct (host_add_style _ _ _ _ st) as [[style | e |] st1];
      cbn -[host_set_properties]; try reflexivity.
    destruct (truthy props); [| reflexivity].
    destruct (host_set_properties style props st1) as [[] ?]; reflexivity.
Qed.

(** The properties of one live object after the pairs were assigned. *)
Lemma write_pairs_spec (st : state) (s : ref) (kvs : list (string * value))
    (val : value) :
  live st s = true ->
  let st1 := write_obj (PObj kvs) val st s in
  (forall k, read_prop st1 s k
             = default (read_prop st s k) (last_assigned kvs k))
  /\ (forall q, q <> s -> heap st1 !! q = heap st !! q)
  /\ class_of st1 (VRef s) = class_of st (VRef s)
  /\ ctx st1 = ctx st /\ warnings st1 = warnings st.
Proof.
  intros (o & Ho & _)%live_lookup st1. subst st1. repeat split.
  - intros k. unfold read_prop, write_obj. cbn [heap with_heap].
    rewrite list_lookup_alter_eq, Ho. cbn -[apply_property].
    rewrite apply_pairs_lookup. by destruct (last_assigned kvs k).
  - intros q Hq. unfold write_obj. cbn [heap with_heap].
    by rewrite list_lookup_alter_ne.
  - apply (written_class (PObj kvs) val [s] st).
Qed.

(** The host's assignment of [props] to a live object of class [c]. *)
Lemma host_set_properties_live (st : state) (s : ref) (c : hclass)
    (props : value) :
  live st s = true -> class_of st (VRef s) = Some c ->
  host_set_properties (VRef s) props st
  = if accepts_properties st c props
    then match props with
         | VObj kvs => (Return tt, write_obj (PObj kvs) VUndefined st s)
         | _ => (Return tt, st)
         end
    else (Throw "Invalid value for set property 'properties'", st).
Proof.
  intros Hl Hc. destruct (live_lookup _ _ Hl) as (o & Ho & Hv).
  cbn [class_of] in Hc. rewrite Ho in Hc. injection Hc as <-.
  unfold host_set_properties, bind, gets. rewrite Ho, Hv.
  destruct (accepts_properties st (cls o) props); [| done].
  destruct props; try done.
  by rewrite (setProperty_each_live kvs VUndefined).
Qed.

(** X28. Called with the name of an existing live style and an object of
    name/value pairs that the host takes for a style of that kind,
    [characterStyle] and [paragraphStyle] return that style and assign the
    pairs to it: a property the pairs name then holds the value of the last
    pair naming it, the style's other properties and every other object are
    as before, and no style is created. *)
Theorem style_props_assigned (st : state) (cnm pnm : string)
    (kvs : list (string * value)) (cs ps : ref) :
  findInStylesByName st (coll st (currDoc st) "allCharacterStyles") cnm = VRef cs ->
  findInStylesByName st (coll st (currDoc st) "allParagraphStyles") pnm = VRef ps ->
  live st cs = true -> live st ps = true ->
  instanceof st (VRef cs) CharacterStyle = true ->
  instanceof st (VRef ps) ParagraphStyle = true ->
  accepts_properties st CharacterStyle (VObj kvs) = true ->
  accepts_properties st ParagraphStyle (VObj kvs) = true ->
  (exists st1,
     characterStyle [VStr cnm; VObj kvs] st = (Return (VRef cs), st1)
     /\ (forall k, read_prop st1 cs k
                   = default (read_prop st cs k) (last_assigned kvs k))
     /\ (forall q, q <> cs -> heap st1 !! q = heap st !! q)
     /\ length (heap st1) = length (heap st)
     /\ ctx st1 = ctx st /\ warnings st1 = warnings st)
  /\ (exists st1,
        paragraphStyle [VStr pnm; VObj kvs] st = (Return (VRef ps), st1)
        /\ (forall k, read_prop st1 ps k
                      = default (read_prop st ps k) (last_assigned kvs k))
        /\ (forall q, q <> ps -> heap st1 !! q = heap st !! q)
        /\ length (heap st1) = length (heap st)
        /\ ctx st1 = ctx st /\ warnings st1 = warnings st).
Proof.
  unfold findInStylesByName. intros Hc Hp Lc Lp Ic Ip Ac Ap.
  destruct (find _ _) as [c0 |] eqn:Fc in Hc; [| discriminate].
  destruct (find _ _) as [p0 |] eqn:Fp in Hp; [| discriminate].
  injection Hc as ->. injection Hp as ->.
  apply bool_decide_eq_true in Ic, Ip.
  split.
  - destruct (write_pairs_spec st cs kvs VUndefined Lc) as (R & Q & _ & C & W).
    exists (write_obj (PObj kvs) VUndefined st cs).
    split; [| repeat split; try done].
    + rewrite characterStyle_with_props, characterStyle_by_name, Fc.
      cbn [truthy].
      by rewrite (host_set_properties_live st cs CharacterStyle), Ac.
    + unfold write_obj. cbn [heap with_heap]. apply length_alter.
  - destruct (write_pairs_spec st ps kvs VUndefined Lp) as (R & Q & _ & C & W).
    exists (write_obj (PObj kvs) VUndefined st ps).
    split; [| repeat split; try done].
    + rewrite paragraphStyle_with_props, paragraphStyle_by_name, Fp.
      cbn [truthy].
      by rewrite (host_set_properties_live st ps ParagraphStyle), Ap.
    + unfold write_obj. cbn [heap with_heap]. apply length_alter.
Qed.

Lemma style_props_assigned_witness :
  (exists st1,
     characterStyle [VStr "Title"; VObj [("pointSize", VNum 30)]] sample2
     = (Return (VRef 12), st1)
     /\ (forall k, read_prop st1 12 k
                   = default (read_prop sample2 12 k)
                       (last_assigned [("pointSize", VNum 30)] k))
     /\ (forall q, q <> 12 -> heap st1 !! q = heap sample2 !! q)
     /\ length (heap st1) = length (heap sample2)
     /\ ctx st1 = ctx sample2 /\ warnings st1 = warnings sample2)
  /\ (exists st1,
        paragraphStyle [VStr "Body"; VObj [("pointSize", VNum 30)]] sample2
        = (Return (VRef 14), st1)
        /\ (forall k, read_prop st1 14 k
                      = default (read_prop sample2 14 k)
                          (last_assigned [("pointSize", VNum 30)] k))
        /\ (forall q, q <> 14 -> heap st1 !! q = heap sample2 !! q)
        /\ length (heap st1) = length (heap sample2)
        /\ ctx st1 = ctx sample2 /\ warnings st1 = warnings sample2).
Proof.
  apply (style_props_assigned sample2 "Title" "Body"
           [("pointSize", VNum 30)] 12 14); reflexivity.
Defined.

(** The style a miss adds: live, of the class asked for, listed in the
    document; the host's tables are as before. *)
Lemma style_added (st : state) (c : hclass) (own all nm : string) :
  live st (currDoc st) = true -> own <> all ->
  exists st1,
    host_add_style c own all nm st = (Return (VRef (length (heap st))), st1)
    /\ live st1 (length (heap st)) = true
    /\ class_of st1 (VRef (length (heap st))) = Some c
    /\ length (heap st) ∈ coll st1 (currDoc st1) all
    /\ accepts_properties st1 = accepts_properties st.
Proof.
  intros Hd Hne.
  pose proof (host_add_style_live st c own all nm Hd) as E.
  pose proof (added_style_lookup st c own all nm Hd) as Hlk.
  pose proof (added_style_coll st c own all nm Hd Hne) as Hco.
  eexists. split; [exact E |]. repeat split.
  - unfold live. by rewrite Hlk.
  - cbn [class_of]. by rewrite Hlk.
  - change (currDoc (with_heap ?h st)) with (currDoc st).
    rewrite Hco. set_solver.
Qed.

(** X29. When the host refuses the second argument for a style, the
    failure of [characterStyle] and [paragraphStyle] is their error of wrong
    props, whatever the host's own error was, and it comes after the style
    was looked up or created: for a name the document does not know, a new
    style of the kind is listed in the document when the call has failed. *)
Theorem style_wrong_props_after_creation (st : state) (nm : string)
    (props : value) :
  live st (currDoc st) = true ->
  truthy props = true ->
  accepts_properties st CharacterStyle props = false ->
  accepts_properties st ParagraphStyle props = false ->
  findInStylesByName st (coll st (currDoc st) "allCharacterStyles") nm = VNull ->
  findInStylesByName st (coll st (currDoc st) "allParagraphStyles") nm = VNull ->
  (exists s st1,
     characterStyle [VStr nm; props] st
     = (Throw "characterStyle(), wrong props parameter. Use object of property name/value pairs.", st1)
     /\ heap st !! s = None
     /\ class_of st1 (VRef s) = Some CharacterStyle
     /\ s ∈ coll st1 (currDoc st1) "allCharacterStyles")
  /\ (exists s st1,
        paragraphStyle [VStr nm; props] st
        = (Throw "paragraphStyle(), wrong props parameter. Use object of property name/value pairs.", st1)
        /\ heap st !! s = None
        /\ class_of st1 (VRef s) = Some ParagraphStyle
        /\ s ∈ coll st1 (currDoc st1) "allParagraphStyles").
Proof.
  unfold findInStylesByName. intros Hd Ht Ac Ap Hc Hp.
  destruct (find _ _) as [|] eqn:Fc in Hc; [discriminate |].
  destruct (find _ _) as [|] eqn:Fp in Hp; [discriminate |].
  split.
  - destruct (style_added st CharacterStyle "characterStyles"
                "allCharacterStyles" nm Hd)
      as (st1 & E & Hl & Hcl & Hin & Hacc); [done |].
    exists (length (heap st)), st1. repeat split; try done.
    + rewrite characterStyle_with_props, characterStyle_by_name, Fc, E, Ht.
      by rewrite (host_set_properties_live st1 _ CharacterStyle), Hacc, Ac.
    + by apply lookup_ge_None_2.
  - destruct (style_added st ParagraphStyle "paragraphStyles"
                "allParagraphStyles" nm Hd)
      as (st1 & E & Hl & Hcl & Hin & Hacc); [done |].
    exists (length (heap st)), st1. repeat split; try done.
    + rewrite paragraphStyle_with_props, paragraphStyle_by_name, Fp, E, Ht.
      by rewrite (host_set_properties_live st1 _ ParagraphStyle), Hacc, Ap.
    + by apply lookup_ge_None_2.
Qed.

Lemma style_wrong_props_after_creation_witness :
  (exists s st1,
     characterStyle [VStr "Quote"; VNum 12] sample2
     = (Throw "characterStyle(), wrong props parameter. Use object of property name/value pairs.", st1)
     /\ heap sample2 !! s = None
     /\ class_of st1 (VRef s) = Some CharacterStyle
     /\ s ∈ coll st1 (currDoc st1) "allCharacterStyles")
  /\ (exists s st1,
        paragraphStyle [VStr "Quote"; VNum 12] sample2
        = (Throw "paragraphStyle(), wrong props parameter. Use object of property name/value pairs.", st1)
        /\ heap sample2 !! s = None
        /\ class_of st1 (VRef s) = Some ParagraphStyle
        /\ s ∈ coll st1 (currDoc st1) "allParagraphStyles").
Proof.
  apply (style_wrong_props_after_creation sample2 "Quote" (VNum 12));
    reflexivity.
Defined.
